(** * Collaborative canvas: the server-side coordination engine

    A shallow embedding of the three server modules of the repository,

    - [src/server/drawing-state.js]  (module [DrawingState]),
    - [src/server/rooms.js]          (module [RoomManager]),
    - [src/server/server.js]         (module [Server]),

    and of the part of the client that talks to them,

    - [src/client/canvas.js]         (module [Client]),

    with the properties of the specification that they decide and further
    properties of the code.

    JavaScript values are an inductive type, numbers are IEEE 754 binary64
    floats (Rocq's primitive floats), strings are sequences of 8-bit
    characters (the code tells letters, digits and the hyphen from all the
    other characters, and compares strings for equality), the two
    process-wide [Map]s keyed by room identifier are [gmap string _], a
    room's member [Map] (whose insertion order is observable through
    [getUsers]) is an association list, and a method that reads or writes
    the shared maps and may throw is a function from the store to a result
    and the store it leaves behind.  An array or a [Map] that the source
    mutates in place is reached through the key of its room, so that every
    reader sees the mutation. *)

From Stdlib Require Import PrimFloat ZArith Sorted.
From stdpp Require Import base tactics option list strings gmap.

Local Open Scope string_scope.
Local Open Scope Z_scope.

(** * The code *)

(** ** JavaScript values *)

Module JS.

#[warnings="-register-all"] Inductive value : Type :=
| JUndefined
| JNull
| JBool (b : bool)
| JNum (n : float)
| JStr (s : string)
| JObj (fields : list (string * value))
| JArr (items : list value).

(** [typeof v]. *)
Definition typeof (v : value) : string :=
  match v with
  | JUndefined => "undefined"
  | JNull => "object"
  | JBool _ => "boolean"
  | JNum _ => "number"
  | JStr _ => "string"
  | JObj _ | JArr _ => "object"
  end.

(** [NaN] is the one number that differs from itself. *)
Definition is_nan (n : float) : bool := negb (PrimFloat.eqb n n).

(** ToBoolean: [!v] is [negb (truthy v)]. *)
Definition truthy (v : value) : bool :=
  match v with
  | JUndefined | JNull => false
  | JBool b => b
  | JNum n => negb (PrimFloat.eqb n 0%float || is_nan n)
  | JStr s => negb (String.eqb s "")
  | JObj _ | JArr _ => true
  end.

(** [v === s] for a string literal [s]. *)
Definition is_str (v : value) (s : string) : bool :=
  match v with
  | JStr t => String.eqb t s
  | _ => false
  end.

(** [a < b]; the source compares only values whose [typeof] is
    ["number"], other operands are never reached. *)
Definition lt (a b : value) : bool :=
  match a, b with
  | JNum x, JNum y => PrimFloat.ltb x y
  | _, _ => false
  end.

(** The value of the own property [k] of an object, [undefined] when it
    has none. *)
Fixpoint own_property (fields : list (string * value)) (k : string) : value :=
  match fields with
  | [] => JUndefined
  | (k', v) :: rest => if String.eqb k' k then v else own_property rest k
  end.

(** [Array.prototype.pop]: the last element ([undefined] on an empty
    array) and the array that is left. *)
Definition pop (a : list value) : value * list value :=
  (default JUndefined (last a), removelast a).

(** [Array.prototype.shift]: the array that is left. *)
Definition shift (a : list value) : list value := tail a.

(** [Array.prototype.push]. *)
Definition push (a : list value) (v : value) : list value := a ++ [v].

End JS.
Export JS.

(** ** Methods on a shared store that may throw *)

Inductive result (A : Type) : Type :=
| Ok (a : A)
| Throw (msg : string).
Arguments Ok {A} a.
Arguments Throw {A} msg.

(** A method leaves a store behind whether it returns or throws. *)
Definition M (S A : Type) : Type := S → result A * S.

Definition ret {S A} (a : A) : M S A := λ σ, (Ok a, σ).
Definition throw {S A} (msg : string) : M S A := λ σ, (Throw msg, σ).
Definition bind {S A B} (c : M S A) (k : A → M S B) : M S B :=
  λ σ, match c σ with
       | (Ok a, σ') => k a σ'
       | (Throw msg, σ') => (Throw msg, σ')
       end.
Definition gets {S A} (f : S → A) : M S A := λ σ, (Ok (f σ), σ).
Definition modify {S} (f : S → S) : M S unit := λ σ, (Ok tt, f σ).

(** [try { body } catch (error) { handler }]. *)
Definition try_catch {S A} (body : M S A) (handler : string → M S A) : M S A :=
  λ σ, match body σ with
       | (Ok a, σ') => (Ok a, σ')
       | (Throw msg, σ') => handler msg σ'
       end.

Declare Scope js_scope.
Delimit Scope js_scope with js.
Notation "'let*' x ':=' c 'in' k" := (bind c (λ x, k))
  (at level 10, x pattern, c at level 100, k at level 200) : js_scope.
Notation "c ';;' k" := (bind c (λ _, k))
  (at level 100, k at level 200, right associativity) : js_scope.

(** ** drawing-state.js *)

Module DrawingState.

(** [{ history: Array, redoStack: Array }] *)
Record RoomState : Type := mkRoomState {
  history : list value;
  redoStack : list value
}.

(** The fresh object [_getRoomState] stores for an unknown room. *)
Definition fresh : RoomState := mkRoomState [] [].

Definition MAX_HISTORY_SIZE : Z := 10000.

(** The state object of room [r]; the methods only dereference a room
    that [_getRoomState] has just looked up or created. *)
Definition room_state (r : string) (σ : gmap string RoomState) : RoomState :=
  default fresh (σ !! r).

Definition set_history (r : string) (h : list value) : M (gmap string RoomState) unit :=
  modify (λ σ, <[r := mkRoomState h (redoStack (room_state r σ))]> σ).

Definition set_redoStack (r : string) (s : list value) : M (gmap string RoomState) unit :=
  modify (λ σ, <[r := mkRoomState (history (room_state r σ)) s]> σ).

(** The object returned by the source is the one stored under the key;
    it is represented here by that key. *)
Definition _getRoomState (roomId : value) : M (gmap string RoomState) string :=
  if negb (truthy roomId) || negb (String.eqb (typeof roomId) "string")
  then throw "Invalid roomId"
  else match roomId with
       | JStr r =>
           λ σ, if bool_decide (is_Some (σ !! r)) then (Ok r, σ)
                else (Ok r, <[r := fresh]> σ)
       | _ => throw "Invalid roomId" (* typeof is "string" for JStr only *)
       end.

Definition getHistory (roomId : value) : M (gmap string RoomState) (list value) :=
  (let* r := _getRoomState roomId in
   gets (λ σ, history (room_state r σ)))%js.

Definition addOperation (roomId operation : value) : M (gmap string RoomState) unit :=
  if negb (truthy operation) || negb (String.eqb (typeof operation) "object")
  then throw "Invalid operation"
  else
    (let* r := _getRoomState roomId in
     let* h := gets (λ σ, history (room_state r σ)) in
     set_history r (push h operation) ;;
     set_redoStack r [] ;;
     let* h := gets (λ σ, history (room_state r σ)) in
     if Z.of_nat (length h) >? MAX_HISTORY_SIZE
     then set_history r (shift h)
     else ret tt)%js.

Definition undo (roomId : value) : M (gmap string RoomState) (list value) :=
  (let* r := _getRoomState roomId in
   let* h := gets (λ σ, history (room_state r σ)) in
   if Nat.eqb (length h) 0
   then ret h
   else
     let '(lastOperation, h') := pop h in
     set_history r h' ;;
     let* s := gets (λ σ, redoStack (room_state r σ)) in
     set_redoStack r (push s lastOperation) ;;
     gets (λ σ, history (room_state r σ)))%js.

Definition redo (roomId : value) : M (gmap string RoomState) (list value) :=
  (let* r := _getRoomState roomId in
   let* s := gets (λ σ, redoStack (room_state r σ)) in
   if Nat.eqb (length s) 0
   then gets (λ σ, history (room_state r σ))
   else
     let '(nextOperation, s') := pop s in
     set_redoStack r s' ;;
     let* h := gets (λ σ, history (room_state r σ)) in
     set_history r (push h nextOperation) ;;
     gets (λ σ, history (room_state r σ)))%js.

Definition canUndo (roomId : value) : M (gmap string RoomState) bool :=
  (let* r := _getRoomState roomId in
   gets (λ σ, negb (Nat.eqb (length (history (room_state r σ))) 0)))%js.

Definition canRedo (roomId : value) : M (gmap string RoomState) bool :=
  (let* r := _getRoomState roomId in
   gets (λ σ, negb (Nat.eqb (length (redoStack (room_state r σ))) 0)))%js.

Definition clear (roomId : value) : M (gmap string RoomState) unit :=
  (let* r := _getRoomState roomId in
   set_history r [] ;;
   set_redoStack r [])%js.

(** [roomStates.delete(roomId)]: a key that is not a string is in no
    entry of the map. *)
Definition deleteRoom (roomId : value) : M (gmap string RoomState) unit :=
  modify (λ σ, match roomId with
               | JStr r => delete r σ
               | _ => σ
               end).

End DrawingState.

(** ** rooms.js *)

Module RoomManager.

(** [{ color }], the data stored for a member. *)
Record UserData : Type := mkUserData { color : value }.

(** A room is a [Map<userId, { color }>]; its entries are kept in
    insertion order, the order [getUsers] returns them in. *)
Abbreviation Room := (list (string * UserData)).

Definition USER_COLORS : list string :=
  [ "#FF5733"; "#33FF57"; "#3357FF"; "#FF33A1"; "#A133FF";
    "#33FFF6"; "#F6FF33"; "#FF8C33"; "#8C33FF"; "#33FF8C";
    "#FF6B6B"; "#4ECDC4"; "#45B7D1"; "#FFA07A"; "#98D8C8";
    "#F7DC6F"; "#BB8FCE"; "#85C1E2"; "#F8B739"; "#52B788" ].

(** [USER_COLORS[i]]: [undefined] past the end of the array. *)
Definition USER_COLORS_at (i : nat) : value :=
  match USER_COLORS !! i with
  | Some c => JStr c
  | None => JUndefined
  end.

(** [Map.prototype.has], [get], [set] and [delete] on a room. *)
Fixpoint has (room : Room) (userId : string) : bool :=
  match room with
  | [] => false
  | (k, _) :: rest => String.eqb k userId || has rest userId
  end.

Fixpoint get (room : Room) (userId : string) : option UserData :=
  match room with
  | [] => None
  | (k, d) :: rest => if String.eqb k userId then Some d else get rest userId
  end.

Fixpoint set (room : Room) (userId : string) (d : UserData) : Room :=
  match room with
  | [] => [(userId, d)]
  | (k, d') :: rest =>
      if String.eqb k userId then (k, d) :: rest else (k, d') :: set rest userId d
  end.

Fixpoint remove (room : Room) (userId : string) : Room :=
  match room with
  | [] => []
  | (k, d) :: rest =>
      if String.eqb k userId then rest else (k, d) :: remove rest userId
  end.

(** The room stored under [r]; the methods only dereference a room that
    [_getRoom] has just looked up or created. *)
Definition room_of (r : string) (ρ : gmap string Room) : Room :=
  default [] (ρ !! r).

(** [{ color, users }] as [addUser] returns it; an element of [users] is
    an [{ id, color }]. *)
Record Joined : Type := mkJoined {
  joined_color : value;
  users : list (string * value)
}.

(** The [Map] returned by the source is the one stored under the key; it
    is represented here by that key. *)
Definition _getRoom (roomId : value) : M (gmap string Room) string :=
  if negb (truthy roomId) || negb (String.eqb (typeof roomId) "string")
  then throw "Invalid roomId"
  else match roomId with
       | JStr r =>
           λ ρ, if bool_decide (is_Some (ρ !! r)) then (Ok r, ρ)
                else (Ok r, <[r := []]> ρ)
       | _ => throw "Invalid roomId" (* typeof is "string" for JStr only *)
       end.

Definition getUsers (roomId : value) : M (gmap string Room) (list (string * value)) :=
  (let* r := _getRoom roomId in
   gets (λ ρ, map (λ e, (e.1, color e.2)) (room_of r ρ)))%js.

Definition addUser (roomId userId : value) : M (gmap string Room) Joined :=
  if negb (truthy userId) || negb (String.eqb (typeof userId) "string")
  then throw "Invalid userId"
  else match userId with
       | JStr u =>
           (let* r := _getRoom roomId in
            let* room := gets (room_of r) in
            if has room u
            then
              let* us := getUsers roomId in
              ret (mkJoined (default JUndefined (color <$> get room u)) us)
            else
              let c := USER_COLORS_at (length room mod length USER_COLORS) in
              modify (λ ρ, <[r := set (room_of r ρ) u (mkUserData c)]> ρ) ;;
              let* us := getUsers roomId in
              ret (mkJoined c us))%js
       | _ => throw "Invalid userId" (* typeof is "string" for JStr only *)
       end.

(** A [userId] that is not a string is the key of no entry. *)
Definition removeUser (roomId userId : value) : M (gmap string Room) unit :=
  (let* r := _getRoom roomId in
   modify (λ ρ, <[r := match userId with
                       | JStr u => remove (room_of r ρ) u
                       | _ => room_of r ρ
                       end]> ρ) ;;
   let* room := gets (room_of r) in
   if Nat.eqb (length room) 0
   then modify (λ ρ, delete r ρ)
   else ret tt)%js.

Definition getUserCount (roomId : value) : M (gmap string Room) nat :=
  gets (λ ρ, match roomId with
             | JStr r => match ρ !! r with
                         | Some room => length room
                         | None => 0%nat
                         end
             | _ => 0%nat
             end).

Definition hasUser (roomId userId : value) : M (gmap string Room) bool :=
  gets (λ ρ, match roomId, userId with
             | JStr r, JStr u => match ρ !! r with
                                 | Some room => has room u
                                 | None => false
                                 end
             | JStr r, _ => false
             | _, _ => false
             end).

End RoomManager.

(** ** server.js *)

Module Server.

Definition rbind {A B} (c : result A) (k : A → result B) : result B :=
  match c with
  | Ok a => k a
  | Throw msg => Throw msg
  end.

Notation "'let?' x ':=' c 'in' k" := (rbind c (λ x, k))
  (at level 10, x pattern, c at level 100, k at level 200) : js_scope.

(** [v.k] for the property names read here, none of which is inherited
    from a prototype: reading a property of [undefined] or [null] throws
    a [TypeError], any other value without that own property gives
    [undefined]. *)
Definition prop (v : value) (k : string) : result value :=
  match v with
  | JUndefined | JNull => Throw "TypeError"
  | JObj fields => Ok (own_property fields k)
  | _ => Ok JUndefined
  end.

Definition isValidOperation (op : value) : result bool :=
  if negb (truthy op) || negb (String.eqb (typeof op) "object") then Ok false
  else
    (let? from := prop op "from" in
     let? to := prop op "to" in
     if negb (truthy from) || negb (truthy to)
        || negb (String.eqb (typeof from) "object")
        || negb (String.eqb (typeof to) "object")
     then Ok false
     else
       let? from_x := prop from "x" in
       let? from_y := prop from "y" in
       if negb (String.eqb (typeof from_x) "number")
          || negb (String.eqb (typeof from_y) "number")
       then Ok false
       else
         let? to_x := prop to "x" in
         let? to_y := prop to "y" in
         if negb (String.eqb (typeof to_x) "number")
            || negb (String.eqb (typeof to_y) "number")
         then Ok false
         else
           let? tool := prop op "tool" in
           if negb (truthy tool)
              || (negb (is_str tool "brush") && negb (is_str tool "eraser"))
           then Ok false
           else
             let? lineWidth := prop op "lineWidth" in
             if negb (String.eqb (typeof lineWidth) "number")
                || lt lineWidth (JNum 1) || lt (JNum 100) lineWidth
             then Ok false
             else
               let? color := prop op "color" in
               if is_str tool "brush"
                  && (negb (truthy color) || negb (String.eqb (typeof color) "string"))
               then Ok false
               else Ok true)%js.

Definition isValidCursorData (data : value) : result bool :=
  if negb (truthy data) || negb (String.eqb (typeof data) "object") then Ok false
  else
    (let? pos := prop data "pos" in
     if negb (truthy pos) || negb (String.eqb (typeof pos) "object") then Ok false
     else
       let? x := prop pos "x" in
       let? y := prop pos "y" in
       if negb (String.eqb (typeof x) "number") || negb (String.eqb (typeof y) "number")
       then Ok false
       else Ok true)%js.

(** The complement of the class [[^a-zA-Z0-9-]]. *)
Definition allowed (c : Ascii.ascii) : bool :=
  let n := Ascii.N_of_ascii c in
  ((97 <=? n) && (n <=? 122) || (65 <=? n) && (n <=? 90)
   || (48 <=? n) && (n <=? 57) || (n =? 45))%N.

(** [s.replace(/[^a-zA-Z0-9-]/g, '')] *)
Fixpoint strip (s : string) : string :=
  match s with
  | EmptyString => EmptyString
  | String c rest => if allowed c then String c (strip rest) else strip rest
  end.

Definition sanitizeRoomId (roomId : value) : string :=
  if negb (truthy roomId) || negb (String.eqb (typeof roomId) "string")
  then "default-room"
  else match roomId with
       | JStr s =>
           let id := String.substring 0 50 (strip s) in
           if truthy (JStr id) then id else "default-room"
       | _ => "default-room" (* typeof is "string" for JStr only *)
       end.

(** *** Connections *)

(** [let currentRoom = null; let userColor = null;] of one connection. *)
Record Session : Type := mkSession {
  currentRoom : value;
  userColor : value
}.

(** Whom an emitted message is for: [socket.emit], [socket.broadcast.to(room)]
    and [io.to(room)]. *)
Inductive audience : Type :=
| ToSocket (id : string)
| BroadcastTo (sender : string) (room : value)
| IoTo (room : value).

Record emitted : Type := mkEmitted {
  target : audience;
  event : string;
  args : list value
}.

(** The two singletons, the closure variables of the connections by
    [socket.id], and the messages emitted so far, oldest first.  The
    transport's own room membership ([socket.join]) and the console are
    not part of the model. *)
Record World : Type := mkWorld {
  rooms : gmap string RoomManager.Room;
  roomStates : gmap string DrawingState.RoomState;
  sessions : gmap string Session;
  outbox : list emitted
}.

Definition session (id : string) (w : World) : Session :=
  default (mkSession JNull JNull) (sessions w !! id).

(** A [RoomManager] method, called from a handler. *)
Definition onRooms {A} (c : M (gmap string RoomManager.Room) A) : M World A :=
  λ w, let '(a, ρ) := c (rooms w) in
       (a, mkWorld ρ (roomStates w) (sessions w) (outbox w)).

(** A [DrawingState] method, called from a handler. *)
Definition onStates {A} (c : M (gmap string DrawingState.RoomState) A) : M World A :=
  λ w, let '(a, σ) := c (roomStates w) in
       (a, mkWorld (rooms w) σ (sessions w) (outbox w)).

Definition pure {A} (c : result A) : M World A := λ w, (c, w).

Definition emit (to : audience) (ev : string) (payload : list value) : M World unit :=
  modify (λ w, mkWorld (rooms w) (roomStates w) (sessions w)
                 (outbox w ++ [mkEmitted to ev payload])).

Definition set_currentRoom (id : string) (v : value) : M World unit :=
  modify (λ w, mkWorld (rooms w) (roomStates w)
                 (<[id := mkSession v (userColor (session id w))]> (sessions w))
                 (outbox w)).

Definition set_userColor (id : string) (v : value) : M World unit :=
  modify (λ w, mkWorld (rooms w) (roomStates w)
                 (<[id := mkSession (currentRoom (session id w)) v]> (sessions w))
                 (outbox w)).

Definition user_object (u : string * value) : value :=
  JObj [("id", JStr u.1); ("color", u.2)].

Definition undo_redo_state (canUndo canRedo : bool) : value :=
  JObj [("canUndo", JBool canUndo); ("canRedo", JBool canRedo)].

(** [io.on('connection', ...)]: the closure variables start as [null]. *)
Definition on_connection (id : string) : M World unit :=
  modify (λ w, mkWorld (rooms w) (roomStates w)
                 (<[id := mkSession JNull JNull]> (sessions w)) (outbox w)).

Definition on_JOIN_ROOM (id : string) (roomId : value) : M World unit :=
  try_catch
    (let room := JStr (sanitizeRoomId roomId) in
     set_currentRoom id room ;;
     let* j := onRooms (RoomManager.addUser room (JStr id)) in
     let color := RoomManager.joined_color j in
     set_userColor id color ;;
     emit (ToSocket id) "USER_INIT"
       [JObj [("id", JStr id); ("color", color);
              ("users", JArr (map user_object (RoomManager.users j)))]] ;;
     let* history := onStates (DrawingState.getHistory room) in
     emit (ToSocket id) "DRAW_HISTORY" [JArr history] ;;
     let* cu := onStates (DrawingState.canUndo room) in
     let* cr := onStates (DrawingState.canRedo room) in
     emit (ToSocket id) "UNDO_REDO_STATE" [undo_redo_state cu cr] ;;
     emit (BroadcastTo id room) "USER_JOINED"
       [JObj [("id", JStr id); ("color", color)]])%js
    (λ _, emit (ToSocket id) "ERROR" [JObj [("message", JStr "Failed to join room")]]).

Definition on_DRAW (id : string) (data : value) : M World unit :=
  (let* room := gets (λ w, currentRoom (session id w)) in
   if negb (truthy room) then ret tt
   else
     try_catch
       (let* valid := pure (isValidOperation data) in
        if negb valid then ret tt
        else
          onStates (DrawingState.addOperation room data) ;;
          emit (BroadcastTo id room) "DRAW" [data] ;;
          let* cu := onStates (DrawingState.canUndo room) in
          let* cr := onStates (DrawingState.canRedo room) in
          emit (IoTo room) "UNDO_REDO_STATE" [undo_redo_state cu cr])
       (λ _, ret tt))%js.

Definition on_CURSOR_MOVE (id : string) (data : value) : M World unit :=
  (let* room := gets (λ w, currentRoom (session id w)) in
   if negb (truthy room) then ret tt
   else
     try_catch
       (let* valid := pure (isValidCursorData data) in
        if negb valid then ret tt
        else
          let* pos := pure (prop data "pos") in
          let* color := gets (λ w, userColor (session id w)) in
          emit (BroadcastTo id room) "CURSOR_MOVE"
            [JObj [("id", JStr id); ("pos", pos); ("color", color)]])
       (λ _, ret tt))%js.

Definition on_UNDO (id : string) : M World unit :=
  (let* room := gets (λ w, currentRoom (session id w)) in
   if negb (truthy room) then ret tt
   else
     try_catch
       (let* newHistory := onStates (DrawingState.undo room) in
        emit (IoTo room) "DRAW_HISTORY" [JArr newHistory] ;;
        let* cu := onStates (DrawingState.canUndo room) in
        let* cr := onStates (DrawingState.canRedo room) in
        emit (IoTo room) "UNDO_REDO_STATE" [undo_redo_state cu cr])
       (λ _, ret tt))%js.

Definition on_REDO (id : string) : M World unit :=
  (let* room := gets (λ w, currentRoom (session id w)) in
   if negb (truthy room) then ret tt
   else
     try_catch
       (let* newHistory := onStates (DrawingState.redo room) in
        emit (IoTo room) "DRAW_HISTORY" [JArr newHistory] ;;
        let* cu := onStates (DrawingState.canUndo room) in
        let* cr := onStates (DrawingState.canRedo room) in
        emit (IoTo room) "UNDO_REDO_STATE" [undo_redo_state cu cr])
       (λ _, ret tt))%js.

Definition on_CLEAR (id : string) : M World unit :=
  (let* room := gets (λ w, currentRoom (session id w)) in
   if negb (truthy room) then ret tt
   else
     try_catch
       (onStates (DrawingState.clear room) ;;
        emit (IoTo room) "CLEAR" [] ;;
        emit (IoTo room) "UNDO_REDO_STATE" [undo_redo_state false false])
       (λ _, ret tt))%js.

Definition on_REQUEST_HISTORY (id : string) : M World unit :=
  (let* room := gets (λ w, currentRoom (session id w)) in
   if negb (truthy room) then ret tt
   else
     try_catch
       (let* history := onStates (DrawingState.getHistory room) in
        emit (ToSocket id) "DRAW_HISTORY" [JArr history] ;;
        let* cu := onStates (DrawingState.canUndo room) in
        let* cr := onStates (DrawingState.canRedo room) in
        emit (ToSocket id) "UNDO_REDO_STATE" [undo_redo_state cu cr])
       (λ _, ret tt))%js.

Definition on_disconnect (id : string) : M World unit :=
  (let* room := gets (λ w, currentRoom (session id w)) in
   if truthy room
   then
     try_catch
       (onRooms (RoomManager.removeUser room (JStr id)) ;;
        emit (IoTo room) "USER_LEFT" [JStr id] ;;
        let* n := onRooms (RoomManager.getUserCount room) in
        if Nat.eqb n 0
        then onStates (DrawingState.deleteRoom room)
        else ret tt)
       (λ _, ret tt)
   else ret tt)%js.

(** *** Inbound events *)

Inductive inbound : Type :=
| Connection
| JOIN_ROOM (roomId : value)
| DRAW (data : value)
| CURSOR_MOVE (data : value)
| UNDO
| REDO
| CLEAR
| REQUEST_HISTORY
| Disconnect.

Definition handler (id : string) (msg : inbound) : M World unit :=
  match msg with
  | Connection => on_connection id
  | JOIN_ROOM roomId => on_JOIN_ROOM id roomId
  | DRAW data => on_DRAW id data
  | CURSOR_MOVE data => on_CURSOR_MOVE id data
  | UNDO => on_UNDO id
  | REDO => on_REDO id
  | CLEAR => on_CLEAR id
  | REQUEST_HISTORY => on_REQUEST_HISTORY id
  | Disconnect => on_disconnect id
  end.

(** The server processes one event of one connection at a time. *)
Definition process (w : World) (e : string * inbound) : World :=
  (handler e.1 e.2 w).2.

Definition process_all (es : list (string * inbound)) (w : World) : World :=
  foldl process w es.

Definition start : World := mkWorld ∅ ∅ ∅ [].

End Server.

(** ** canvas.js *)

(** The client: the view that turns mouse events into drawing operations,
    the controller that sends them on the socket, and the wiring of the
    two to the toolbar.  Drawing on the two canvases and writing to the
    page are left out; the handlers of the messages that come from the
    server do nothing else, and are left out with them. *)

Module Client.
Import Server.

(** [fields.k = v]: an own property keeps its place, a new one comes
    last. *)
Fixpoint set_property (fields : list (string * value)) (k : string) (v : value)
  : list (string * value) :=
  match fields with
  | [] => [(k, v)]
  | (k', v') :: rest =>
      if String.eqb k' k then (k', v) :: rest
      else (k', v') :: set_property rest k v
  end.

(** [Object.assign(target, source)] *)
Definition assign (target source : list (string * value)) : list (string * value) :=
  foldl (λ t kv, set_property t kv.1 kv.2) target source.

(** *** CanvasView *)

(** What the handlers read of a mouse event and of the bounding rectangle
    of the drawing canvas. *)
Record MouseEvent : Type := mkMouseEvent { clientX : float; clientY : float }.
Record DOMRect : Type := mkDOMRect { left : float; top : float }.

Record CanvasView : Type := mkCanvasView {
  state : list (string * value);
  isDrawing : bool;
  lastPos : value
}.

Definition new_CanvasView : CanvasView :=
  mkCanvasView [("color", JStr "#000000"); ("lineWidth", JNum 5); ("tool", JStr "brush")]
               false
               (JObj [("x", JNum 0); ("y", JNum 0)]).

Definition setState (newState : list (string * value)) (v : CanvasView) : CanvasView :=
  mkCanvasView (assign (state v) newState) (isDrawing v) (lastPos v).

Definition _getMousePos (rect : DOMRect) (e : MouseEvent) : value :=
  JObj [("x", JNum (clientX e - left rect)); ("y", JNum (clientY e - top rect))].

Definition _onMouseDown (rect : DOMRect) (e : MouseEvent) (v : CanvasView) : CanvasView :=
  mkCanvasView (state v) true (_getMousePos rect e).

Definition _onMouseUp (v : CanvasView) : CanvasView :=
  mkCanvasView (state v) false (lastPos v).

(** The callbacks act on what is outside the view, [E]. *)
Section Callbacks.
Context {E : Type}.

(** [if (this.f) { this.f(x); }] *)
Definition call (f : option (value → E → E)) (x : value) (env : E) : E :=
  match f with
  | Some g => g x env
  | None => env
  end.

Definition _onMouseMove (onDraw onCursorMove : option (value → E → E))
    (rect : DOMRect) (e : MouseEvent) (v : CanvasView) (env : E) : CanvasView * E :=
  let currentPos := _getMousePos rect e in
  if isDrawing v then
    let operation :=
      [("tool", own_property (state v) "tool");
       ("lineWidth", own_property (state v) "lineWidth");
       ("from", lastPos v);
       ("to", currentPos)] in
    let operation :=
      if is_str (own_property (state v) "tool") "brush"
      then set_property operation "color" (own_property (state v) "color")
      else operation in
    (mkCanvasView (state v) (isDrawing v) currentPos, call onDraw (JObj operation) env)
  else (v, call onCursorMove currentPos env).

(** What [resizeCanvas] does besides sizing the canvases. *)
Definition resizeCanvas (onRequestHistory : option (value → E → E)) (env : E) : E :=
  call onRequestHistory JUndefined env.

End Callbacks.

(** *** WebSocketClient *)

(** The socket is the sequence of the messages emitted on it; a message
    is named as the server's handler of it.  [Date.now()] is a whole
    number of milliseconds. *)
Record WebSocketClient : Type := mkWebSocketClient {
  socket : list inbound;
  lastCursorSend : Z;
  isConnected : bool;
  reconnectAttempts : value
}.

Definition cursorThrottleMs : Z := 50.

Definition new_WebSocketClient : WebSocketClient :=
  mkWebSocketClient [] 0 false (JNum 0).

Definition emit (msg : inbound) (c : WebSocketClient) : WebSocketClient :=
  mkWebSocketClient (socket c ++ [msg]) (lastCursorSend c) (isConnected c)
                    (reconnectAttempts c).

Definition on_connect (c : WebSocketClient) : WebSocketClient :=
  emit (JOIN_ROOM (JStr "default-room"))
       (mkWebSocketClient (socket c) (lastCursorSend c) true (JNum 0)).

Definition on_reconnect (attemptNumber : value) (c : WebSocketClient) : WebSocketClient :=
  emit (JOIN_ROOM (JStr "default-room"))
       (mkWebSocketClient (socket c) (lastCursorSend c) (isConnected c) attemptNumber).

Definition on_reconnect_attempt (attemptNumber : value) (c : WebSocketClient)
  : WebSocketClient :=
  mkWebSocketClient (socket c) (lastCursorSend c) (isConnected c) attemptNumber.

(** On the reason ['io server disconnect'] the handler also asks the
    socket to connect again; the connection comes as a later event. *)
Definition on_disconnect (reason : value) (c : WebSocketClient) : WebSocketClient :=
  mkWebSocketClient (socket c) (lastCursorSend c) false (reconnectAttempts c).

Definition sendDraw (op : value) (c : WebSocketClient) : WebSocketClient :=
  if negb (isConnected c) then c
  else emit (DRAW op) c.

Definition sendCursor (now : Z) (pos : value) (c : WebSocketClient) : WebSocketClient :=
  if negb (isConnected c) then c
  else if now - lastCursorSend c <? cursorThrottleMs then c
  else emit (CURSOR_MOVE (JObj [("pos", pos)]))
            (mkWebSocketClient (socket c) now (isConnected c) (reconnectAttempts c)).

Definition sendUndo (c : WebSocketClient) : WebSocketClient :=
  if negb (isConnected c) then c
  else emit UNDO c.

Definition sendRedo (c : WebSocketClient) : WebSocketClient :=
  if negb (isConnected c) then c
  else emit REDO c.

(** [confirm] is the answer to the confirmation dialog. *)
Definition sendClear (confirm : bool) (c : WebSocketClient) : WebSocketClient :=
  if negb (isConnected c) then c
  else if negb confirm then c
  else emit CLEAR c.

Definition requestHistory (c : WebSocketClient) : WebSocketClient :=
  if negb (isConnected c) then c
  else emit REQUEST_HISTORY c.

(** *** The application *)

Record App : Type := mkApp { canvasView : CanvasView; wsClient : WebSocketClient }.

(** The two objects as [DOMContentLoaded] builds them. *)
Definition main : App := mkApp new_CanvasView new_WebSocketClient.

Definition onDraw : option (value → WebSocketClient → WebSocketClient) :=
  Some (λ op, sendDraw op).

Definition onCursorMove (now : Z) : option (value → WebSocketClient → WebSocketClient) :=
  Some (λ pos, sendCursor now pos).

Definition onRequestHistory : option (value → WebSocketClient → WebSocketClient) :=
  Some (λ _, requestHistory).

Record KeyboardEvent : Type := mkKeyboardEvent {
  ctrlKey : bool;
  metaKey : bool;
  shiftKey : bool;
  key : string
}.

(** The events of the page and of the socket that the application
    listens to.  A touch is dispatched as the mouse event at its place;
    the width is what [parseInt] made of the slider's text. *)
Inductive event : Type :=
| Mousedown (rect : DOMRect) (e : MouseEvent)
| Mousemove (rect : DOMRect) (e : MouseEvent)
| Mouseup
| Mouseout
| Resize
| ColorChange (color : string)
| LineWidthInput (lineWidth : float)
| BrushClick
| EraserClick
| UndoClick
| RedoClick
| ClearClick (confirm : bool)
| Keydown (e : KeyboardEvent)
| SocketConnect
| SocketReconnect (attemptNumber : value)
| SocketReconnectAttempt (attemptNumber : value)
| SocketDisconnect (reason : value).

Definition onView (f : CanvasView → CanvasView) (a : App) : App :=
  mkApp (f (canvasView a)) (wsClient a).

Definition onClient (f : WebSocketClient → WebSocketClient) (a : App) : App :=
  mkApp (canvasView a) (f (wsClient a)).

Definition on_keydown (e : KeyboardEvent) (a : App) : App :=
  let a :=
    if (ctrlKey e || metaKey e) && String.eqb (key e) "z" && negb (shiftKey e)
    then onClient sendUndo a else a in
  let a :=
    if (ctrlKey e || metaKey e) && String.eqb (key e) "z" && shiftKey e
    then onClient sendRedo a else a in
  let a :=
    if String.eqb (key e) "b" || String.eqb (key e) "B"
    then onView (setState [("tool", JStr "brush")]) a else a in
  if String.eqb (key e) "e" || String.eqb (key e) "E"
  then onView (setState [("tool", JStr "eraser")]) a else a.

(** One event, handled while the clock reads [now]. *)
Definition handle (a : App) (now : Z) (ev : event) : App :=
  match ev with
  | Mousedown rect e => onView (_onMouseDown rect e) a
  | Mousemove rect e =>
      let (v, c) := _onMouseMove onDraw (onCursorMove now) rect e
                                 (canvasView a) (wsClient a) in
      mkApp v c
  | Mouseup | Mouseout => onView _onMouseUp a
  | Resize => onClient (resizeCanvas onRequestHistory) a
  | ColorChange color => onView (setState [("color", JStr color)]) a
  | LineWidthInput lineWidth => onView (setState [("lineWidth", JNum lineWidth)]) a
  | BrushClick => onView (setState [("tool", JStr "brush")]) a
  | EraserClick => onView (setState [("tool", JStr "eraser")]) a
  | UndoClick => onClient sendUndo a
  | RedoClick => onClient sendRedo a
  | ClearClick confirm => onClient (sendClear confirm) a
  | Keydown e => on_keydown e a
  | SocketConnect => onClient on_connect a
  | SocketReconnect attemptNumber => onClient (on_reconnect attemptNumber) a
  | SocketReconnectAttempt attemptNumber =>
      onClient (on_reconnect_attempt attemptNumber) a
  | SocketDisconnect reason => onClient (on_disconnect reason) a
  end.

Definition run (evs : list (Z * event)) (a : App) : App :=
  foldl (λ a ev, handle a ev.1 ev.2) a evs.

End Client.

(** * The vocabulary of the properties *)

(** ** Identifiers *)

Module Ids.

(** The string an identifier argument carries when it passes the guard
    [!id || typeof id !== 'string'] of [_getRoomState], [_getRoom] and
    [addUser]: it is a string and it is not empty. *)
Definition room_key (id : value) : option string :=
  match id with
  | JStr r => if String.eqb r "" then None else Some r
  | _ => None
  end.
End Ids.
Export Ids.

(** ** The history store *)

Module HistoryTerms.
Import DrawingState.

(** *** Calls from outside *)

Inductive call : Type :=
| GetHistory (roomId : value)
| AddOperation (roomId operation : value)
| Undo (roomId : value)
| Redo (roomId : value)
| CanUndo (roomId : value)
| CanRedo (roomId : value)
| Clear (roomId : value)
| DeleteRoom (roomId : value).

(** The store a call leaves behind, whether it returns or throws. *)
Definition after (c : call) (σ : gmap string RoomState) : gmap string RoomState :=
  match c with
  | GetHistory roomId => (getHistory roomId σ).2
  | AddOperation roomId operation => (addOperation roomId operation σ).2
  | Undo roomId => (undo roomId σ).2
  | Redo roomId => (redo roomId σ).2
  | CanUndo roomId => (canUndo roomId σ).2
  | CanRedo roomId => (canRedo roomId σ).2
  | Clear roomId => (clear roomId σ).2
  | DeleteRoom roomId => (deleteRoom roomId σ).2
  end.

(** The store a sequence of calls leaves behind. *)
Definition after_all (cs : list call) (σ : gmap string RoomState) : gmap string RoomState :=
  foldl (λ σ c, after c σ) σ cs.

(** What the two structures hold together, oldest first. *)
Definition combined (s : RoomState) : list value :=
  history s ++ reverse (redoStack s).

(** What the guard [!operation || typeof operation !== 'object'] of
    [addOperation] lets through. *)
Definition is_object (v : value) : bool :=
  truthy v && String.eqb (typeof v) "object".

(** What [addOperation], [undo] and [redo] do to the state object of
    their room. *)
Definition add_state (operation : value) (s : RoomState) : RoomState :=
  let h := push (history s) operation in
  mkRoomState (if Z.of_nat (length h) >? MAX_HISTORY_SIZE then shift h else h) [].

Definition undo_state (s : RoomState) : RoomState :=
  if Nat.eqb (length (history s)) 0 then s
  else mkRoomState (pop (history s)).2 (push (redoStack s) (pop (history s)).1).

Definition redo_state (s : RoomState) : RoomState :=
  if Nat.eqb (length (redoStack s)) 0 then s
  else mkRoomState (push (history s) (pop (redoStack s)).1) (pop (redoStack s)).2.

(** The number of operations a room holds, undone ones included. *)
Definition held (s : RoomState) : nat := (length (history s) + length (redoStack s))%nat.

(** Every room holds at most [MAX_HISTORY_SIZE] operations, counting
    the undone ones. *)
Definition bounded (σ : gmap string RoomState) : Prop :=
  ∀ r s, σ !! r = Some s →
    Z.of_nat (length (history s) + length (redoStack s)) ≤ MAX_HISTORY_SIZE.

(** The calls of [undo] and of [redo]. *)
Definition undo_or_redo (c : call) : bool :=
  match c with
  | Undo _ | Redo _ => true
  | _ => false
  end.

(** Sample operations and a sample store for the closed instances. *)
Definition stroke (w : float) : value :=
  JObj [("from", JObj [("x", JNum 0); ("y", JNum 0)]);
        ("to", JObj [("x", JNum 10); ("y", JNum 20)]);
        ("tool", JStr "brush"); ("lineWidth", JNum w); ("color", JStr "#FF5733")].

Definition sample_store : gmap string RoomState :=
  {[ "r1" := mkRoomState [stroke 1; stroke 2] [stroke 3] ]}.

(** A room whose history is full, with one undone operation. *)
Definition full_store : gmap string RoomState :=
  {[ "r1" := mkRoomState (replicate (Z.to_nat MAX_HISTORY_SIZE) (stroke 1)) [stroke 3] ]}.

End HistoryTerms.

(** ** The member registry *)

Module RegistryTerms.
Import RoomManager.

(** The [{ id, color }] list [getUsers] builds from a room. *)
Definition snapshot (room : Room) : list (string * value) :=
  map (λ e, (e.1, color e.2)) room.

(** The outcomes of [addUser] for the members [us], one after the other. *)
Fixpoint join_each (roomId : value) (us : list value) (ρ : gmap string Room)
  : list (result Joined) :=
  match us with
  | [] => []
  | u :: rest =>
      let '(res, ρ') := addUser roomId u ρ in
      res :: join_each roomId rest ρ'
  end.

End RegistryTerms.

(** ** The gateway *)

Module GatewayTerms.
Import Server.

(** A 2D numeric coordinate pair: [{x: number, y: number}]. *)
Definition is_point (v : value) : Prop :=
  ∃ fields x y, v = JObj fields
    ∧ own_property fields "x" = JNum x ∧ own_property fields "y" = JNum y.

(** The bounded range of a line width as the validator tests it: not
    below 1 and not above 100. *)
Definition width_in_range (w : float) : Prop :=
  PrimFloat.ltb w 1 = false ∧ PrimFloat.ltb 100 w = false.

(** [{tool: "brush"|"eraser", lineWidth: number, from: {x, y}, to: {x, y},
    color?: string}], the colour being required of a brush only. *)
Definition well_formed (op : value) : Prop :=
  ∃ fields, op = JObj fields
    ∧ is_point (own_property fields "from")
    ∧ is_point (own_property fields "to")
    ∧ (∃ w, own_property fields "lineWidth" = JNum w ∧ width_in_range w)
    ∧ (own_property fields "tool" = JStr "eraser"
       ∨ own_property fields "tool" = JStr "brush"
         ∧ ∃ c, own_property fields "color" = JStr c ∧ c ≠ "").

(** Every character is a letter, a digit or a hyphen. *)
Fixpoint all_allowed (s : string) : bool :=
  match s with
  | EmptyString => true
  | String c rest => allowed c && all_allowed rest
  end.

(** Alphanumeric characters and hyphens only, length at most 50. *)
Definition in_sanitized_set (s : string) : bool :=
  all_allowed s && Nat.leb (String.length s) 50.

(** The scenario of the specification: three members join room [r1],
    five operations are drawn, two are undone, one is redone, and the
    canvas is cleared. *)
Definition three_join : list (string * inbound) :=
  [("s1", Connection); ("s2", Connection); ("s3", Connection);
   ("s1", JOIN_ROOM (JStr "r1")); ("s2", JOIN_ROOM (JStr "r1"));
   ("s3", JOIN_ROOM (JStr "r1"))].

Definition five_draw : list (string * inbound) :=
  [("s1", DRAW (HistoryTerms.stroke 1)); ("s2", DRAW (HistoryTerms.stroke 2));
   ("s3", DRAW (HistoryTerms.stroke 3)); ("s1", DRAW (HistoryTerms.stroke 4));
   ("s2", DRAW (HistoryTerms.stroke 5))].

(** The lengths of the history and of the redo stack of a room. *)
Definition lengths (r : string) (w : World) : nat * nat :=
  (length (DrawingState.history (DrawingState.room_state r (roomStates w))),
   length (DrawingState.redoStack (DrawingState.room_state r (roomStates w)))).

End GatewayTerms.

(** ** More about the history store *)

Module HistoryLaws.
Import DrawingState HistoryTerms.

(** The room identifier a call is made with. *)
Definition call_room (c : call) : value :=
  match c with
  | GetHistory roomId | AddOperation roomId _ | Undo roomId | Redo roomId
  | CanUndo roomId | CanRedo roomId | Clear roomId | DeleteRoom roomId => roomId
  end.

(** The last [n] elements of an array. *)
Definition keep_last (n : nat) (l : list value) : list value :=
  drop (length l - n) l.

(** [addOperation] for each of [ops], in order. *)
Definition appends (roomId : value) (ops : list value) : list call :=
  map (AddOperation roomId) ops.

(** The methods that only read. *)
Definition reads (c : call) : bool :=
  match c with
  | GetHistory _ | CanUndo _ | CanRedo _ => true
  | _ => false
  end.

(** The methods that go through [_getRoomState]. *)
Definition guarded (c : call) : bool :=
  match c with
  | DeleteRoom _ => false
  | _ => true
  end.

(** The outcome of a call, its result apart: returned or thrown. *)
Definition outcome (c : call) (σ : gmap string RoomState) : result unit :=
  let forget {A} (r : result A) : result unit :=
    match r with Ok _ => Ok tt | Throw msg => Throw msg end in
  match c with
  | GetHistory roomId => forget (getHistory roomId σ).1
  | AddOperation roomId operation => forget (addOperation roomId operation σ).1
  | Undo roomId => forget (undo roomId σ).1
  | Redo roomId => forget (redo roomId σ).1
  | CanUndo roomId => forget (canUndo roomId σ).1
  | CanRedo roomId => forget (canRedo roomId σ).1
  | Clear roomId => forget (clear roomId σ).1
  | DeleteRoom roomId => forget (deleteRoom roomId σ).1
  end.

End HistoryLaws.

(** ** More about the member registry *)

Module RegistryLaws.
Import RoomManager RegistryTerms.

(** Calls of the methods, from outside. *)
Inductive reg_call : Type :=
| AddUser (roomId userId : value)
| RemoveUser (roomId userId : value)
| GetUsers (roomId : value)
| GetUserCount (roomId : value)
| HasUser (roomId userId : value).

(** The registry a call leaves behind, whether it returns or throws. *)
Definition reg_after (c : reg_call) (ρ : gmap string Room) : gmap string Room :=
  match c with
  | AddUser roomId userId => (addUser roomId userId ρ).2
  | RemoveUser roomId userId => (removeUser roomId userId ρ).2
  | GetUsers roomId => (getUsers roomId ρ).2
  | GetUserCount roomId => (getUserCount roomId ρ).2
  | HasUser roomId userId => (hasUser roomId userId ρ).2
  end.

(** The registry a sequence of calls leaves behind. *)
Definition reg_after_all (cs : list reg_call) (ρ : gmap string Room) : gmap string Room :=
  foldl (λ ρ c, reg_after c ρ) ρ cs.

(** The member identifiers of a room, in insertion order. *)
Definition ids (room : Room) : list string := map fst room.

(** The colour of an entry is one of the palette. *)
Definition palette_color (e : string * UserData) : Prop :=
  ∃ c, color e.2 = JStr c ∧ c ∈ USER_COLORS.

(** Every room lists a member once, with a colour of the palette. *)
Definition well_kept (ρ : gmap string Room) : Prop :=
  ∀ r room, ρ !! r = Some room → NoDup (ids room) ∧ Forall palette_color room.

(** The call that removes member [u] from room [r]. *)
Definition removes (r u : string) (c : reg_call) : bool :=
  match c with
  | RemoveUser (JStr r') (JStr u') => String.eqb r' r && String.eqb u' u
  | _ => false
  end.

(** The entries of a room other than the one of [u]. *)
Definition without (u : string) (room : Room) : Room :=
  filter (λ e, e.1 ≠ u) room.

(** A sample registry: room [r1] with two members. *)
Definition sample_registry : gmap string Room :=
  {[ "r1" := [("a", mkUserData (JStr "#FF5733")); ("b", mkUserData (JStr "#33FF57"))] ]}.

End RegistryLaws.

(** ** More about the gateway *)

Module GatewayLaws.
Import Server HistoryTerms RegistryTerms GatewayTerms RegistryLaws.

(** [{pos: {x: number, y: number}}], the shape of cursor data. *)
Definition well_formed_cursor (data : value) : Prop :=
  ∃ fields, data = JObj fields ∧ is_point (own_property fields "pos").

(** The [{ canUndo, canRedo }] that describes a room's state. *)
Definition flags (s : DrawingState.RoomState) : value :=
  undo_redo_state (negb (Nat.eqb (length (DrawingState.history s)) 0))
                  (negb (Nat.eqb (length (DrawingState.redoStack s)) 0)).

(** The events a connection may send once it is there, the join apart. *)
Definition needs_room (msg : inbound) : bool :=
  match msg with
  | Connection | JOIN_ROOM _ => false
  | _ => true
  end.

(** A room identifier as the sanitizer returns them. *)
Definition sane_id (r : string) : Prop :=
  in_sanitized_set r = true ∧ r ≠ "".

(** The connection has joined no room, or a room with a sanitized
    identifier. *)
Definition session_ok (x : Session) : Prop :=
  currentRoom x = JNull ∨ ∃ r, currentRoom x = JStr r ∧ sane_id r.

(** Every operation a room holds is well-formed. *)
Definition holds_well_formed (s : DrawingState.RoomState) : Prop :=
  Forall well_formed (DrawingState.history s)
  ∧ Forall well_formed (DrawingState.redoStack s).

(** Every connection has joined no room or a sanitized one. *)
Definition sessions_ok (ss : gmap string Session) : Prop :=
  ∀ id x, ss !! id = Some x → session_ok x.

(** Every room of the registry has a sanitized identifier and at least
    one member, lists a member once, and gives it a colour of the
    palette. *)
Definition rooms_ok (ρ : gmap string RoomManager.Room) : Prop :=
  (∀ r, is_Some (ρ !! r) → sane_id r)
  ∧ well_kept ρ
  ∧ (∀ r, ρ !! r ≠ Some []).

(** Every stored room state has a sanitized identifier, is within the
    bound, and holds well-formed operations only. *)
Definition states_ok (σ : gmap string DrawingState.RoomState) : Prop :=
  (∀ r, is_Some (σ !! r) → sane_id r)
  ∧ bounded σ
  ∧ (∀ r s, σ !! r = Some s → holds_well_formed s).

(** What holds of every world the server can be in. *)
Definition sound (w : World) : Prop :=
  sessions_ok (sessions w) ∧ rooms_ok (rooms w) ∧ states_ok (roomStates w).

(** A world with one room, [r1], joined by [s1] alone, that holds two
    operations and an undone one. *)
Definition one_member : World :=
  mkWorld {[ "r1" := [("s1", RoomManager.mkUserData (JStr "#FF5733"))] ]}
          sample_store
          {[ "s1" := mkSession (JStr "r1") (JStr "#FF5733") ]}
          [].

(** A world with the two members [a] and [b] in room [r1]. *)
Definition two_members : World :=
  mkWorld sample_registry
          sample_store
          {[ "a" := mkSession (JStr "r1") (JStr "#FF5733");
             "b" := mkSession (JStr "r1") (JStr "#33FF57") ]}
          [].

End GatewayLaws.

(** ** The client *)

Module ClientTerms.
Import Server Client GatewayTerms.

(** The messages that one event makes the client emit. *)
Definition sent_by (a : App) (now : Z) (ev : event) : list inbound :=
  drop (length (socket (wsClient a))) (socket (wsClient (handle a now ev))).

(** The messages that a sequence of events makes the client emit, each
    with the clock reading of the event that emitted it. *)
Fixpoint log (evs : list (Z * event)) (a : App) : list (Z * inbound) :=
  match evs with
  | [] => []
  | ev :: rest =>
      map (pair ev.1) (sent_by a ev.1 ev.2) ++ log rest (handle a ev.1 ev.2)
  end.

Definition is_cursor_move (m : inbound) : bool :=
  match m with
  | CURSOR_MOVE _ => true
  | _ => false
  end.

(** The clock readings at which cursor positions were emitted. *)
Definition cursor_times (evs : list (Z * event)) (a : App) : list Z :=
  map fst (List.filter (λ m, is_cursor_move m.2) (log evs a)).

(** What the toolbar is expected to hand over: a colour that is not the
    empty text, a width from 1 to 100. *)
Definition in_range (ev : event) : Prop :=
  match ev with
  | ColorChange color => color ≠ ""
  | LineWidthInput lineWidth => width_in_range lineWidth
  | _ => True
  end.

(** The operation that draws the segment between two points with the
    tool, the width and, for the brush, the colour of a tool state. *)
Definition segment (state : list (string * value)) (from to : value) : value :=
  JObj ([("tool", own_property state "tool");
         ("lineWidth", own_property state "lineWidth");
         ("from", from);
         ("to", to)]
        ++ if is_str (own_property state "tool") "brush"
           then [("color", own_property state "color")]
           else [])%list.

(** The segments of the polyline from [p] through the points [ps]. *)
Fixpoint polyline (state : list (string * value)) (p : value) (ps : list value)
  : list value :=
  match ps with
  | [] => []
  | q :: rest => segment state p q :: polyline state q rest
  end.

(** Where the pointer is on the canvas. *)
Definition point (m : DOMRect * MouseEvent) : value := _getMousePos m.1 m.2.

(** Pressing the button at [m0], moving through [ms] and releasing the
    button; each event with the clock reading at which it is handled. *)
Definition stroke (m0 : Z * (DOMRect * MouseEvent)) (ms : list (Z * (DOMRect * MouseEvent)))
    (up : Z) : list (Z * event) :=
  ((m0.1, Mousedown m0.2.1 m0.2.2)
   :: map (λ m, (m.1, Mousemove m.2.1 m.2.2)) ms
   ++ [(up, Mouseup)])%list.

(** A connected client draws one segment, then moves the pointer
    twice within 50 ms and once more later. *)
Definition sample_session : list (Z * event) :=
  [(1000, SocketConnect);
   (1010, Mousedown (mkDOMRect 8 8) (mkMouseEvent 10 20));
   (1020, Mousemove (mkDOMRect 8 8) (mkMouseEvent 11 22));
   (1030, Mouseup);
   (1040, Mousemove (mkDOMRect 8 8) (mkMouseEvent 12 22));
   (1045, Mousemove (mkDOMRect 8 8) (mkMouseEvent 13 22));
   (1100, Mousemove (mkDOMRect 8 8) (mkMouseEvent 14 22))].

(** A tool state that makes operations the server's check accepts: the
    tool is the brush or the eraser, the width is a number from 1 to
    100, the colour is a text that is not empty. *)
Definition tool_state_ok (state : list (string * value)) : Prop :=
  (own_property state "tool" = JStr "brush" ∨ own_property state "tool" = JStr "eraser")
  ∧ (∃ w, own_property state "lineWidth" = JNum w ∧ width_in_range w)
  ∧ (∃ c, own_property state "color" = JStr c ∧ c ≠ "").

End ClientTerms.

(** * Proofs *)

(** ** Facts about identifiers *)

Module IdsFacts.

Lemma room_key_Some id r : room_key id = Some r → id = JStr r ∧ r ≠ "".
Proof.
  destruct id as [| |b|n|s|fs|xs]; simpl; try discriminate.
  destruct (String.eqb_spec s ""); [discriminate|]. intros [= <-]. done.
Qed.

Lemma room_key_str r : r ≠ "" → room_key (JStr r) = Some r.
Proof. intros Hr. simpl. by destruct (String.eqb_spec r ""). Qed.

Lemma room_key_guard id :
  negb (truthy id) || negb (String.eqb (typeof id) "string")
  = match room_key id with Some _ => false | None => true end.
Proof.
  destruct id as [| |b|n|s|fs|xs]; simpl; try done.
  - by destruct b.
  - by destruct (PrimFloat.eqb n 0 || is_nan n).
  - by destruct (String.eqb s "").
Qed.

End IdsFacts.
Export IdsFacts.

(** ** Properties of the history store *)

Module DrawingStateFacts.
Import DrawingState HistoryTerms.

Lemma room_state_insert r s (σ : gmap string RoomState) :
  room_state r (<[r := s]> σ) = s.
Proof. unfold room_state. by rewrite lookup_insert_eq. Qed.

Lemma room_state_insert_ne r r' s (σ : gmap string RoomState) :
  r ≠ r' → room_state r' (<[r := s]> σ) = room_state r' σ.
Proof. intros. unfold room_state. by rewrite lookup_insert_ne. Qed.

Lemma _getRoomState_spec roomId (σ : gmap string RoomState) :
  _getRoomState roomId σ =
    match room_key roomId with
    | Some r => (Ok r, <[r := room_state r σ]> σ)
    | None => (Throw "Invalid roomId", σ)
    end.
Proof.
  destruct roomId as [| |b|n|s|fs|xs]; try reflexivity.
  - unfold _getRoomState. simpl. by destruct b.
  - unfold _getRoomState. simpl. by destruct (PrimFloat.eqb n 0 || is_nan n).
  - unfold _getRoomState, room_key, room_state. simpl.
    destruct (String.eqb s ""); simpl; [done|].
    case_bool_decide as H.
    + destruct H as [x Hx]. rewrite Hx. simpl. by rewrite insert_id.
    + apply eq_None_not_Some in H. by rewrite H.
Qed.

Ltac run :=
  unfold set_history, set_redoStack, bind, gets, modify, ret, throw; simpl;
  rewrite ?room_state_insert, ?insert_insert_eq; simpl.

Lemma getHistory_spec roomId (σ : gmap string RoomState) :
  getHistory roomId σ =
    match room_key roomId with
    | Some r => (Ok (history (room_state r σ)), <[r := room_state r σ]> σ)
    | None => (Throw "Invalid roomId", σ)
    end.
Proof.
  unfold getHistory, bind at 1. rewrite _getRoomState_spec.
  destruct (room_key roomId); [|done]. by run.
Qed.

Lemma addOperation_spec roomId operation (σ : gmap string RoomState) :
  addOperation roomId operation σ =
    if is_object operation then
      match room_key roomId with
      | Some r => (Ok tt, <[r := add_state operation (room_state r σ)]> σ)
      | None => (Throw "Invalid roomId", σ)
      end
    else (Throw "Invalid operation", σ).
Proof.
  unfold addOperation, is_object.
  destruct (truthy operation); simpl; [|done].
  destruct (String.eqb (typeof operation) "object"); simpl; [|done].
  unfold bind at 1. rewrite _getRoomState_spec.
  destruct (room_key roomId) as [r|]; [|done].
  run. unfold add_state.
  destruct (Z.of_nat _ >? MAX_HISTORY_SIZE); by run.
Qed.

Lemma undo_spec roomId (σ : gmap string RoomState) :
  undo roomId σ =
    match room_key roomId with
    | Some r => (Ok (history (undo_state (room_state r σ))),
                 <[r := undo_state (room_state r σ)]> σ)
    | None => (Throw "Invalid roomId", σ)
    end.
Proof.
  unfold undo, bind at 1. rewrite _getRoomState_spec.
  destruct (room_key roomId) as [r|]; [|done].
  run. unfold undo_state.
  destruct (Nat.eqb (length (history (room_state r σ))) 0); by run.
Qed.

Lemma redo_spec roomId (σ : gmap string RoomState) :
  redo roomId σ =
    match room_key roomId with
    | Some r => (Ok (history (redo_state (room_state r σ))),
                 <[r := redo_state (room_state r σ)]> σ)
    | None => (Throw "Invalid roomId", σ)
    end.
Proof.
  unfold redo, bind at 1. rewrite _getRoomState_spec.
  destruct (room_key roomId) as [r|]; [|done].
  run. unfold redo_state.
  destruct (Nat.eqb (length (redoStack (room_state r σ))) 0); by run.
Qed.

Lemma canUndo_spec roomId (σ : gmap string RoomState) :
  canUndo roomId σ =
    match room_key roomId with
    | Some r => (Ok (negb (Nat.eqb (length (history (room_state r σ))) 0)),
                 <[r := room_state r σ]> σ)
    | None => (Throw "Invalid roomId", σ)
    end.
Proof.
  unfold canUndo, bind at 1. rewrite _getRoomState_spec.
  destruct (room_key roomId); [|done]. by run.
Qed.

Lemma canRedo_spec roomId (σ : gmap string RoomState) :
  canRedo roomId σ =
    match room_key roomId with
    | Some r => (Ok (negb (Nat.eqb (length (redoStack (room_state r σ))) 0)),
                 <[r := room_state r σ]> σ)
    | None => (Throw "Invalid roomId", σ)
    end.
Proof.
  unfold canRedo, bind at 1. rewrite _getRoomState_spec.
  destruct (room_key roomId); [|done]. by run.
Qed.

Lemma clear_spec roomId (σ : gmap string RoomState) :
  clear roomId σ =
    match room_key roomId with
    | Some r => (Ok tt, <[r := fresh]> σ)
    | None => (Throw "Invalid roomId", σ)
    end.
Proof.
  unfold clear, bind at 1. rewrite _getRoomState_spec.
  destruct (room_key roomId); [|done]. by run.
Qed.

(** *** Arrays *)

Lemma pop_push (a : list value) (v : value) : pop (push a v) = (v, a).
Proof. unfold pop, push. by rewrite last_snoc, removelast_last. Qed.

Lemma push_inv (a : list value) :
  Nat.eqb (length a) 0 = false → ∃ a' v, a = push a' v.
Proof.
  destruct a as [|x a] using rev_ind; [done|]. intros _. by exists a, x.
Qed.

(** *** One room *)

Lemma undo_state_push h v s :
  undo_state (mkRoomState (push h v) s) = mkRoomState h (push s v).
Proof.
  unfold undo_state. cbn [history redoStack]. rewrite pop_push.
  unfold push at 1. rewrite length_app. cbn [length].
  by replace (length h + 1)%nat with (S (length h)) by lia.
Qed.

Lemma redo_state_push h v s :
  redo_state (mkRoomState h (push s v)) = mkRoomState (push h v) s.
Proof.
  unfold redo_state. cbn [history redoStack]. rewrite pop_push.
  unfold push at 1. rewrite length_app. cbn [length].
  by replace (length s + 1)%nat with (S (length s)) by lia.
Qed.

Lemma undo_state_empty s : history s = [] → undo_state s = s.
Proof. intros H. unfold undo_state. by rewrite H. Qed.

Lemma redo_state_empty s : redoStack s = [] → redo_state s = s.
Proof. intros H. unfold redo_state. by rewrite H. Qed.

Lemma redo_undo_state s : history s ≠ [] → redo_state (undo_state s) = s.
Proof.
  destruct s as [h st]. simpl. intros Hh.
  destruct (push_inv h) as (h' & v & ->).
  { destruct h; [done|reflexivity]. }
  by rewrite undo_state_push, redo_state_push.
Qed.

Lemma combined_undo_state s : combined (undo_state s) = combined s.
Proof.
  destruct s as [h st].
  destruct (Nat.eqb (length h) 0) eqn:E.
  - unfold undo_state. simpl. by rewrite E.
  - destruct (push_inv h E) as (h' & v & ->). rewrite undo_state_push.
    unfold combined, push. simpl. by rewrite reverse_snoc, <-app_assoc.
Qed.

Lemma combined_redo_state s : combined (redo_state s) = combined s.
Proof.
  destruct s as [h st].
  destruct (Nat.eqb (length st) 0) eqn:E.
  - unfold redo_state. simpl. by rewrite E.
  - destruct (push_inv st E) as (st' & v & ->). rewrite redo_state_push.
    unfold combined, push. simpl. by rewrite reverse_snoc, <-app_assoc.
Qed.

Lemma held_combined s : held s = length (combined s).
Proof. unfold held, combined. by rewrite length_app, length_reverse. Qed.

Lemma held_add_state operation s :
  Z.of_nat (length (history s)) ≤ MAX_HISTORY_SIZE →
  Z.of_nat (held (add_state operation s)) ≤ MAX_HISTORY_SIZE.
Proof.
  unfold held, add_state, push, shift. simpl. intros Hs.
  destruct (Z.gtb_spec (Z.of_nat (length (history s ++ [operation]))) MAX_HISTORY_SIZE) as [H|H].
  - destruct (history s); simpl in *; [lia|]. rewrite length_app. simpl. lia.
  - lia.
Qed.

(** *** The store *)

Lemma bounded_room_state r σ : bounded σ → Z.of_nat (held (room_state r σ)) ≤ MAX_HISTORY_SIZE.
Proof.
  intros Hσ. unfold room_state. destruct (σ !! r) as [s|] eqn:E; simpl.
  - by apply (Hσ r).
  - by vm_compute.
Qed.

Lemma bounded_insert r s (σ : gmap string RoomState) :
  bounded σ → Z.of_nat (held s) ≤ MAX_HISTORY_SIZE → bounded (<[r := s]> σ).
Proof.
  intros Hσ Hs r' s'. rewrite lookup_insert. case_decide.
  - by intros [= <-].
  - apply Hσ.
Qed.

Lemma bounded_delete r (σ : gmap string RoomState) : bounded σ → bounded (delete r σ).
Proof.
  intros Hσ r' s'. rewrite lookup_delete. case_decide; [done|]. apply Hσ.
Qed.

Lemma bounded_after c σ : bounded σ → bounded (after c σ).
Proof.
  intros Hσ. destruct c as [i|i o|i|i|i|i|i|i]; simpl.
  - rewrite getHistory_spec. destruct (room_key i); [|done].
    by apply bounded_insert, bounded_room_state.
  - rewrite addOperation_spec. destruct (is_object o); [|done].
    destruct (room_key i) as [r|]; [|done]. simpl.
    apply bounded_insert; [done|]. apply held_add_state.
    pose proof (bounded_room_state r σ Hσ). unfold held in *. lia.
  - rewrite undo_spec. destruct (room_key i) as [r|]; [|done]. simpl.
    apply bounded_insert; [done|].
    rewrite held_combined, combined_undo_state, <-held_combined.
    by apply bounded_room_state.
  - rewrite redo_spec. destruct (room_key i) as [r|]; [|done]. simpl.
    apply bounded_insert; [done|].
    rewrite held_combined, combined_redo_state, <-held_combined.
    by apply bounded_room_state.
  - rewrite canUndo_spec. destruct (room_key i); [|done].
    by apply bounded_insert, bounded_room_state.
  - rewrite canRedo_spec. destruct (room_key i); [|done].
    by apply bounded_insert, bounded_room_state.
  - rewrite clear_spec. destruct (room_key i); [|done].
    apply bounded_insert; [done|]. by vm_compute.
  - destruct i; try done. by apply bounded_delete.
Qed.

Lemma bounded_after_all cs σ : bounded σ → bounded (after_all cs σ).
Proof.
  revert σ. induction cs as [|c cs IH]; intros σ Hσ; [done|].
  simpl. by apply IH, bounded_after.
Qed.

Lemma bounded_empty : bounded ∅.
Proof. intros r s. by rewrite lookup_empty. Qed.

(** *** The claims about the history store *)

Lemma after_undo_redo c σ r :
  undo_or_redo c = true →
  combined (room_state r (after c σ)) = combined (room_state r σ).
Proof.
  destruct c as [i|i o|i|i|i|i|i|i]; try done; intros _; simpl.
  - rewrite undo_spec. destruct (room_key i) as [r'|]; [|done]. simpl.
    destruct (decide (r' = r)) as [->|].
    + by rewrite room_state_insert, combined_undo_state.
    + by rewrite room_state_insert_ne.
  - rewrite redo_spec. destruct (room_key i) as [r'|]; [|done]. simpl.
    destruct (decide (r' = r)) as [->|].
    + by rewrite room_state_insert, combined_redo_state.
    + by rewrite room_state_insert_ne.
Qed.

(** C1. In a room whose history is not empty, [undo] followed at once by
    [redo] returns the history as it was and leaves the store, hence the
    history and the redo stack of the room, exactly as it was; the [undo]
    in between did move the last operation to the redo stack. *)
Theorem redo_undo_roundtrip (σ : gmap string RoomState) (r : string) (s : RoomState) :
  r ≠ "" → σ !! r = Some s → history s ≠ [] →
  (undo (JStr r) ;; redo (JStr r))%js σ = (Ok (history s), σ)
  ∧ history (room_state r (redo (JStr r) (undo (JStr r) σ).2).2) = history s
  ∧ redoStack (room_state r (redo (JStr r) (undo (JStr r) σ).2).2) = redoStack s
  ∧ push (history (room_state r (undo (JStr r) σ).2))
         (pop (history s)).1 = history s
  ∧ redoStack (room_state r (undo (JStr r) σ).2)
    = push (redoStack s) (pop (history s)).1.
Proof.
  intros Hr Hs Hh.
  assert (room_state r σ = s) as Hrs by (unfold room_state; by rewrite Hs).
  unfold bind. rewrite !undo_spec, (room_key_str r Hr). simpl.
  rewrite !redo_spec, (room_key_str r Hr). simpl.
  rewrite !room_state_insert, insert_insert_eq, Hrs, (redo_undo_state s Hh).
  rewrite (insert_id σ r s Hs).
  destruct s as [h st]. simpl in *.
  destruct (push_inv h) as (h' & v & ->).
  { destruct h; [done|reflexivity]. }
  rewrite undo_state_push. unfold push. by rewrite last_snoc.
Qed.

Lemma redo_undo_roundtrip_witness :
  "r1" ≠ "" ∧ sample_store !! "r1" = Some (mkRoomState [stroke 1; stroke 2] [stroke 3])
  ∧ (undo (JStr "r1") ;; redo (JStr "r1"))%js sample_store
    = (Ok [stroke 1; stroke 2], sample_store).
Proof.
  split; [done|]. split; [by vm_compute|].
  apply (redo_undo_roundtrip sample_store "r1" (mkRoomState [stroke 1; stroke 2] [stroke 3]));
    [done | by vm_compute | done].
Defined.

(** C10. A call of [undo] or of [redo], on any room identifier, leaves
    the operations of every room, history followed by the redo stack
    read from its top, as they were; so does any sequence of such
    calls. *)
Theorem undo_redo_preserve_combined
    (cs : list call) (roomId : value) (σ : gmap string RoomState) (r : string) :
  forallb undo_or_redo cs = true →
  combined (room_state r (undo roomId σ).2) = combined (room_state r σ)
  ∧ combined (room_state r (redo roomId σ).2) = combined (room_state r σ)
  ∧ combined (room_state r (after_all cs σ)) = combined (room_state r σ).
Proof.
  intros Hcs. split; [|split].
  - by apply (after_undo_redo (Undo roomId)).
  - by apply (after_undo_redo (Redo roomId)).
  - unfold after_all. revert σ. induction cs as [|c cs IH]; intros σ; [done|].
    simpl in Hcs. apply andb_prop in Hcs as [Hc Hcs]. simpl.
    by rewrite (IH Hcs), after_undo_redo.
Qed.

Lemma undo_redo_preserve_combined_witness :
  forallb undo_or_redo
    [Undo (JStr "r1"); Undo (JStr "r1"); Redo (JStr "r1"); Undo (JStr "r2")] = true
  ∧ combined (room_state "r1"
      (after_all [Undo (JStr "r1"); Undo (JStr "r1"); Redo (JStr "r1"); Undo (JStr "r2")]
         sample_store))
    = combined (room_state "r1" sample_store).
Proof.
  split; [reflexivity|].
  apply (undo_redo_preserve_combined
           [Undo (JStr "r1"); Undo (JStr "r1"); Redo (JStr "r1"); Undo (JStr "r2")]
           JNull sample_store "r1").
  reflexivity.
Defined.

(** C3. Whenever [addOperation] returns, the redo stack of the room is
    empty, whatever it held before, and the operation is the last of the
    history. *)
Theorem addOperation_clears_redoStack
    (roomId operation : value) (σ : gmap string RoomState) :
  (addOperation roomId operation σ).1 = Ok tt →
  ∃ r, roomId = JStr r
       ∧ redoStack (room_state r (addOperation roomId operation σ).2) = []
       ∧ last (history (room_state r (addOperation roomId operation σ).2)) = Some operation
       ∧ canRedo roomId (addOperation roomId operation σ).2
         = (Ok false, (addOperation roomId operation σ).2).
Proof.
  rewrite addOperation_spec. destruct (is_object operation); [|done].
  destruct (room_key roomId) as [r|] eqn:Hk; [|done]. simpl. intros _.
  apply room_key_Some in Hk as Hk'. destruct Hk' as [-> Hr].
  exists r. rewrite canRedo_spec, Hk, !room_state_insert.
  split; [done|]. split; [done|]. split.
  - unfold add_state, push, shift. simpl.
    destruct (Z.gtb_spec (Z.of_nat (length (history (room_state r σ) ++ [operation])))
                MAX_HISTORY_SIZE) as [H|H].
    + destruct (history (room_state r σ)) as [|x h]; [by vm_compute in H|].
      simpl. apply last_snoc.
    + apply last_snoc.
  - simpl. by rewrite insert_insert_eq.
Qed.

Lemma addOperation_clears_redoStack_witness :
  (addOperation (JStr "r1") (stroke 4) sample_store).1 = Ok tt
  ∧ ∃ r, JStr "r1" = JStr r
         ∧ redoStack (room_state r (addOperation (JStr "r1") (stroke 4) sample_store).2) = []
         ∧ last (history (room_state r (addOperation (JStr "r1") (stroke 4) sample_store).2))
           = Some (stroke 4)
         ∧ canRedo (JStr "r1") (addOperation (JStr "r1") (stroke 4) sample_store).2
           = (Ok false, (addOperation (JStr "r1") (stroke 4) sample_store).2).
Proof.
  split; [by vm_compute|].
  apply (addOperation_clears_redoStack (JStr "r1") (stroke 4) sample_store).
  by vm_compute.
Defined.

(** C7. [clear] on a valid room identifier leaves the room with an empty
    history and an empty redo stack, the state of a room that was never
    drawn in, so nothing records the clear; [canUndo] and [canRedo] are
    then false, and [redo], like [undo], returns the empty history and
    changes nothing. *)
Theorem clear_resets (roomId : value) (r : string) (σ : gmap string RoomState) :
  room_key roomId = Some r →
  (clear roomId σ).1 = Ok tt
  ∧ (clear roomId σ).2 !! r = Some fresh
  ∧ history (room_state r (clear roomId σ).2) = []
  ∧ redoStack (room_state r (clear roomId σ).2) = []
  ∧ canUndo roomId (clear roomId σ).2 = (Ok false, (clear roomId σ).2)
  ∧ canRedo roomId (clear roomId σ).2 = (Ok false, (clear roomId σ).2)
  ∧ redo roomId (clear roomId σ).2 = (Ok [], (clear roomId σ).2)
  ∧ undo roomId (clear roomId σ).2 = (Ok [], (clear roomId σ).2).
Proof.
  intros Hk. rewrite clear_spec, canUndo_spec, canRedo_spec, redo_spec, undo_spec, Hk.
  simpl. rewrite !room_state_insert, !insert_insert_eq, lookup_insert_eq.
  by repeat split.
Qed.

Lemma clear_resets_witness :
  room_key (JStr "r1") = Some "r1"
  ∧ (clear (JStr "r1") sample_store).2 !! "r1" = Some fresh
  ∧ redo (JStr "r1") (clear (JStr "r1") sample_store).2
    = (Ok [], (clear (JStr "r1") sample_store).2).
Proof.
  split; [reflexivity|].
  destruct (clear_resets (JStr "r1") "r1" sample_store) as (_ & H1 & _ & _ & _ & _ & H2 & _);
    [reflexivity|].
  by split.
Defined.

(** C2. In every store reached from the empty one by calls of the
    methods, appends among them, no history is longer than
    [MAX_HISTORY_SIZE], before and after one more [addOperation].  On
    any store that call appends the operation when there is room and
    drops the oldest entry when the history is full; the step that drops
    it leaves the redo stack, emptied just before, as it is, and the
    other rooms are not touched. *)
Theorem addOperation_bounded
    (cs : list call) (σ : gmap string RoomState)
    (r r' : string) (operation : value) (h : list value) :
  r ≠ "" → is_object operation = true →
  Z.of_nat (length (history (room_state r' (after_all cs ∅)))) ≤ MAX_HISTORY_SIZE
  ∧ Z.of_nat (length (history (room_state r'
        (addOperation (JStr r) operation (after_all cs ∅)).2))) ≤ MAX_HISTORY_SIZE
  ∧ (Z.of_nat (length (history (room_state r σ))) < MAX_HISTORY_SIZE →
     history (room_state r (addOperation (JStr r) operation σ).2)
     = (history (room_state r σ) ++ [operation])%list)
  ∧ (Z.of_nat (length (history (room_state r σ))) = MAX_HISTORY_SIZE →
     history (room_state r (addOperation (JStr r) operation σ).2)
     = (tail (history (room_state r σ)) ++ [operation])%list)
  ∧ redoStack (room_state r (addOperation (JStr r) operation σ).2) = []
  ∧ redoStack (room_state r (set_history r h σ).2) = redoStack (room_state r σ)
  ∧ (r' ≠ r →
     room_state r' (addOperation (JStr r) operation σ).2 = room_state r' σ).
Proof.
  intros Hr Hop.
  pose proof (bounded_after_all cs ∅ bounded_empty) as Hb.
  pose proof (bounded_after (AddOperation (JStr r) operation) _ Hb) as Hb'.
  simpl in Hb'.
  split; [|split].
  - pose proof (bounded_room_state r' _ Hb). unfold held in *. lia.
  - pose proof (bounded_room_state r' _ Hb'). unfold held in *. lia.
  - rewrite addOperation_spec, Hop, (room_key_str r Hr). cbn [snd].
    rewrite room_state_insert. unfold add_state, push, shift. cbn [history redoStack].
    rewrite length_app. cbn [length].
    split; [|split; [|split; [|split]]].
    + intros Hlt. destruct (Z.gtb_spec (Z.of_nat (length (history (room_state r σ)) + 1))
                              MAX_HISTORY_SIZE); [lia|done].
    + intros Heq. destruct (Z.gtb_spec (Z.of_nat (length (history (room_state r σ)) + 1))
                              MAX_HISTORY_SIZE); [|lia].
      destruct (history (room_state r σ)); [|done].
      simpl in Heq. by vm_compute in Heq.
    + done.
    + unfold set_history, modify. cbn [snd]. by rewrite room_state_insert.
    + intros Hne. by rewrite room_state_insert_ne.
Qed.

Lemma addOperation_bounded_witness :
  "r1" ≠ "" ∧ is_object (stroke 2) = true
  ∧ Z.of_nat (length (history (room_state "r1"
        (addOperation (JStr "r1") (stroke 2)
           (after_all [AddOperation (JStr "r1") (stroke 1); Undo (JStr "r1")] ∅)).2)))
    ≤ MAX_HISTORY_SIZE
  ∧ history (room_state "r1" (addOperation (JStr "r1") (stroke 2) full_store).2)
    = (tail (history (room_state "r1" full_store)) ++ [stroke 2])%list
  ∧ redoStack (room_state "r1" (addOperation (JStr "r1") (stroke 2) full_store).2) = [].
Proof.
  split; [done|]. split; [reflexivity|].
  destruct (addOperation_bounded
              [AddOperation (JStr "r1") (stroke 1); Undo (JStr "r1")] full_store
              "r1" "r1" (stroke 2) [])
    as (_ & H1 & _ & H2 & H3 & _); [done|reflexivity|].
  split; [exact H1|]. split; [|exact H3]. apply H2.
  unfold room_state, full_store. rewrite lookup_singleton_eq.
  cbn [default from_option id history].
  rewrite length_replicate. by apply Z2Nat.id.
Defined.

End DrawingStateFacts.

(** ** Properties of the member registry *)

Module RoomManagerFacts.
Import RoomManager RegistryTerms.

Lemma room_of_insert r room (ρ : gmap string Room) : room_of r (<[r := room]> ρ) = room.
Proof. unfold room_of. by rewrite lookup_insert_eq. Qed.

Lemma room_of_insert_ne r r' room (ρ : gmap string Room) :
  r ≠ r' → room_of r' (<[r := room]> ρ) = room_of r' ρ.
Proof. intros. unfold room_of. by rewrite lookup_insert_ne. Qed.

Lemma _getRoom_spec roomId (ρ : gmap string Room) :
  _getRoom roomId ρ =
    match room_key roomId with
    | Some r => (Ok r, <[r := room_of r ρ]> ρ)
    | None => (Throw "Invalid roomId", ρ)
    end.
Proof.
  unfold _getRoom. rewrite room_key_guard.
  destruct (room_key roomId) as [r|] eqn:Hk; [|done].
  apply room_key_Some in Hk as [-> _]. unfold room_of.
  case_bool_decide as H.
  - destruct H as [x Hx]. rewrite Hx. simpl. by rewrite insert_id.
  - apply eq_None_not_Some in H. by rewrite H.
Qed.

Lemma getUsers_spec roomId (ρ : gmap string Room) :
  getUsers roomId ρ =
    match room_key roomId with
    | Some r => (Ok (snapshot (room_of r ρ)), <[r := room_of r ρ]> ρ)
    | None => (Throw "Invalid roomId", ρ)
    end.
Proof.
  unfold getUsers, bind. rewrite _getRoom_spec.
  destruct (room_key roomId); [|done].
  unfold gets. by rewrite room_of_insert.
Qed.

Lemma set_fresh room u d : has room u = false → set room u d = (room ++ [(u, d)])%list.
Proof.
  induction room as [|[k d'] room IH]; simpl; [done|].
  destruct (String.eqb k u); simpl; [done|]. intros H. by rewrite IH.
Qed.

Lemma has_get room u : has room u = true → ∃ d, get room u = Some d.
Proof.
  induction room as [|[k d'] room IH]; simpl; [done|].
  destruct (String.eqb k u); simpl; eauto.
Qed.

Lemma get_has room u d : get room u = Some d → has room u = true.
Proof.
  induction room as [|[k d'] room IH]; simpl; [done|].
  destruct (String.eqb k u); simpl; eauto.
Qed.

Lemma has_app room room' u : has (room ++ room') u = has room u || has room' u.
Proof.
  induction room as [|[k d'] room IH]; simpl; [done|].
  by rewrite IH, orb_assoc.
Qed.

Lemma addUser_spec roomId userId (ρ : gmap string Room) :
  addUser roomId userId ρ =
    match room_key userId with
    | None => (Throw "Invalid userId", ρ)
    | Some u =>
        match room_key roomId with
        | None => (Throw "Invalid roomId", ρ)
        | Some r =>
            let room := room_of r ρ in
            if has room u
            then (Ok (mkJoined (default JUndefined (color <$> get room u)) (snapshot room)),
                  <[r := room]> ρ)
            else
              let c := USER_COLORS_at (length room mod length USER_COLORS) in
              (Ok (mkJoined c (snapshot (room ++ [(u, mkUserData c)]))),
               <[r := (room ++ [(u, mkUserData c)])%list]> ρ)
        end
    end.
Proof.
  unfold addUser. rewrite room_key_guard.
  destruct (room_key userId) as [u|] eqn:Hu; [|done].
  apply room_key_Some in Hu as [-> _].
  unfold bind at 1. rewrite _getRoom_spec.
  destruct (room_key roomId) as [r|] eqn:Hr; [|done].
  unfold bind at 1, gets at 1. rewrite room_of_insert. cbv zeta.
  destruct (has (room_of r ρ) u) eqn:Hh.
  - unfold bind, ret. rewrite getUsers_spec, Hr, room_of_insert.
    by rewrite insert_insert_eq.
  - unfold bind, ret, modify. rewrite getUsers_spec, Hr, !room_of_insert.
    by rewrite !insert_insert_eq, set_fresh.
Qed.

Lemma USER_COLORS_at_mod n :
  ∃ c, USER_COLORS !! (n mod length USER_COLORS)%nat = Some c
       ∧ USER_COLORS_at (n mod length USER_COLORS) = JStr c.
Proof.
  unfold USER_COLORS_at.
  destruct (USER_COLORS !! (n mod length USER_COLORS)%nat) as [c|] eqn:E; [by exists c|].
  apply lookup_ge_None in E.
  pose proof (Nat.mod_upper_bound n (length USER_COLORS)) as H.
  assert (length USER_COLORS ≠ 0%nat) by done. lia.
Qed.

(** *** The claims about the member registry *)

Lemma join_each_fresh (r : string) (us : list string) :
  r ≠ "" → NoDup us → Forall (λ u, u ≠ "") us →
  ∀ (ρ : gmap string Room) (i : nat) (u : string),
    (∀ u', u' ∈ us → has (room_of r ρ) u' = false) →
    us !! i = Some u →
    ∃ j, join_each (JStr r) (JStr <$> us) ρ !! i = Some (Ok j)
         ∧ joined_color j
           = USER_COLORS_at ((length (room_of r ρ) + i) mod length USER_COLORS).
Proof.
  intros Hr Hnd Hne. induction us as [|u0 us IH]; intros ρ i u Hfresh Hi; [done|].
  apply NoDup_cons in Hnd as [Hu0 Hnd]. apply Forall_cons in Hne as [Hu0e Hne].
  cbn [fmap list_fmap join_each].
  rewrite addUser_spec, (room_key_str u0 Hu0e), (room_key_str r Hr). cbv zeta.
  rewrite (Hfresh u0) by apply list_elem_of_here.
  destruct i as [|i]; simpl.
  - eexists. split; [done|]. simpl. by rewrite Nat.add_0_r.
  - simpl in Hi.
    destruct (IH Hnd Hne
                (<[r := (room_of r ρ ++
                    [(u0, mkUserData (USER_COLORS_at (length (room_of r ρ) mod length USER_COLORS)))])%list]> ρ)
                i u) as (j & Hj & Hc); [|done|].
    + intros u' Hu'. rewrite room_of_insert, has_app. simpl.
      rewrite (Hfresh u') by by apply list_elem_of_further.
      destruct (String.eqb_spec u0 u') as [->|]; [done|reflexivity].
    + exists j. split; [done|]. rewrite Hc, room_of_insert, length_app. cbn [length].
      by replace (length (room_of r ρ) + 1 + i)%nat
        with (length (room_of r ρ) + S i)%nat by lia.
Qed.

Lemma has_not_elem (room : Room) (u : string) : u ∉ room.*1 → has room u = false.
Proof.
  induction room as [|[k d] room IH]; [done|]. cbn [fmap list_fmap fst has].
  intros [Hk Hu]%not_elem_of_cons.
  destruct (String.eqb_spec k u) as [->|_]; [done|]. by apply IH.
Qed.

Lemma get_elem (room : Room) (u : string) (d : UserData) :
  NoDup room.*1 → (u, d) ∈ room → get room u = Some d.
Proof.
  induction room as [|[k d'] room IH]; [by intros _ []%elem_of_nil|].
  cbn [fmap list_fmap fst get]. intros [Hk Hnd]%NoDup_cons [[= <- <-]|Hin]%elem_of_cons.
  - by rewrite String.eqb_refl.
  - destruct (String.eqb_spec k u) as [->|_]; [|by apply IH].
    destruct Hk. change u with ((u, d).1). by apply list_elem_of_fmap_2.
Qed.

Lemma get_snoc_fresh (room : Room) (u : string) (d : UserData) :
  has room u = false → get (room ++ [(u, d)]) u = Some d.
Proof.
  induction room as [|[k d'] room IH]; cbn [app get has].
  - by rewrite String.eqb_refl.
  - destruct (String.eqb k u); [done|]. apply IH.
Qed.

(** C6. [addUser] with a member already in the room returns that
    member's colour and the current snapshot and leaves the registry as
    it is; with a new member it assigns
    [USER_COLORS[size before % USER_COLORS.length]], always a colour of
    the palette, and appends the member to the room, and the same
    [addUser] once more returns that colour and that snapshot and
    changes nothing; so the [i]-th (counting from 1) of distinct members
    joining a room unknown to the registry gets
    [USER_COLORS[(i - 1) % USER_COLORS.length]].  A room being a [Map],
    it lists a member once. *)
Theorem addUser_colors
    (ρ : gmap string Room) (r u : string) (us : list string) (i : nat) (ui : string) :
  r ≠ "" → u ≠ "" →
  (∀ room d, ρ !! r = Some room → NoDup room.*1 → (u, d) ∈ room →
     addUser (JStr r) (JStr u) ρ = (Ok (mkJoined (color d) (snapshot room)), ρ))
  ∧ (u ∉ (room_of r ρ).*1 →
     ∃ c, USER_COLORS !! (length (room_of r ρ) mod length USER_COLORS)%nat = Some c
          ∧ addUser (JStr r) (JStr u) ρ
            = (Ok (mkJoined (JStr c) (snapshot (room_of r ρ) ++ [(u, JStr c)])),
               <[r := (room_of r ρ ++ [(u, mkUserData (JStr c))])%list]> ρ)
          ∧ addUser (JStr r) (JStr u) (addUser (JStr r) (JStr u) ρ).2
            = (Ok (mkJoined (JStr c) (snapshot (room_of r ρ) ++ [(u, JStr c)])),
               (addUser (JStr r) (JStr u) ρ).2))
  ∧ (ρ !! r = None → NoDup us → Forall (λ u', u' ≠ "") us →
     (1 ≤ i)%nat → us !! (i - 1)%nat = Some ui →
     ∃ j c, join_each (JStr r) (JStr <$> us) ρ !! (i - 1)%nat = Some (Ok j)
            ∧ joined_color j = JStr c
            ∧ USER_COLORS !! ((i - 1) mod length USER_COLORS)%nat = Some c).
Proof.
  intros Hr Hu. split; [|split].
  - intros room d Hroom Hnd Hin. pose proof (get_elem _ _ _ Hnd Hin) as Hget.
    pose proof (get_has _ _ _ Hget) as Hhas.
    rewrite addUser_spec, (room_key_str u Hu), (room_key_str r Hr). cbv zeta.
    unfold room_of. rewrite Hroom. simpl. rewrite Hhas, Hget. simpl.
    by rewrite insert_id.
  - intros Hhas%has_not_elem.
    destruct (USER_COLORS_at_mod (length (room_of r ρ))) as (c & Hc & Hat).
    exists c. split; [done|].
    assert (addUser (JStr r) (JStr u) ρ
            = (Ok (mkJoined (JStr c) (snapshot (room_of r ρ) ++ [(u, JStr c)])),
               <[r := (room_of r ρ ++ [(u, mkUserData (JStr c))])%list]> ρ)) as Hfirst.
    { rewrite addUser_spec, (room_key_str u Hu), (room_key_str r Hr). cbv zeta.
      rewrite Hhas, Hat. unfold snapshot. by rewrite map_app. }
    split; [done|]. rewrite Hfirst. cbn [snd].
    rewrite addUser_spec, (room_key_str u Hu), (room_key_str r Hr). cbv zeta.
    rewrite room_of_insert, has_app, (get_snoc_fresh _ _ _ Hhas).
    cbn [has]. rewrite String.eqb_refl, orb_true_r. cbn [orb fmap option_fmap option_map default color].
    rewrite insert_insert_eq. unfold snapshot. by rewrite map_app.
  - intros Hρ Hnd Hne Hi Hui.
    destruct (join_each_fresh r us Hr Hnd Hne ρ (i - 1) ui) as (j & Hj & Hc); [|done|].
    { intros u' _. unfold room_of. by rewrite Hρ. }
    destruct (USER_COLORS_at_mod (i - 1)) as (c & Hc1 & Hc2).
    exists j, c. split; [done|]. split; [|done].
    rewrite Hc. unfold room_of. rewrite Hρ. cbn [default length Nat.add]. by rewrite Hc2.
Qed.

Lemma addUser_colors_witness :
  ("r1" ≠ "" ∧ "a" ≠ "" ∧ "c" ≠ "")
  ∧ addUser (JStr "r1") (JStr "a") RegistryLaws.sample_registry
    = (Ok (mkJoined (JStr "#FF5733") [("a", JStr "#FF5733"); ("b", JStr "#33FF57")]),
       RegistryLaws.sample_registry)
  ∧ addUser (JStr "r1") (JStr "c")
      (addUser (JStr "r1") (JStr "c") RegistryLaws.sample_registry).2
    = (Ok (mkJoined (JStr "#3357FF")
             [("a", JStr "#FF5733"); ("b", JStr "#33FF57"); ("c", JStr "#3357FF")]),
       (addUser (JStr "r1") (JStr "c") RegistryLaws.sample_registry).2)
  ∧ ∃ j c, join_each (JStr "r1") (JStr <$> ["s1"; "s2"; "s3"]) ∅ !! 2%nat = Some (Ok j)
           ∧ joined_color j = JStr c
           ∧ USER_COLORS !! (2 mod length USER_COLORS)%nat = Some c.
Proof.
  split; [done|]. split; [|split].
  - destruct (addUser_colors RegistryLaws.sample_registry "r1" "a" [] 0 "")
      as (H & _ & _); [done|done|].
    apply (H _ (mkUserData (JStr "#FF5733")) (lookup_singleton_eq _ _)).
    + by apply (bool_decide_unpack _); vm_compute.
    + apply list_elem_of_here.
  - destruct (addUser_colors RegistryLaws.sample_registry "r1" "c" [] 0 "")
      as (_ & H & _); [done|done|].
    destruct H as (c & Hc & _ & H).
    { unfold room_of, RegistryLaws.sample_registry. rewrite lookup_singleton_eq.
      by apply (bool_decide_unpack _); vm_compute. }
    unfold room_of, RegistryLaws.sample_registry in Hc, H.
    rewrite lookup_singleton_eq in Hc, H. cbn in Hc. injection Hc as <-. exact H.
  - destruct (addUser_colors ∅ "r1" "s0" ["s1"; "s2"; "s3"] 3 "s3") as (_ & _ & H);
      [done|done|].
    apply H; [done| |repeat constructor; done|lia|reflexivity].
    by apply (bool_decide_unpack _); vm_compute.
Defined.

(** C5 (as the code has it). [getUsers] fails with ['Invalid roomId'],
    changing nothing, on an identifier that is not a non-empty string;
    for a known room it returns the members in insertion order and
    leaves the registry as it is; for an unknown room with a valid
    identifier it returns the empty list.  In every case the members of
    every room are the same before and after. *)
Theorem getUsers_effect (roomId : value) (ρ : gmap string Room) (r' : string) :
  (room_key roomId = None → getUsers roomId ρ = (Throw "Invalid roomId", ρ))
  ∧ (∀ r room, room_key roomId = Some r → ρ !! r = Some room →
       getUsers roomId ρ = (Ok (snapshot room), ρ))
  ∧ (∀ r, room_key roomId = Some r → ρ !! r = None → (getUsers roomId ρ).1 = Ok [])
  ∧ room_of r' (getUsers roomId ρ).2 = room_of r' ρ.
Proof.
  rewrite getUsers_spec. split; [by intros ->|].
  split; [|split].
  - intros r room -> Hroom. unfold room_of. rewrite Hroom. simpl. by rewrite insert_id.
  - intros r -> Hroom. unfold room_of. by rewrite Hroom.
  - destruct (room_key roomId) as [r|]; [|done]. cbn [snd].
    destruct (decide (r = r')) as [<-|].
    + by rewrite room_of_insert.
    + by rewrite room_of_insert_ne.
Qed.

(** C5 as stated fails: on the empty registry [getUsers('r1')] returns
    the empty list and leaves an entry for ['r1'] behind, which
    [getUserCount] does not, and [getUsers('')] returns no list at
    all. *)
Lemma getUsers_not_read_only :
  (∅ : gmap string Room) !! "r1" = None
  ∧ (getUsers (JStr "r1") ∅).1 = Ok []
  ∧ (getUsers (JStr "r1") ∅).2 !! "r1" = Some []
  ∧ (getUserCount (JStr "r1") ∅).2 !! "r1" = None
  ∧ (getUsers (JStr "") ∅).1 = Throw "Invalid roomId".
Proof. repeat apply conj; vm_compute; reflexivity. Qed.

End RoomManagerFacts.

(** ** Properties of the gateway *)

Module ServerFacts.
Import Server HistoryTerms RegistryTerms GatewayTerms.

(** *** The validator *)

Lemma typeof_number v : String.eqb (typeof v) "number" = true → ∃ n, v = JNum n.
Proof. destruct v; simpl; try discriminate. eauto. Qed.

Lemma typeof_string v : String.eqb (typeof v) "string" = true → ∃ s, v = JStr s.
Proof. destruct v; simpl; try discriminate. eauto. Qed.

Lemma is_str_true v s : is_str v s = true → v = JStr s.
Proof.
  destruct v as [| |b|n|t|fs|xs]; simpl; try discriminate.
  intros H. apply String.eqb_eq in H. by subst.
Qed.

Ltac guards H :=
  repeat first
    [ discriminate H
    | progress (simpl in H)
    | rewrite orb_true_r in H
    | match type of H with
      | (if ?c then _ else _) = _ => destruct c eqn:?; [discriminate H|]
      end ].

Lemma point_guard v :
  negb (String.eqb (typeof (own_property v "x")) "number")
  || negb (String.eqb (typeof (own_property v "y")) "number") = false →
  is_point (JObj v).
Proof.
  intros H. apply orb_false_elim in H as [Hx Hy].
  apply negb_false_iff, typeof_number in Hx as [x Hx].
  apply negb_false_iff, typeof_number in Hy as [y Hy].
  by exists v, x, y.
Qed.

Tactic Notation "guard" hyp(H) "as" ident(G) :=
  match type of H with
  | (if ?c then _ else _) = _ => destruct c eqn:G; [discriminate H|]
  end.

Lemma isValidOperation_well_formed op : isValidOperation op = Ok true → well_formed op.
Proof.
  intros H. unfold isValidOperation in H.
  destruct op as [| |b|n|s|fields|items]; try solve [guards H].
  exists fields. split; [done|]. simpl in H.
  destruct (own_property fields "from") as [| |b|n|s|ffrom|xs] eqn:Hfrom;
    try solve [guards H];
    destruct (own_property fields "to") as [| |b|n|s|fto|xs] eqn:Hto;
    try solve [guards H].
  simpl in H.
  guard H as Gfrom. guard H as Gto. guard H as Gtool. guard H as Gwidth. guard H as Gcolor.
  split; [by apply point_guard|]. split; [by apply point_guard|].
  apply orb_false_elim in Gwidth as [Gw Ghi]. apply orb_false_elim in Gw as [Gnum Glo].
  apply negb_false_iff, typeof_number in Gnum as [w Hw]. rewrite Hw in Glo, Ghi.
  split; [by exists w|].
  destruct (is_str (own_property fields "tool") "brush") eqn:Hbrush.
  - right. split; [by apply is_str_true|].
    simpl in Gcolor. apply orb_false_elim in Gcolor as [Gt Gs].
    apply negb_false_iff, typeof_string in Gs as [c Hc]. exists c. split; [done|].
    rewrite Hc in Gt. simpl in Gt. by intros ->.
  - left. apply orb_false_elim in Gtool as [_ Gtool]. simpl in Gtool.
    by apply negb_false_iff, is_str_true in Gtool.
Qed.

Lemma well_formed_isValidOperation op : well_formed op → isValidOperation op = Ok true.
Proof.
  intros (fields & -> & (ffrom & fx & fy & Hfrom & Hfx & Hfy)
          & (fto & tx & ty & Hto & Htx & Hty) & (w & Hw & Hlo & Hhi) & Htool).
  unfold isValidOperation. simpl. rewrite Hfrom, Hto. simpl.
  rewrite Hfx, Hfy, Htx, Hty, Hw. simpl. rewrite Hlo, Hhi.
  destruct Htool as [->|(-> & c & -> & Hc)]; simpl; [done|].
  by destruct (String.eqb_spec c "").
Qed.

Lemma isValidOperation_total op : ∃ b, isValidOperation op = Ok b.
Proof.
  destruct (isValidOperation op) as [b|msg] eqn:H; [by exists b|exfalso].
  unfold isValidOperation in H.
  destruct op as [| |b|n|s|fields|items]; try solve [guards H].
  simpl in H.
  destruct (own_property fields "from") as [| |b|n|s|ffrom|xs]; try solve [guards H];
    destruct (own_property fields "to") as [| |b|n|s|fto|xs]; solve [guards H].
Qed.

(** *** The sanitizer *)

Lemma all_allowed_strip s : all_allowed (strip s) = true.
Proof.
  induction s as [|c s IH]; simpl; [done|].
  destruct (allowed c) eqn:Hc; simpl; [|done]. by rewrite Hc.
Qed.

Lemma all_allowed_substring m s :
  all_allowed s = true → all_allowed (String.substring 0 m s) = true.
Proof.
  revert s. induction m as [|m IH]; intros [|c s]; simpl; try done.
  intros H. apply andb_prop in H as [-> H]. simpl. by apply IH.
Qed.

Lemma length_substring m s : (String.length (String.substring 0 m s) ≤ m)%nat.
Proof.
  revert s. induction m as [|m IH]; intros [|c s]; simpl; try lia.
  specialize (IH s). lia.
Qed.

Lemma sanitizeRoomId_cases roomId :
  sanitizeRoomId roomId = "default-room"
  ∨ ∃ s, roomId = JStr s
         ∧ sanitizeRoomId roomId = String.substring 0 50 (strip s)
         ∧ String.substring 0 50 (strip s) ≠ "".
Proof.
  unfold sanitizeRoomId. rewrite room_key_guard.
  destruct (room_key roomId) as [s|] eqn:Hk; [|by left].
  apply room_key_Some in Hk as [-> _]. cbv zeta. unfold truthy.
  destruct (String.eqb_spec (String.substring 0 50 (strip s)) "") as [E|E];
    [by left|right]. by exists s.
Qed.

Lemma sanitizeRoomId_nonempty roomId :
  in_sanitized_set (sanitizeRoomId roomId) = true ∧ sanitizeRoomId roomId ≠ "".
Proof.
  destruct (sanitizeRoomId_cases roomId) as [->|(s & -> & -> & Hne)]; [done|].
  split; [|done]. unfold in_sanitized_set.
  rewrite all_allowed_substring by apply all_allowed_strip. simpl.
  apply Nat.leb_le, length_substring.
Qed.

(** *** The handlers *)

Ltac run :=
  cbv beta iota zeta
      delta [bind gets try_catch pure onStates onRooms emit modify ret negb
             rooms roomStates sessions outbox fst snd].

Lemma truthy_str r : r ≠ "" → truthy (JStr r) = true.
Proof. intros Hr. simpl. by destruct (String.eqb_spec r ""). Qed.

Lemma on_DRAW_invalid id data w :
  isValidOperation data = Ok false → on_DRAW id data w = (Ok tt, w).
Proof.
  intros H. unfold on_DRAW. run.
  destruct (truthy (currentRoom (session id w))); [|done].
  by rewrite H.
Qed.

Lemma well_formed_is_object op : well_formed op → HistoryTerms.is_object op = true.
Proof. by intros (fields & -> & _). Qed.

Lemma on_DRAW_valid id data w r :
  isValidOperation data = Ok true → currentRoom (session id w) = JStr r → r ≠ "" →
  ∃ cu cr,
    on_DRAW id data w
    = (Ok tt,
       mkWorld (rooms w)
         (<[r := HistoryTerms.add_state data
                   (DrawingState.room_state r (roomStates w))]> (roomStates w))
         (sessions w)
         (outbox w ++ [mkEmitted (BroadcastTo id (JStr r)) "DRAW" [data];
                       mkEmitted (IoTo (JStr r)) "UNDO_REDO_STATE"
                         [undo_redo_state cu cr]])%list).
Proof.
  intros Hv Hroom Hr.
  pose proof (well_formed_is_object _ (isValidOperation_well_formed _ Hv)) as Hobj.
  unfold on_DRAW. run. rewrite Hroom, (truthy_str r Hr), Hv.
  rewrite DrawingStateFacts.addOperation_spec, Hobj, (room_key_str r Hr). run.
  rewrite DrawingStateFacts.canUndo_spec, (room_key_str r Hr). run.
  rewrite DrawingStateFacts.canRedo_spec, (room_key_str r Hr). run.
  rewrite !DrawingStateFacts.room_state_insert, !insert_insert_eq.
  eexists _, _. by rewrite <-app_assoc.
Qed.

(** What [JOIN_ROOM] does to the registry: the member is added to the
    sanitized room, and no other room is looked at. *)
Lemma on_JOIN_ROOM_rooms id roomId w :
  id ≠ "" →
  rooms (on_JOIN_ROOM id roomId w).2
  = (RoomManager.addUser (JStr (sanitizeRoomId roomId)) (JStr id) (rooms w)).2.
Proof.
  intros Hid.
  destruct (sanitizeRoomId_nonempty roomId) as [Hset Hne].
  unfold on_JOIN_ROOM, set_currentRoom, set_userColor. run.
  rewrite RoomManagerFacts.addUser_spec, (room_key_str id Hid), (room_key_str _ Hne).
  cbv zeta.
  destruct (RoomManager.has _ id); run;
    rewrite DrawingStateFacts.getHistory_spec, (room_key_str _ Hne); run;
    rewrite DrawingStateFacts.canUndo_spec, (room_key_str _ Hne); run;
    rewrite DrawingStateFacts.canRedo_spec, (room_key_str _ Hne); run; done.
Qed.

(** A second [JOIN_ROOM] on a connection, for another room, keeps the
    registration in the room joined first. *)
Lemma on_JOIN_ROOM_keeps_membership id roomId a w :
  id ≠ "" → sanitizeRoomId roomId ≠ a →
  RoomManager.has (RoomManager.room_of a (rooms w)) id = true →
  RoomManager.has (RoomManager.room_of a (rooms (on_JOIN_ROOM id roomId w).2)) id = true
  ∧ RoomManager.has
      (RoomManager.room_of (sanitizeRoomId roomId) (rooms (on_JOIN_ROOM id roomId w).2)) id
    = true.
Proof.
  intros Hid Hother Hin.
  destruct (sanitizeRoomId_nonempty roomId) as [Hset Hne].
  rewrite (on_JOIN_ROOM_rooms id roomId w Hid).
  rewrite RoomManagerFacts.addUser_spec, (room_key_str id Hid), (room_key_str _ Hne).
  cbv zeta.
  destruct (RoomManager.has (RoomManager.room_of (sanitizeRoomId roomId) (rooms w)) id)
    eqn:Hhas; cbn [snd].
  - rewrite RoomManagerFacts.room_of_insert_ne by done.
    by rewrite RoomManagerFacts.room_of_insert.
  - rewrite RoomManagerFacts.room_of_insert_ne by done.
    rewrite RoomManagerFacts.room_of_insert, RoomManagerFacts.has_app. simpl.
    rewrite String.eqb_refl. split; [done|]. by rewrite orb_true_r.
Qed.

(** *** The scenarios of the specification *)

Example scenario_r1 :
  (RoomManager.getUsers (JStr "r1") (rooms (process_all three_join start))).1
  = Ok [("s1", JStr "#FF5733"); ("s2", JStr "#33FF57"); ("s3", JStr "#3357FF")]
  ∧ lengths "r1" (process_all (three_join ++ five_draw) start) = (5, 0)%nat
  ∧ lengths "r1" (process_all (three_join ++ five_draw ++ [("s1", UNDO); ("s3", UNDO)]) start)
    = (3, 2)%nat
  ∧ lengths "r1" (process_all (three_join ++ five_draw
                                ++ [("s1", UNDO); ("s3", UNDO); ("s2", REDO)]) start)
    = (4, 1)%nat
  ∧ lengths "r1" (process_all (three_join ++ five_draw
                                ++ [("s1", UNDO); ("s3", UNDO); ("s2", REDO); ("s1", CLEAR)])
                    start)
    = (0, 0)%nat
  ∧ last (outbox (process_all (three_join ++ five_draw
                                ++ [("s1", UNDO); ("s3", UNDO); ("s2", REDO); ("s1", CLEAR)])
                    start))
    = Some (mkEmitted (IoTo (JStr "r1")) "UNDO_REDO_STATE" [undo_redo_state false false]).
Proof. repeat apply conj; vm_compute; reflexivity. Qed.

Example scenario_malformed_draw :
  process (process_all (three_join ++ five_draw) start) ("s1", DRAW (HistoryTerms.stroke 500))
  = process_all (three_join ++ five_draw) start.
Proof.
  unfold process. cbn [fst snd handler].
  rewrite on_DRAW_invalid; [done|]. vm_compute. reflexivity.
Qed.

(** *** The claims about the gateway *)

(** C4 (as the code has it). The shape of an operation is checked by
    [isValidOperation] in the [DRAW] handler, before [addOperation] is
    called: the check never throws, it accepts exactly the well-formed
    operations, and an operation it rejects leaves the whole server
    state, histories and redo stacks included, as it was and emits
    nothing, while an accepted one is appended to the history of the
    connection's room.  [addOperation] itself rejects, without any
    change, only what is not an object, and appends every object. *)
Theorem draw_validates_shape
    (id : string) (data roomId : value) (w : World)
    (σ : gmap string DrawingState.RoomState) (r : string) :
  (∃ b, isValidOperation data = Ok b)
  ∧ (isValidOperation data = Ok true ↔ well_formed data)
  ∧ (isValidOperation data = Ok false → on_DRAW id data w = (Ok tt, w))
  ∧ (isValidOperation data = Ok true → currentRoom (session id w) = JStr r → r ≠ "" →
     roomStates (on_DRAW id data w).2
     = <[r := HistoryTerms.add_state data
                (DrawingState.room_state r (roomStates w))]> (roomStates w))
  ∧ (HistoryTerms.is_object data = false →
     DrawingState.addOperation roomId data σ = (Throw "Invalid operation", σ))
  ∧ (HistoryTerms.is_object data = true → r ≠ "" →
     DrawingState.addOperation (JStr r) data σ
     = (Ok tt, <[r := HistoryTerms.add_state data (DrawingState.room_state r σ)]> σ)).
Proof.
  split; [apply isValidOperation_total|].
  split; [split; [apply isValidOperation_well_formed|apply well_formed_isValidOperation]|].
  split; [apply on_DRAW_invalid|].
  split.
  { intros Hv Hroom Hr.
    destruct (on_DRAW_valid id data w r Hv Hroom Hr) as (cu & cr & ->). done. }
  split.
  - intros Hobj. by rewrite DrawingStateFacts.addOperation_spec, Hobj.
  - intros Hobj Hr.
    by rewrite DrawingStateFacts.addOperation_spec, Hobj, (room_key_str r Hr).
Qed.

(** C4 as stated fails: an operation whose line width is 500 is rejected
    by the gateway's check, yet [addOperation] accepts it and appends it
    to the history. *)
Lemma addOperation_accepts_malformed :
  isValidOperation (HistoryTerms.stroke 500) = Ok false
  ∧ DrawingState.addOperation (JStr "r1") (HistoryTerms.stroke 500) ∅
    = (Ok tt, {[ "r1" := DrawingState.mkRoomState [HistoryTerms.stroke 500] [] ]})
  ∧ DrawingState.history
      (DrawingState.room_state "r1"
         (DrawingState.addOperation (JStr "r1") (HistoryTerms.stroke 500)
            HistoryTerms.sample_store).2)
    = [HistoryTerms.stroke 1; HistoryTerms.stroke 2; HistoryTerms.stroke 500]
  ∧ DrawingState.redoStack
      (DrawingState.room_state "r1"
         (DrawingState.addOperation (JStr "r1") (HistoryTerms.stroke 500)
            HistoryTerms.sample_store).2)
    = [].
Proof. repeat apply conj; vm_compute; reflexivity. Qed.

(** A line width that is not a number at all ([NaN]) is neither below 1
    nor above 100, and passes the check. *)
Example isValidOperation_nan_width :
  isValidOperation (HistoryTerms.stroke PrimFloat.nan) = Ok true
  ∧ isValidOperation (HistoryTerms.stroke 1) = Ok true
  ∧ isValidOperation (HistoryTerms.stroke 100) = Ok true
  ∧ isValidOperation (HistoryTerms.stroke 0.5) = Ok false.
Proof. repeat apply conj; vm_compute; reflexivity. Qed.

(** C8 (as the code has it). [sanitizeRoomId] always returns a
    non-empty string of at most 50 letters, digits and hyphens, which the
    registry and the history store accept; these two reject an
    identifier, without any change, exactly when it is not a non-empty
    string, and accept every other one. *)
Theorem sanitizeRoomId_restricted
    (roomId v : value) (ρ : gmap string RoomManager.Room)
    (σ : gmap string DrawingState.RoomState) :
  in_sanitized_set (sanitizeRoomId roomId) = true
  ∧ sanitizeRoomId roomId ≠ ""
  ∧ (RoomManager._getRoom (JStr (sanitizeRoomId roomId)) ρ).1 = Ok (sanitizeRoomId roomId)
  ∧ (DrawingState._getRoomState (JStr (sanitizeRoomId roomId)) σ).1
    = Ok (sanitizeRoomId roomId)
  ∧ (RoomManager._getRoom v ρ).1
    = match room_key v with Some r => Ok r | None => Throw "Invalid roomId" end
  ∧ (DrawingState._getRoomState v σ).1
    = match room_key v with Some r => Ok r | None => Throw "Invalid roomId" end
  ∧ (room_key v = None →
     RoomManager._getRoom v ρ = (Throw "Invalid roomId", ρ)
     ∧ DrawingState._getRoomState v σ = (Throw "Invalid roomId", σ)).
Proof.
  destruct (sanitizeRoomId_nonempty roomId) as [Hset Hne].
  rewrite !RoomManagerFacts._getRoom_spec, !DrawingStateFacts._getRoomState_spec.
  rewrite (room_key_str _ Hne).
  split; [done|]. split; [done|]. split; [done|]. split; [done|].
  destruct (room_key v) as [r|]; [done|].
  split; [done|]. split; [done|]. by intros _.
Qed.

(** C8 as stated fails: an identifier with a space and an exclamation
    mark is outside the sanitized set, and the registry and the history
    store take it all the same. *)
Lemma core_accepts_unsanitized :
  in_sanitized_set "room 1!" = false
  ∧ RoomManager._getRoom (JStr "room 1!") ∅ = (Ok "room 1!", {[ "room 1!" := [] ]})
  ∧ DrawingState._getRoomState (JStr "room 1!") ∅
    = (Ok "room 1!", {[ "room 1!" := DrawingState.fresh ]})
  ∧ (RoomManager.addUser (JStr "room 1!") (JStr "s1") ∅).2 !! "room 1!"
    = Some [("s1", RoomManager.mkUserData (JStr "#FF5733"))].
Proof. repeat apply conj; vm_compute; reflexivity. Qed.

(** C9 (what the code does). A connection that sends [JOIN_ROOM] for
    room [a] and then for room [b] is registered in both rooms; when it
    disconnects it is removed from [b] only, and stays a member of [a]. *)
Theorem rejoin_keeps_old_membership :
  (RoomManager.hasUser (JStr "a") (JStr "s1")
     (rooms (process_all [("s1", Connection); ("s1", JOIN_ROOM (JStr "a"));
                          ("s1", JOIN_ROOM (JStr "b"))] start))).1 = Ok true
  ∧ (RoomManager.hasUser (JStr "b") (JStr "s1")
       (rooms (process_all [("s1", Connection); ("s1", JOIN_ROOM (JStr "a"));
                            ("s1", JOIN_ROOM (JStr "b"))] start))).1 = Ok true
  ∧ currentRoom (session "s1"
       (process_all [("s1", Connection); ("s1", JOIN_ROOM (JStr "a"));
                     ("s1", JOIN_ROOM (JStr "b"))] start)) = JStr "b"
  ∧ (RoomManager.hasUser (JStr "a") (JStr "s1")
       (rooms (process_all [("s1", Connection); ("s1", JOIN_ROOM (JStr "a"));
                            ("s1", JOIN_ROOM (JStr "b")); ("s1", Disconnect)] start))).1
    = Ok true
  ∧ (RoomManager.hasUser (JStr "b") (JStr "s1")
       (rooms (process_all [("s1", Connection); ("s1", JOIN_ROOM (JStr "a"));
                            ("s1", JOIN_ROOM (JStr "b")); ("s1", Disconnect)] start))).1
    = Ok false.
Proof. repeat apply conj; vm_compute; reflexivity. Qed.

End ServerFacts.

(** ** Laws of the history store *)

Module DrawingStateLaws.
Import DrawingState HistoryTerms HistoryLaws DrawingStateFacts.
Local Open Scope list_scope.

Lemma after_all_app cs cs' (σ : gmap string RoomState) :
  after_all (cs ++ cs') σ = after_all cs' (after_all cs σ).
Proof.
  unfold after_all. revert σ. induction cs as [|c cs IH]; intros σ; [done|].
  simpl. apply IH.
Qed.

Lemma after_all_cons c cs (σ : gmap string RoomState) :
  after_all (c :: cs) σ = after_all cs (after c σ).
Proof. reflexivity. Qed.

Lemma after_undo r (σ : gmap string RoomState) :
  r ≠ "" → after (Undo (JStr r)) σ = <[r := undo_state (room_state r σ)]> σ.
Proof. intros Hr. simpl. by rewrite undo_spec, (room_key_str r Hr). Qed.

Lemma after_redo r (σ : gmap string RoomState) :
  r ≠ "" → after (Redo (JStr r)) σ = <[r := redo_state (room_state r σ)]> σ.
Proof. intros Hr. simpl. by rewrite redo_spec, (room_key_str r Hr). Qed.

Lemma after_add r op (σ : gmap string RoomState) :
  r ≠ "" → is_object op = true →
  after (AddOperation (JStr r) op) σ = <[r := add_state op (room_state r σ)]> σ.
Proof. intros Hr Hop. simpl. by rewrite addOperation_spec, Hop, (room_key_str r Hr). Qed.

Lemma room_state_Some r s (σ : gmap string RoomState) :
  σ !! r = Some s → room_state r σ = s.
Proof. intros H. unfold room_state. by rewrite H. Qed.

(** [n] undos move the last [n] operations to the redo stack, the last
    one first. *)
Lemma after_undos r n : r ≠ "" →
  ∀ (σ : gmap string RoomState) h t st, length t = n →
    after_all (replicate n (Undo (JStr r))) (<[r := mkRoomState (h ++ t) st]> σ)
    = <[r := mkRoomState h (st ++ reverse t)]> σ.
Proof.
  intros Hr. induction n as [|n IH]; intros σ h t st Ht.
  - destruct t; [|done]. by rewrite reverse_nil, !app_nil_r.
  - destruct t as [|x t _] using rev_ind; [done|].
    rewrite length_app in Ht. simpl in Ht.
    cbn [replicate]. rewrite after_all_cons.
    rewrite (after_undo r _ Hr), room_state_insert, insert_insert_eq.
    rewrite app_assoc. change ((h ++ t) ++ [x]) with (push (h ++ t) x).
    rewrite undo_state_push. unfold push.
    rewrite (IH σ h t (st ++ [x])) by lia.
    by rewrite reverse_snoc, <-app_assoc.
Qed.

(** [n] redos move them back. *)
Lemma after_redos r n : r ≠ "" →
  ∀ (σ : gmap string RoomState) h t st, length t = n →
    after_all (replicate n (Redo (JStr r))) (<[r := mkRoomState h (st ++ reverse t)]> σ)
    = <[r := mkRoomState (h ++ t) st]> σ.
Proof.
  intros Hr. induction n as [|n IH]; intros σ h t st Ht.
  - destruct t; [|done]. by rewrite reverse_nil, !app_nil_r.
  - destruct t as [|x t]; [done|]. simpl in Ht.
    cbn [replicate]. rewrite after_all_cons.
    rewrite (after_redo r _ Hr), room_state_insert, insert_insert_eq.
    rewrite reverse_cons, app_assoc.
    change ((st ++ reverse t) ++ [x]) with (push (st ++ reverse t) x).
    rewrite redo_state_push. unfold push.
    rewrite (IH σ (h ++ [x]) t st) by lia.
    by rewrite <-app_assoc.
Qed.

Lemma tail_drop (l : list value) : tail l = drop 1 l.
Proof. by destruct l. Qed.

Lemma keep_last_snoc n (l : list value) x :
  keep_last n (keep_last n l ++ [x]) = keep_last n (l ++ [x]).
Proof.
  unfold keep_last.
  rewrite <-(drop_app_le l [x]) by lia.
  rewrite drop_drop, length_drop, !length_app. simpl. f_equal. lia.
Qed.

Lemma add_state_keep_last op h st :
  Z.of_nat (length h) ≤ MAX_HISTORY_SIZE →
  add_state op (mkRoomState h st)
  = mkRoomState (keep_last (Z.to_nat MAX_HISTORY_SIZE) (h ++ [op])) [].
Proof.
  intros Hh. unfold add_state, push, shift, keep_last. cbn [history].
  f_equal. rewrite length_app. cbn [length].
  assert (0 < MAX_HISTORY_SIZE) by done.
  destruct (Z.gtb_spec (Z.of_nat (length h + 1)) MAX_HISTORY_SIZE).
  - replace (length h + 1 - Z.to_nat MAX_HISTORY_SIZE)%nat with 1%nat by lia.
    apply tail_drop.
  - replace (length h + 1 - Z.to_nat MAX_HISTORY_SIZE)%nat with 0%nat by lia.
    by rewrite drop_0.
Qed.

Lemma length_keep_last n (l : list value) : (length (keep_last n l) ≤ n)%nat.
Proof. unfold keep_last. rewrite length_drop. lia. Qed.

Lemma keep_last_short n (l : list value) : (length l ≤ n)%nat → keep_last n l = l.
Proof.
  intros H. unfold keep_last. replace (length l - n)%nat with 0%nat by lia.
  apply drop_0.
Qed.

(** *** What one call does *)

(** [undo] on an empty history and [redo] on an empty redo stack return
    the history and change nothing in the room; otherwise [undo] moves
    the last operation of the history to the top of the redo stack, and
    [redo] moves the top of the redo stack to the end of the history;
    both return the new history. *)
Theorem undo_redo_step
    (roomId : value) (r : string) (σ : gmap string RoomState)
    (h st : list value) (op : value) :
  room_key roomId = Some r →
  (room_state r σ = mkRoomState [] st →
   undo roomId σ = (Ok [], <[r := mkRoomState [] st]> σ))
  ∧ (room_state r σ = mkRoomState (h ++ [op]) st →
     undo roomId σ = (Ok h, <[r := mkRoomState h (st ++ [op])]> σ))
  ∧ (room_state r σ = mkRoomState h [] →
     redo roomId σ = (Ok h, <[r := mkRoomState h []]> σ))
  ∧ (room_state r σ = mkRoomState h (st ++ [op]) →
     redo roomId σ = (Ok (h ++ [op]), <[r := mkRoomState (h ++ [op]) st]> σ)).
Proof.
  intros Hk. rewrite undo_spec, redo_spec, Hk.
  split; [|split; [|split]]; intros ->.
  - by rewrite undo_state_empty.
  - change (h ++ [op]) with (push h op). by rewrite undo_state_push.
  - by rewrite redo_state_empty.
  - change (st ++ [op]) with (push st op). by rewrite redo_state_push.
Qed.

Lemma undo_redo_step_witness :
  room_key (JStr "r1") = Some "r1"
  ∧ undo (JStr "r1") sample_store
    = (Ok [stroke 1], <[ "r1" := mkRoomState [stroke 1] [stroke 3; stroke 2] ]> sample_store).
Proof.
  split; [reflexivity|].
  destruct (undo_redo_step (JStr "r1") "r1" sample_store [stroke 1] [stroke 3] (stroke 2))
    as (_ & H & _); [reflexivity|].
  apply H. unfold room_state, sample_store. by rewrite lookup_singleton_eq.
Defined.

(** [redo] followed at once by [undo], in a room whose redo stack is not
    empty, returns the history as it was and leaves the store as it
    was. *)
Theorem undo_redo_roundtrip
    (σ : gmap string RoomState) (r : string) (s : RoomState) :
  r ≠ "" → σ !! r = Some s → redoStack s ≠ [] →
  (redo (JStr r) ;; undo (JStr r))%js σ = (Ok (history s), σ).
Proof.
  intros Hr Hs Hst. unfold bind.
  rewrite redo_spec, (room_key_str r Hr), undo_spec, (room_key_str r Hr).
  rewrite room_state_insert, insert_insert_eq, (room_state_Some r s σ Hs).
  destruct s as [h st]. cbn [redoStack history] in *.
  destruct (push_inv st) as (st' & v & ->).
  { by destruct st. }
  rewrite redo_state_push, undo_state_push. cbn [history].
  by rewrite insert_id.
Qed.

Lemma undo_redo_roundtrip_witness :
  "r1" ≠ "" ∧ sample_store !! "r1" = Some (mkRoomState [stroke 1; stroke 2] [stroke 3])
  ∧ (redo (JStr "r1") ;; undo (JStr "r1"))%js sample_store
    = (Ok [stroke 1; stroke 2], sample_store).
Proof.
  split; [done|]. split; [apply lookup_singleton_eq|].
  apply (undo_redo_roundtrip sample_store "r1" (mkRoomState [stroke 1; stroke 2] [stroke 3]));
    [done | apply lookup_singleton_eq | done].
Defined.

(** As many redos as undos: [n] calls of [undo] followed by [n] calls of
    [redo], for [n] at most the length of the history, leave the store as
    it was. *)
Theorem undos_redos_roundtrip
    (σ : gmap string RoomState) (r : string) (s : RoomState) (n : nat) :
  r ≠ "" → σ !! r = Some s → (n ≤ length (history s))%nat →
  after_all (replicate n (Undo (JStr r)) ++ replicate n (Redo (JStr r))) σ = σ
  ∧ length (history (room_state r (after_all (replicate n (Undo (JStr r))) σ)))
    = (length (history s) - n)%nat.
Proof.
  intros Hr Hs Hn. destruct s as [h st]. cbn [history] in *.
  assert (length (drop (length h - n) h) = n) as Ht by (rewrite length_drop; lia).
  assert (after_all (replicate n (Undo (JStr r))) σ
          = <[r := mkRoomState (take (length h - n) h)
                     (st ++ reverse (drop (length h - n) h))]> σ) as Hu.
  { rewrite <-(after_undos r n Hr σ _ _ st Ht). f_equal.
    rewrite take_drop. symmetry. by apply insert_id. }
  split.
  - rewrite after_all_app, Hu, (after_redos r n Hr σ _ _ st Ht), take_drop.
    by apply insert_id.
  - rewrite Hu, room_state_insert. cbn [history]. rewrite length_take. lia.
Qed.

Lemma undos_redos_roundtrip_witness :
  "r1" ≠ "" ∧ sample_store !! "r1" = Some (mkRoomState [stroke 1; stroke 2] [stroke 3])
  ∧ after_all (replicate 2 (Undo (JStr "r1")) ++ replicate 2 (Redo (JStr "r1"))) sample_store
    = sample_store.
Proof.
  split; [done|]. split; [apply lookup_singleton_eq|].
  apply (undos_redos_roundtrip sample_store "r1"
           (mkRoomState [stroke 1; stroke 2] [stroke 3]) 2);
    [done | apply lookup_singleton_eq | reflexivity].
Defined.

(** *** How the calls compose *)

(** [undo] right after [addOperation] takes the operation back: the
    history is the one before the append when there was room for the
    operation, and that history without its oldest entry when it was
    full (the evicted entry does not come back); the redo stack holds
    the operation alone. *)
Theorem undo_after_addOperation
    (σ : gmap string RoomState) (r : string) (operation : value) :
  r ≠ "" → is_object operation = true →
  (Z.of_nat (length (history (room_state r σ))) < MAX_HISTORY_SIZE →
   (addOperation (JStr r) operation ;; undo (JStr r))%js σ
   = (Ok (history (room_state r σ)),
      <[r := mkRoomState (history (room_state r σ)) [operation]]> σ))
  ∧ (Z.of_nat (length (history (room_state r σ))) = MAX_HISTORY_SIZE →
     (addOperation (JStr r) operation ;; undo (JStr r))%js σ
     = (Ok (tail (history (room_state r σ))),
        <[r := mkRoomState (tail (history (room_state r σ))) [operation]]> σ)).
Proof.
  intros Hr Hop. unfold bind.
  rewrite addOperation_spec, Hop, (room_key_str r Hr), undo_spec, (room_key_str r Hr).
  rewrite room_state_insert, insert_insert_eq.
  unfold add_state, push, shift. rewrite length_app. cbn [length].
  split; intros Hlen.
  - destruct (Z.gtb_spec (Z.of_nat (length (history (room_state r σ)) + 1))
                MAX_HISTORY_SIZE); [lia|].
    change (history (room_state r σ) ++ [operation])
      with (push (history (room_state r σ)) operation).
    by rewrite undo_state_push.
  - destruct (Z.gtb_spec (Z.of_nat (length (history (room_state r σ)) + 1))
                MAX_HISTORY_SIZE); [|lia].
    destruct (history (room_state r σ)) as [|x h]; [by vm_compute in Hlen|].
    cbn [tail app].
    change (h ++ [operation]) with (push h operation).
    by rewrite undo_state_push.
Qed.

Lemma undo_after_addOperation_witness :
  "r1" ≠ "" ∧ is_object (stroke 4) = true
  ∧ (addOperation (JStr "r1") (stroke 4) ;; undo (JStr "r1"))%js sample_store
    = (Ok (history (room_state "r1" sample_store)),
       <[ "r1" := mkRoomState (history (room_state "r1" sample_store)) [stroke 4] ]>
         sample_store)
  ∧ (addOperation (JStr "r1") (stroke 4) ;; undo (JStr "r1"))%js full_store
    = (Ok (tail (history (room_state "r1" full_store))),
       <[ "r1" := mkRoomState (tail (history (room_state "r1" full_store))) [stroke 4] ]>
         full_store).
Proof.
  split; [done|]. split; [reflexivity|]. split.
  - apply (undo_after_addOperation sample_store "r1" (stroke 4)); [done|reflexivity|].
    unfold room_state, sample_store. rewrite lookup_singleton_eq. by vm_compute.
  - apply (undo_after_addOperation full_store "r1" (stroke 4)); [done|reflexivity|].
    unfold room_state, full_store. rewrite lookup_singleton_eq.
    cbn [default from_option id history].
    rewrite length_replicate. by apply Z2Nat.id.
Defined.

(** The history is a sliding window: after appending the operations
    [ops] to a room whose history is within the bound, the history is
    the last [MAX_HISTORY_SIZE] entries of the old history followed by
    [ops]. *)
Theorem appends_keep_last
    (σ : gmap string RoomState) (r : string) (ops : list value) :
  r ≠ "" → Forall (λ op, is_object op = true) ops →
  Z.of_nat (length (history (room_state r σ))) ≤ MAX_HISTORY_SIZE →
  history (room_state r (after_all (appends (JStr r) ops) σ))
  = keep_last (Z.to_nat MAX_HISTORY_SIZE) (history (room_state r σ) ++ ops).
Proof.
  intros Hr Hops Hlen. induction ops as [|op ops IH] using rev_ind.
  - rewrite app_nil_r. cbn. symmetry. apply keep_last_short. lia.
  - apply Forall_app in Hops as [Hops Hop]. rewrite Forall_singleton in Hop.
    unfold appends. rewrite map_app, after_all_app. cbn [map].
    rewrite after_all_cons. cbn [after_all foldl].
    rewrite (after_add r op _ Hr Hop), room_state_insert.
    specialize (IH Hops). unfold appends in IH.
    destruct (room_state r (after_all (map (AddOperation (JStr r)) ops) σ)) as [h' st'].
    cbn [history] in IH. subst h'.
    rewrite add_state_keep_last.
    + cbn [history]. by rewrite keep_last_snoc, app_assoc.
    + pose proof (length_keep_last (Z.to_nat MAX_HISTORY_SIZE)
                    (history (room_state r σ) ++ ops)).
      assert (0 < MAX_HISTORY_SIZE) by done. lia.
Qed.

Lemma appends_keep_last_witness :
  "r1" ≠ "" ∧ Forall (λ op, is_object op = true) [stroke 4; stroke 5]
  ∧ history (room_state "r1" (after_all (appends (JStr "r1") [stroke 4; stroke 5]) sample_store))
    = keep_last (Z.to_nat MAX_HISTORY_SIZE)
        (history (room_state "r1" sample_store) ++ [stroke 4; stroke 5]).
Proof.
  split; [done|]. split; [by repeat constructor|].
  apply (appends_keep_last sample_store "r1" [stroke 4; stroke 5]);
    [done | by repeat constructor |].
  unfold room_state, sample_store. rewrite lookup_singleton_eq. by vm_compute.
Defined.

(** *** Rooms are independent, and bad identifiers change nothing *)

(** A call made with the identifier of one room leaves the entry of
    every other room as it is, whether it returns or throws. *)
Theorem calls_leave_other_rooms (c : call) (σ : gmap string RoomState) (r' : string) :
  call_room c ≠ JStr r' → after c σ !! r' = σ !! r'.
Proof.
  intros Hne.
  assert (∀ r, room_key (call_room c) = Some r → r ≠ r') as Hk.
  { intros r Hr ->. apply room_key_Some in Hr as [Hr _]. done. }
  destruct c as [i|i o|i|i|i|i|i|i]; cbn [after call_room] in *.
  - rewrite getHistory_spec. destruct (room_key i) as [r|] eqn:E; [|done].
    cbn [snd]. by rewrite lookup_insert_ne by by apply Hk.
  - rewrite addOperation_spec. destruct (is_object o); [|done].
    destruct (room_key i) as [r|] eqn:E; [|done].
    cbn [snd]. by rewrite lookup_insert_ne by by apply Hk.
  - rewrite undo_spec. destruct (room_key i) as [r|] eqn:E; [|done].
    cbn [snd]. by rewrite lookup_insert_ne by by apply Hk.
  - rewrite redo_spec. destruct (room_key i) as [r|] eqn:E; [|done].
    cbn [snd]. by rewrite lookup_insert_ne by by apply Hk.
  - rewrite canUndo_spec. destruct (room_key i) as [r|] eqn:E; [|done].
    cbn [snd]. by rewrite lookup_insert_ne by by apply Hk.
  - rewrite canRedo_spec. destruct (room_key i) as [r|] eqn:E; [|done].
    cbn [snd]. by rewrite lookup_insert_ne by by apply Hk.
  - rewrite clear_spec. destruct (room_key i) as [r|] eqn:E; [|done].
    cbn [snd]. by rewrite lookup_insert_ne by by apply Hk.
  - unfold deleteRoom, modify. cbn [snd].
    destruct i as [| |b|n|s|fs|xs]; try done.
    apply lookup_delete_ne. by intros ->.
Qed.

Lemma calls_leave_other_rooms_witness :
  call_room (Clear (JStr "r2")) ≠ JStr "r1"
  ∧ after (Clear (JStr "r2")) sample_store !! "r1" = sample_store !! "r1".
Proof.
  split; [done|].
  by apply (calls_leave_other_rooms (Clear (JStr "r2")) sample_store "r1").
Defined.

(** With an identifier that is not a non-empty string, every method but
    [deleteRoom] throws and leaves the store as it is: ['Invalid roomId'],
    except that [addOperation] tests the operation first and throws
    ['Invalid operation'] for one that is not an object.  [deleteRoom]
    never throws. *)
Theorem invalid_room_rejected (c : call) (roomId : value) (σ : gmap string RoomState) :
  room_key (call_room c) = None → guarded c = true →
  after c σ = σ
  ∧ outcome c σ
    = match c with
      | AddOperation _ operation =>
          if is_object operation then Throw "Invalid roomId" else Throw "Invalid operation"
      | _ => Throw "Invalid roomId"
      end
  ∧ outcome (DeleteRoom roomId) σ = Ok tt.
Proof.
  intros Hk Hg.
  destruct c as [i|i o|i|i|i|i|i|i]; cbn [after outcome call_room] in *; try done.
  - by rewrite getHistory_spec, Hk.
  - rewrite addOperation_spec, Hk. by destruct (is_object o).
  - by rewrite undo_spec, Hk.
  - by rewrite redo_spec, Hk.
  - by rewrite canUndo_spec, Hk.
  - by rewrite canRedo_spec, Hk.
  - by rewrite clear_spec, Hk.
Qed.

Lemma invalid_room_rejected_witness :
  room_key (call_room (AddOperation (JStr "") JNull)) = None
  ∧ guarded (AddOperation (JStr "") JNull) = true
  ∧ after (AddOperation (JStr "") JNull) sample_store = sample_store
  ∧ outcome (AddOperation (JStr "") JNull) sample_store = Throw "Invalid operation"
  ∧ after (Undo JNull) sample_store = sample_store
  ∧ outcome (Undo JNull) sample_store = Throw "Invalid roomId".
Proof.
  split; [reflexivity|]. split; [reflexivity|].
  destruct (invalid_room_rejected (AddOperation (JStr "") JNull) JNull sample_store)
    as (H1 & H2 & _); [reflexivity|reflexivity|].
  destruct (invalid_room_rejected (Undo JNull) JNull sample_store)
    as (H3 & H4 & _); [reflexivity|reflexivity|].
  by repeat split.
Defined.

(** [getHistory], [canUndo] and [canRedo] change the history and the redo
    stack of no room.  Called for a room the store knows they leave the
    store as it is; called for one it does not know they leave a fresh
    entry behind and answer as for an empty room. *)
Theorem reads_change_no_room
    (c : call) (σ : gmap string RoomState) (r r' : string) :
  reads c = true → call_room c = JStr r → r ≠ "" →
  room_state r' (after c σ) = room_state r' σ
  ∧ (is_Some (σ !! r) → after c σ = σ)
  ∧ (σ !! r = None →
     after c σ = <[r := fresh]> σ
     ∧ getHistory (JStr r) σ = (Ok [], <[r := fresh]> σ)
     ∧ canUndo (JStr r) σ = (Ok false, <[r := fresh]> σ)
     ∧ canRedo (JStr r) σ = (Ok false, <[r := fresh]> σ)).
Proof.
  intros Hc Hroom Hr.
  assert (after c σ = <[r := room_state r σ]> σ) as ->.
  { destruct c as [i|i o|i|i|i|i|i|i]; try done; cbn [after call_room] in *; subst i.
    - by rewrite getHistory_spec, (room_key_str r Hr).
    - by rewrite canUndo_spec, (room_key_str r Hr).
    - by rewrite canRedo_spec, (room_key_str r Hr). }
  split; [|split].
  - destruct (decide (r = r')) as [<-|].
    + by rewrite room_state_insert.
    + by rewrite room_state_insert_ne.
  - intros [s Hs]. rewrite (room_state_Some r s σ Hs). by apply insert_id.
  - intros Hnone.
    rewrite getHistory_spec, canUndo_spec, canRedo_spec, (room_key_str r Hr).
    unfold room_state. by rewrite Hnone.
Qed.

Lemma reads_change_no_room_witness :
  reads (CanUndo (JStr "r1")) = true ∧ call_room (CanUndo (JStr "r1")) = JStr "r1"
  ∧ "r1" ≠ ""
  ∧ after (CanUndo (JStr "r1")) sample_store = sample_store
  ∧ after (CanUndo (JStr "r1")) ∅ = <[ "r1" := fresh ]> ∅.
Proof.
  split; [reflexivity|]. split; [reflexivity|]. split; [done|].
  destruct (reads_change_no_room (CanUndo (JStr "r1")) sample_store "r1" "r1")
    as (_ & H1 & _); [reflexivity|reflexivity|done|].
  destruct (reads_change_no_room (CanUndo (JStr "r1")) ∅ "r1" "r1")
    as (_ & _ & H2); [reflexivity|reflexivity|done|].
  split.
  - apply H1. exists (mkRoomState [stroke 1; stroke 2] [stroke 3]).
    apply lookup_singleton_eq.
  - by apply H2.
Defined.

Lemma undo_state_fixed s : undo_state s = s ↔ history s = [].
Proof.
  split; [|apply undo_state_empty].
  destruct s as [h st]. cbn [history].
  destruct (Nat.eqb (length h) 0) eqn:E; [by destruct h|].
  destruct (push_inv h E) as (h' & v & ->). rewrite undo_state_push.
  intros [= H _]. apply (f_equal length) in H. unfold push in H.
  rewrite length_app in H. simpl in H. lia.
Qed.

Lemma redo_state_fixed s : redo_state s = s ↔ redoStack s = [].
Proof.
  split; [|apply redo_state_empty].
  destruct s as [h st]. cbn [redoStack].
  destruct (Nat.eqb (length st) 0) eqn:E; [by destruct st|].
  destruct (push_inv st E) as (st' & v & ->). rewrite redo_state_push.
  intros [= H _]. apply (f_equal length) in H. unfold push in H.
  rewrite length_app in H. simpl in H. lia.
Qed.

(** [canUndo] answers false exactly when [undo] would change nothing in
    the room, and [canRedo] answers false exactly when [redo] would
    change nothing. *)
Theorem canUndo_canRedo_exact (roomId : value) (r : string) (σ : gmap string RoomState) :
  room_key roomId = Some r →
  ((canUndo roomId σ).1 = Ok false
   ↔ room_state r (undo roomId σ).2 = room_state r σ)
  ∧ ((canRedo roomId σ).1 = Ok false
     ↔ room_state r (redo roomId σ).2 = room_state r σ).
Proof.
  intros Hk. rewrite canUndo_spec, canRedo_spec, undo_spec, redo_spec, Hk.
  cbn [fst snd]. rewrite !room_state_insert.
  rewrite undo_state_fixed, redo_state_fixed.
  split; split.
  - intros [= H]. apply negb_false_iff, Nat.eqb_eq in H.
    by destruct (history (room_state r σ)).
  - by intros ->.
  - intros [= H]. apply negb_false_iff, Nat.eqb_eq in H.
    by destruct (redoStack (room_state r σ)).
  - by intros ->.
Qed.

Lemma canUndo_canRedo_exact_witness :
  room_key (JStr "r1") = Some "r1"
  ∧ ((canUndo (JStr "r1") sample_store).1 = Ok false
     ↔ room_state "r1" (undo (JStr "r1") sample_store).2 = room_state "r1" sample_store).
Proof.
  split; [reflexivity|].
  by destruct (canUndo_canRedo_exact (JStr "r1") "r1" sample_store) as [H _].
Defined.

End DrawingStateLaws.

(** ** Laws of the member registry *)

Module RoomManagerLaws.
Import RoomManager RegistryTerms RegistryLaws RoomManagerFacts.
Local Open Scope list_scope.

Lemma removeUser_spec roomId userId (ρ : gmap string Room) :
  removeUser roomId userId ρ =
    match room_key roomId with
    | None => (Throw "Invalid roomId", ρ)
    | Some r =>
        let room' := match userId with
                     | JStr u => remove (room_of r ρ) u
                     | _ => room_of r ρ
                     end in
        (Ok tt, if Nat.eqb (length room') 0 then delete r ρ else <[r := room']> ρ)
    end.
Proof.
  unfold removeUser, bind at 1. rewrite _getRoom_spec.
  destruct (room_key roomId) as [r|]; [|done].
  unfold bind, modify, gets, ret. rewrite !room_of_insert, !insert_insert_eq. cbv zeta.
  destruct (Nat.eqb _ 0); [|done]. by rewrite delete_insert_eq.
Qed.

Lemma has_ids room u : has room u = true ↔ u ∈ ids room.
Proof.
  induction room as [|[k d] room IH]; simpl.
  - split; [done|]. by intros ?%elem_of_nil.
  - rewrite orb_true_iff, IH, elem_of_cons.
    destruct (String.eqb_spec k u) as [->|Hne].
    + split; intros _; by left.
    + split; (intros [H|H]; [congruence|by right]).
Qed.

Lemma has_ids_false room u : has room u = false ↔ u ∉ ids room.
Proof. rewrite <-has_ids. by destruct (has room u). Qed.

Lemma remove_without room u : NoDup (ids room) → remove room u = without u room.
Proof.
  unfold without. induction room as [|[k d] room IH]; simpl; [done|].
  intros [Hk Hnd]%NoDup_cons. destruct (String.eqb_spec k u) as [->|Hne].
  - rewrite filter_cons_False by (simpl; by intros H).
    clear IH. induction room as [|[k' d'] room IH]; [done|].
    simpl in Hk. apply not_elem_of_cons in Hk as [Hk1 Hk2].
    apply NoDup_cons in Hnd as [_ Hnd].
    rewrite filter_cons_True by (simpl; congruence). f_equal. by apply IH.
  - rewrite filter_cons_True by done. f_equal. by apply IH.
Qed.

Lemma remove_absent room u : has room u = false → remove room u = room.
Proof.
  induction room as [|[k d] room IH]; simpl; [done|].
  destruct (String.eqb k u); simpl; [done|]. intros H. by rewrite IH.
Qed.




Lemma get_remove_ne room u v : u ≠ v → get (remove room v) u = get room u.
Proof.
  intros Hne. induction room as [|[k d] room IH]; simpl; [done|].
  destruct (String.eqb_spec k v) as [->|]; simpl.
  - by destruct (String.eqb_spec v u).
  - by rewrite IH.
Qed.

Lemma get_app_Some room l u d : get room u = Some d → get (room ++ l) u = Some d.
Proof.
  induction room as [|[k d'] room IH]; simpl; [done|].
  by destruct (String.eqb k u).
Qed.


Lemma ids_remove_sublist room u : sublist (ids (remove room u)) (ids room).
Proof.
  induction room as [|[k d] room IH]; simpl; [done|].
  destruct (String.eqb k u); simpl.
  - by apply sublist_cons.
  - by apply sublist_skip.
Qed.

Lemma Forall_remove (P : string * UserData → Prop) room u :
  Forall P room → Forall P (remove room u).
Proof.
  induction room as [|[k d] room IH]; simpl; [done|].
  intros [Hk H]%Forall_cons. destruct (String.eqb k u); [done|].
  apply Forall_cons. split; [done|]. by apply IH.
Qed.

Lemma ids_app room l : ids (room ++ l) = ids room ++ ids l.
Proof. unfold ids. apply map_app. Qed.

Lemma reg_after_all_cons c cs (ρ : gmap string Room) :
  reg_after_all (c :: cs) ρ = reg_after_all cs (reg_after c ρ).
Proof. reflexivity. Qed.

Lemma has_without room u : has (without u room) u = false.
Proof.
  unfold without. induction room as [|[k d] room IH]; [done|].
  rewrite filter_cons. simpl. destruct (decide (k ≠ u)) as [Hne|]; [|done].
  simpl. rewrite IH. by destruct (String.eqb_spec k u).
Qed.

Lemma get_without room u v : v ≠ u → get (without u room) v = get room v.
Proof.
  intros Hne. unfold without. induction room as [|[k d] room IH]; [done|].
  rewrite filter_cons. simpl. destruct (decide (k ≠ u)) as [Hk|Hk]; simpl.
  - by rewrite IH.
  - apply dec_stable in Hk. subst k. rewrite IH.
    by destruct (String.eqb_spec u v).
Qed.

Lemma remove_app_absent room l u :
  has room u = false → remove (room ++ l) u = room ++ remove l u.
Proof.
  induction room as [|[k d] room IH]; simpl; [done|].
  destruct (String.eqb k u); simpl; [done|]. intros H. by rewrite IH.
Qed.

Lemma room_of_nonempty r (ρ : gmap string Room) :
  room_of r ρ ≠ [] → ρ !! r = Some (room_of r ρ).
Proof. unfold room_of. by destruct (ρ !! r). Qed.

Lemma length_0_nil {A} (l : list A) : Nat.eqb (length l) 0 = true ↔ l = [].
Proof. destruct l; simpl; split; done. Qed.

Lemma removeUser_known (ρ : gmap string Room) (r u : string) (room : Room) :
  r ≠ "" → ρ !! r = Some room → NoDup (ids room) →
  removeUser (JStr r) (JStr u) ρ
  = (Ok tt, match without u room with
            | [] => delete r ρ
            | _ => <[r := without u room]> ρ
            end).
Proof.
  intros Hr Hroom Hnd.
  rewrite removeUser_spec, (room_key_str r Hr). cbv zeta.
  replace (room_of r ρ) with room by (unfold room_of; by rewrite Hroom).
  rewrite (remove_without room u Hnd).
  by destruct (without u room).
Qed.

Lemma removeUser_not_member (ρ : gmap string Room) (r u : string) :
  r ≠ "" → has (room_of r ρ) u = false →
  removeUser (JStr r) (JStr u) ρ
  = (Ok tt, match ρ !! r with
            | Some [] => delete r ρ
            | _ => ρ
            end).
Proof.
  intros Hr Hhas. rewrite removeUser_spec, (room_key_str r Hr). cbv zeta.
  rewrite (remove_absent _ _ Hhas). unfold room_of.
  destruct (ρ !! r) as [[|e room]|] eqn:E; cbn [default from_option id length Nat.eqb].
  - done.
  - by rewrite insert_id.
  - by rewrite delete_id.
Qed.

(** *** Leaving a room *)

(** [removeUser] takes exactly that member out of the room: the others
    keep their place and their colour, [hasUser] answers false for the
    one removed, and when nobody is left the entry of the room is
    deleted from the registry. *)
Theorem removeUser_effect (ρ : gmap string Room) (r u : string) (room : Room) :
  r ≠ "" → ρ !! r = Some room → NoDup (ids room) →
  removeUser (JStr r) (JStr u) ρ
  = (Ok tt, match without u room with
            | [] => delete r ρ
            | _ => <[r := without u room]> ρ
            end)
  ∧ hasUser (JStr r) (JStr u) (removeUser (JStr r) (JStr u) ρ).2
    = (Ok false, (removeUser (JStr r) (JStr u) ρ).2)
  ∧ (∀ v, v ≠ u → get (room_of r (removeUser (JStr r) (JStr u) ρ).2) v = get room v).
Proof.
  intros Hr Hroom Hnd.
  rewrite removeUser_spec, (room_key_str r Hr). cbv zeta.
  replace (room_of r ρ) with room by (unfold room_of; by rewrite Hroom).
  rewrite (remove_without room u Hnd).
  pose proof (has_without room u) as Hhas.
  pose proof (get_without room u) as Hget.
  destruct (without u room) as [|e room'] eqn:E; cbn [length Nat.eqb fst snd].
  - split; [done|]. split.
    + unfold hasUser, gets. by rewrite lookup_delete_eq.
    + intros v Hv. unfold room_of. rewrite lookup_delete_eq. simpl.
      by rewrite <-(Hget v Hv).
  - split; [done|]. split.
    + unfold hasUser, gets. by rewrite lookup_insert_eq, Hhas.
    + intros v Hv. rewrite room_of_insert. by apply Hget.
Qed.

Lemma removeUser_effect_witness :
  "r1" ≠ ""
  ∧ sample_registry !! "r1"
    = Some [("a", mkUserData (JStr "#FF5733")); ("b", mkUserData (JStr "#33FF57"))]
  ∧ NoDup (ids [("a", mkUserData (JStr "#FF5733")); ("b", mkUserData (JStr "#33FF57"))])
  ∧ removeUser (JStr "r1") (JStr "a") sample_registry
    = (Ok tt, <[ "r1" := [("b", mkUserData (JStr "#33FF57"))] ]> sample_registry).
Proof.
  assert (NoDup (ids [("a", mkUserData (JStr "#FF5733")); ("b", mkUserData (JStr "#33FF57"))]))
    as Hnd by (by apply (bool_decide_unpack _); vm_compute).
  split; [done|]. split; [apply lookup_singleton_eq|]. split; [exact Hnd|].
  destruct (removeUser_effect sample_registry "r1" "a"
              [("a", mkUserData (JStr "#FF5733")); ("b", mkUserData (JStr "#33FF57"))])
    as (H & _); [done|apply lookup_singleton_eq|exact Hnd|].
  exact H.
Defined.

(** [removeUser] for somebody who is not in the room is no error and
    leaves the members of every room as they are: the registry is
    unchanged when it does not know the room or knows it with members,
    and an entry without members (such as [getUsers] leaves for an
    unknown room) is deleted.  So a second [removeUser] of the same
    member does nothing more than the first. *)
Theorem removeUser_absent (ρ : gmap string Room) (r u : string) :
  r ≠ "" → u ∉ ids (room_of r ρ) →
  removeUser (JStr r) (JStr u) ρ
  = (Ok tt, match ρ !! r with
            | Some [] => delete r ρ
            | _ => ρ
            end)
  ∧ (∀ r', room_of r' (removeUser (JStr r) (JStr u) ρ).2 = room_of r' ρ)
  ∧ ((∀ room, ρ !! r = Some room → NoDup (ids room)) →
     ∀ v, (removeUser (JStr r) (JStr v) ;; removeUser (JStr r) (JStr v))%js ρ
          = removeUser (JStr r) (JStr v) ρ).
Proof.
  intros Hr Hhas%has_ids_false.
  rewrite (removeUser_not_member ρ r u Hr Hhas). split; [done|]. split.
  - intros r'. cbn [snd]. destruct (ρ !! r) as [[|e room]|] eqn:E; try done.
    unfold room_of. destruct (decide (r = r')) as [<-|Hne].
    + by rewrite lookup_delete_eq, E.
    + by rewrite lookup_delete_ne.
  - intros Hnd v. unfold bind.
    destruct (ρ !! r) as [room|] eqn:Hroom.
    + rewrite (removeUser_known ρ r v room Hr Hroom (Hnd room eq_refl)).
      destruct (without v room) as [|e room'] eqn:E.
      * rewrite removeUser_not_member; [|done|].
        -- by rewrite lookup_delete_eq.
        -- unfold room_of. by rewrite lookup_delete_eq.
      * rewrite removeUser_not_member; [|done|].
        -- by rewrite lookup_insert_eq.
        -- rewrite room_of_insert, <-E. apply has_without.
    + rewrite (removeUser_not_member ρ r v Hr); [|unfold room_of; by rewrite Hroom].
      rewrite Hroom.
      rewrite (removeUser_not_member ρ r v Hr); [|unfold room_of; by rewrite Hroom].
      by rewrite Hroom.
Qed.

Lemma removeUser_absent_witness :
  ("r1" ≠ "" ∧ ("c" ∉ ids (room_of "r1" sample_registry))
   ∧ ("c" ∉ ids (room_of "r9" sample_registry))
   ∧ ("c" ∉ ids (room_of "r9" (snd (getUsers (JStr "r9") sample_registry)))))
  ∧ removeUser (JStr "r1") (JStr "c") sample_registry = (Ok tt, sample_registry)
  ∧ removeUser (JStr "r9") (JStr "c") sample_registry = (Ok tt, sample_registry)
  ∧ snd (getUsers (JStr "r9") sample_registry) !! "r9" = Some []
  ∧ removeUser (JStr "r9") (JStr "c") (getUsers (JStr "r9") sample_registry).2
    = (Ok tt, delete "r9" (getUsers (JStr "r9") sample_registry).2).
Proof.
  assert ("c" ∉ ids (room_of "r1" sample_registry)) as H1.
  { unfold room_of, sample_registry. rewrite lookup_singleton_eq.
    by apply (bool_decide_unpack _); vm_compute. }
  assert ("c" ∉ ids (room_of "r9" sample_registry)) as H2.
  { unfold room_of, sample_registry. rewrite lookup_singleton_ne by done.
    by intros ?%elem_of_nil. }
  assert (snd (getUsers (JStr "r9") sample_registry) !! "r9" = Some []) as H3.
  { rewrite getUsers_spec, (room_key_str "r9") by done. cbn [snd].
    rewrite lookup_insert_eq.
    unfold room_of, sample_registry. by rewrite lookup_singleton_ne. }
  assert ("c" ∉ ids (room_of "r9" (snd (getUsers (JStr "r9") sample_registry)))) as H4.
  { unfold room_of. rewrite H3. by intros ?%elem_of_nil. }
  split; [done|]. split; [|split; [|split; [exact H3|]]].
  - destruct (removeUser_absent sample_registry "r1" "c") as [H _]; [done|exact H1|].
    rewrite H. unfold sample_registry. by rewrite lookup_singleton_eq.
  - destruct (removeUser_absent sample_registry "r9" "c") as [H _]; [done|exact H2|].
    rewrite H. unfold sample_registry. by rewrite lookup_singleton_ne.
  - destruct (removeUser_absent (getUsers (JStr "r9") sample_registry).2 "r9" "c")
      as [H _]; [done|exact H4|].
    rewrite H. by rewrite H3.
Defined.

(** *** Joining and leaving *)

(** A new member that joins a room and leaves it again leaves the
    registry as it was, provided the room was unknown or had members. *)
Theorem addUser_removeUser_roundtrip (ρ : gmap string Room) (r u : string) :
  r ≠ "" → u ≠ "" → has (room_of r ρ) u = false → ρ !! r ≠ Some [] →
  (addUser (JStr r) (JStr u) ;; removeUser (JStr r) (JStr u))%js ρ = (Ok tt, ρ).
Proof.
  intros Hr Hu Hhas Hne. unfold bind.
  rewrite addUser_spec, (room_key_str u Hu), (room_key_str r Hr). cbv zeta.
  rewrite Hhas, removeUser_spec, (room_key_str r Hr). cbv zeta.
  rewrite room_of_insert, (remove_app_absent _ _ _ Hhas). cbn [remove].
  rewrite String.eqb_refl, app_nil_r.
  unfold room_of in *.
  destruct (ρ !! r) as [[|e room]|] eqn:E; cbn [default from_option id length Nat.eqb].
  - done.
  - by rewrite insert_insert_eq, insert_id.
  - by rewrite delete_insert_eq, delete_id.
Qed.

Lemma addUser_removeUser_roundtrip_witness :
  "r1" ≠ "" ∧ "c" ≠ "" ∧ has (room_of "r1" sample_registry) "c" = false
  ∧ sample_registry !! "r1" ≠ Some []
  ∧ (addUser (JStr "r1") (JStr "c") ;; removeUser (JStr "r1") (JStr "c"))%js sample_registry
    = (Ok tt, sample_registry).
Proof.
  assert (has (room_of "r1" sample_registry) "c" = false) as H1.
  { unfold room_of, sample_registry. by rewrite lookup_singleton_eq. }
  assert (sample_registry !! "r1" ≠ Some []) as H2.
  { unfold sample_registry. by rewrite lookup_singleton_eq. }
  split; [done|]. split; [done|]. split; [exact H1|]. split; [exact H2|].
  by apply (addUser_removeUser_roundtrip sample_registry "r1" "c").
Defined.

(** *** Colours *)

Lemma room_of_delete_ne r r' (ρ : gmap string Room) :
  r ≠ r' → room_of r' (delete r ρ) = room_of r' ρ.
Proof. intros. unfold room_of. by rewrite lookup_delete_ne. Qed.

Lemma get_Some_nonempty room u d : get room u = Some d → Nat.eqb (length room) 0 = false.
Proof. by destruct room. Qed.

Lemma get_after c (ρ : gmap string Room) r u d :
  removes r u c = false →
  get (room_of r ρ) u = Some d → get (room_of r (reg_after c ρ)) u = Some d.
Proof.
  intros Hc Hget. destruct c as [i j|i j|i|i|i j]; cbn [reg_after].
  - rewrite addUser_spec. destruct (room_key j) as [u'|]; [|done].
    destruct (room_key i) as [r'|]; [|done]. cbv zeta.
    destruct (decide (r' = r)) as [->|Hne].
    + destruct (has (room_of r ρ) u'); cbn [snd]; rewrite room_of_insert; [done|].
      by apply get_app_Some.
    + destruct (has (room_of r' ρ) u'); cbn [snd]; by rewrite room_of_insert_ne.
  - rewrite removeUser_spec. destruct (room_key i) as [r'|] eqn:Hi; [|done]. cbv zeta.
    apply room_key_Some in Hi as [-> _]. cbn [snd].
    destruct (decide (r' = r)) as [->|Hne].
    + assert (get (match j with
                   | JStr u' => remove (room_of r ρ) u'
                   | _ => room_of r ρ
                   end) u = Some d) as Hget'.
      { destruct j as [| |b|n|u'|fs|xs]; try done.
        rewrite get_remove_ne; [done|]. intros ->.
        simpl in Hc. by rewrite !String.eqb_refl in Hc. }
      rewrite (get_Some_nonempty _ _ _ Hget'). by rewrite room_of_insert.
    + destruct (Nat.eqb _ 0).
      * by rewrite room_of_delete_ne.
      * by rewrite room_of_insert_ne.
  - rewrite getUsers_spec. destruct (room_key i) as [r'|]; [|done]. cbn [snd].
    destruct (decide (r' = r)) as [->|Hne].
    + by rewrite room_of_insert.
    + by rewrite room_of_insert_ne.
  - done.
  - done.
Qed.

(** A member keeps the colour it was given for as long as it stays in
    the room: whatever other members join or leave, and whatever is
    asked of the registry, its colour is the same afterwards. *)
Theorem color_stable
    (cs : list reg_call) (ρ : gmap string Room) (r u : string) (d : UserData) :
  forallb (λ c, negb (removes r u c)) cs = true →
  get (room_of r ρ) u = Some d →
  get (room_of r (reg_after_all cs ρ)) u = Some d.
Proof.
  revert ρ. induction cs as [|c cs IH]; intros ρ Hcs Hget; [done|].
  cbn [forallb] in Hcs. apply andb_prop in Hcs as [Hc Hcs].
  rewrite reg_after_all_cons. apply IH; [done|].
  apply get_after; [|done]. by apply negb_true_iff.
Qed.

Lemma color_stable_witness :
  forallb (λ c, negb (removes "r1" "b" c))
    [RemoveUser (JStr "r1") (JStr "a"); AddUser (JStr "r1") (JStr "c");
     AddUser (JStr "r1") (JStr "b"); RemoveUser (JStr "r2") (JStr "b")] = true
  ∧ get (room_of "r1" sample_registry) "b" = Some (mkUserData (JStr "#33FF57"))
  ∧ get (room_of "r1"
           (reg_after_all
              [RemoveUser (JStr "r1") (JStr "a"); AddUser (JStr "r1") (JStr "c");
               AddUser (JStr "r1") (JStr "b"); RemoveUser (JStr "r2") (JStr "b")]
              sample_registry)) "b"
    = Some (mkUserData (JStr "#33FF57")).
Proof.
  assert (get (room_of "r1" sample_registry) "b" = Some (mkUserData (JStr "#33FF57"))) as H.
  { unfold room_of, sample_registry. by rewrite lookup_singleton_eq. }
  split; [reflexivity|]. split; [exact H|].
  by apply (color_stable _ sample_registry "r1" "b").
Defined.



(** *** Queries *)

Lemma ids_snapshot room : (snapshot room).*1 = ids room.
Proof. unfold snapshot, ids. induction room as [|[k d] room IH]; [done|]. simpl. by f_equal. Qed.

(** [getUserCount] and [hasUser] never change the registry, and for a
    valid room identifier they agree with the list [getUsers] returns:
    the count is its length, and [hasUser] answers true exactly for the
    identifiers in it.  For a room identifier that is not a string,
    which [getUsers] rejects, they answer 0 and false. *)
Theorem queries_agree
    (ρ : gmap string Room) (roomId userId : value) (r u : string)
    (us : list (string * value)) :
  r ≠ "" → (getUsers (JStr r) ρ).1 = Ok us →
  getUserCount (JStr r) ρ = (Ok (length us), ρ)
  ∧ (hasUser (JStr r) (JStr u) ρ = (Ok true, ρ) ↔ u ∈ us.*1)
  ∧ (hasUser (JStr r) (JStr u) ρ = (Ok false, ρ) ↔ u ∉ us.*1)
  ∧ (typeof roomId ≠ "string" →
     getUserCount roomId ρ = (Ok 0%nat, ρ) ∧ hasUser roomId userId ρ = (Ok false, ρ)
     ∧ (getUsers roomId ρ).1 = Throw "Invalid roomId").
Proof.
  intros Hr. rewrite getUsers_spec, (room_key_str r Hr). intros [= <-].
  rewrite ids_snapshot. unfold snapshot. rewrite length_map.
  unfold getUserCount, hasUser, gets, room_of.
  split; [|split; [|split]].
  - by destruct (ρ !! r).
  - rewrite <-has_ids. destruct (ρ !! r) as [room|]; simpl.
    + split; [by intros [= ->]|by intros ->].
    + split; [by intros [=]|done].
  - rewrite <-has_ids_false. destruct (ρ !! r) as [room|]; simpl.
    + split; [by intros [= ->]|by intros ->].
    + done.
  - intros Hty. rewrite getUsers_spec.
    by destruct roomId as [| |b|n|s|fs|xs].
Qed.

Lemma queries_agree_witness :
  "r1" ≠ ""
  ∧ (getUsers (JStr "r1") sample_registry).1 = Ok [("a", JStr "#FF5733"); ("b", JStr "#33FF57")]
  ∧ getUserCount (JStr "r1") sample_registry = (Ok 2%nat, sample_registry).
Proof.
  assert ((getUsers (JStr "r1") sample_registry).1
          = Ok [("a", JStr "#FF5733"); ("b", JStr "#33FF57")]) as H.
  { vm_compute. reflexivity. }
  split; [done|]. split; [exact H|].
  by destruct (queries_agree sample_registry JNull JNull "r1" "a"
                 [("a", JStr "#FF5733"); ("b", JStr "#33FF57")]) as [H1 _].
Defined.

(** *** What every registry looks like *)

Lemma well_kept_room_of r (ρ : gmap string Room) :
  well_kept ρ → NoDup (ids (room_of r ρ)) ∧ Forall palette_color (room_of r ρ).
Proof.
  intros Hρ. unfold room_of. destruct (ρ !! r) as [room|] eqn:E; simpl.
  - by apply (Hρ r).
  - split; [apply NoDup_nil_2|done].
Qed.

Lemma well_kept_insert r room (ρ : gmap string Room) :
  well_kept ρ → NoDup (ids room) → Forall palette_color room →
  well_kept (<[r := room]> ρ).
Proof.
  intros Hρ Hnd Hpal r' room'. rewrite lookup_insert. case_decide.
  - by intros [= <-].
  - apply Hρ.
Qed.

Lemma well_kept_delete r (ρ : gmap string Room) : well_kept ρ → well_kept (delete r ρ).
Proof.
  intros Hρ r' room'. rewrite lookup_delete. case_decide; [done|]. apply Hρ.
Qed.

Lemma well_kept_after c (ρ : gmap string Room) : well_kept ρ → well_kept (reg_after c ρ).
Proof.
  intros Hρ. destruct c as [i j|i j|i|i|i j]; cbn [reg_after]; try done.
  - rewrite addUser_spec. destruct (room_key j) as [u|]; [|done].
    destruct (room_key i) as [r|]; [|done]. cbv zeta.
    destruct (well_kept_room_of r ρ Hρ) as [Hnd Hpal].
    destruct (has (room_of r ρ) u) eqn:Hhas; cbn [snd].
    + by apply well_kept_insert.
    + apply well_kept_insert; [done| |].
      * rewrite ids_app. apply NoDup_app. split; [done|]. split.
        -- intros x Hx [->|[]%elem_of_nil]%elem_of_cons. by apply has_ids_false in Hhas.
        -- apply NoDup_singleton.
      * apply Forall_app. split; [done|]. apply Forall_singleton.
        destruct (USER_COLORS_at_mod (length (room_of r ρ))) as (c & Hc & ->).
        exists c. split; [done|]. by apply list_elem_of_lookup_2 in Hc.
  - rewrite removeUser_spec. destruct (room_key i) as [r|]; [|done]. cbv zeta.
    destruct (well_kept_room_of r ρ Hρ) as [Hnd Hpal]. cbn [snd].
    destruct (Nat.eqb _ 0); [by apply well_kept_delete|].
    apply well_kept_insert; [done| |]; destruct j as [| |b|n|u|fs|xs]; try done.
    + apply (sublist_NoDup _ _ Hnd), ids_remove_sublist.
    + by apply Forall_remove.
  - rewrite getUsers_spec. destruct (room_key i) as [r|]; [|done]. cbn [snd].
    destruct (well_kept_room_of r ρ Hρ) as [Hnd Hpal]. by apply well_kept_insert.
Qed.

(** In every registry reached from the empty one by calls of the
    methods, a room lists each member once and every member has one of
    the twenty colours of the palette (never [undefined]). *)
Theorem registry_well_kept (cs : list reg_call) (r : string) :
  NoDup (ids (room_of r (reg_after_all cs ∅)))
  ∧ Forall palette_color (room_of r (reg_after_all cs ∅))
  ∧ NoDup (snapshot (room_of r (reg_after_all cs ∅))).*1.
Proof.
  assert (well_kept (reg_after_all cs ∅)) as H.
  { assert (well_kept (∅ : gmap string Room)) as H0.
    { intros r' room. by rewrite lookup_empty. }
    revert H0. generalize (∅ : gmap string Room).
    induction cs as [|c cs IH]; intros ρ Hρ; [done|].
    rewrite reg_after_all_cons. by apply IH, well_kept_after. }
  destruct (well_kept_room_of r _ H) as [Hnd Hpal].
  rewrite ids_snapshot. done.
Qed.

End RoomManagerLaws.

(** ** Laws of the gateway *)

Module ServerLaws.
Import Server HistoryTerms RegistryTerms GatewayTerms RegistryLaws GatewayLaws.
Import DrawingStateFacts RoomManagerFacts RoomManagerLaws ServerFacts.
Local Open Scope list_scope.

Ltac step :=
  cbv beta iota zeta
      delta [bind gets try_catch pure onStates onRooms emit modify ret negb
             set_currentRoom set_userColor
             rooms roomStates sessions outbox fst snd].

(** *** What each handler does for a connection that has joined *)

Lemma on_DRAW_joined id data w r :
  isValidOperation data = Ok true → currentRoom (session id w) = JStr r → r ≠ "" →
  on_DRAW id data w
  = (Ok tt,
     mkWorld (rooms w)
       (<[r := add_state data (DrawingState.room_state r (roomStates w))]> (roomStates w))
       (sessions w)
       (outbox w ++ [mkEmitted (BroadcastTo id (JStr r)) "DRAW" [data];
                     mkEmitted (IoTo (JStr r)) "UNDO_REDO_STATE"
                       [flags (add_state data (DrawingState.room_state r (roomStates w)))]])).
Proof.
  intros Hv Hroom Hr.
  pose proof (well_formed_is_object _ (isValidOperation_well_formed _ Hv)) as Hobj.
  unfold on_DRAW. step. rewrite Hroom, (truthy_str r Hr), Hv.
  rewrite addOperation_spec, Hobj, (room_key_str r Hr). step.
  rewrite canUndo_spec, (room_key_str r Hr). step.
  rewrite canRedo_spec, (room_key_str r Hr). step.
  rewrite !room_state_insert, !insert_insert_eq.
  by rewrite <-app_assoc.
Qed.

Lemma on_UNDO_joined id w r :
  currentRoom (session id w) = JStr r → r ≠ "" →
  on_UNDO id w
  = (Ok tt,
     mkWorld (rooms w)
       (<[r := undo_state (DrawingState.room_state r (roomStates w))]> (roomStates w))
       (sessions w)
       (outbox w
        ++ [mkEmitted (IoTo (JStr r)) "DRAW_HISTORY"
              [JArr (DrawingState.history
                       (undo_state (DrawingState.room_state r (roomStates w))))];
            mkEmitted (IoTo (JStr r)) "UNDO_REDO_STATE"
              [flags (undo_state (DrawingState.room_state r (roomStates w)))]])).
Proof.
  intros Hroom Hr. unfold on_UNDO. step. rewrite Hroom, (truthy_str r Hr).
  rewrite undo_spec, (room_key_str r Hr). step.
  rewrite canUndo_spec, (room_key_str r Hr). step.
  rewrite canRedo_spec, (room_key_str r Hr). step.
  rewrite !room_state_insert, !insert_insert_eq.
  by rewrite <-app_assoc.
Qed.

Lemma on_REDO_joined id w r :
  currentRoom (session id w) = JStr r → r ≠ "" →
  on_REDO id w
  = (Ok tt,
     mkWorld (rooms w)
       (<[r := redo_state (DrawingState.room_state r (roomStates w))]> (roomStates w))
       (sessions w)
       (outbox w
        ++ [mkEmitted (IoTo (JStr r)) "DRAW_HISTORY"
              [JArr (DrawingState.history
                       (redo_state (DrawingState.room_state r (roomStates w))))];
            mkEmitted (IoTo (JStr r)) "UNDO_REDO_STATE"
              [flags (redo_state (DrawingState.room_state r (roomStates w)))]])).
Proof.
  intros Hroom Hr. unfold on_REDO. step. rewrite Hroom, (truthy_str r Hr).
  rewrite redo_spec, (room_key_str r Hr). step.
  rewrite canUndo_spec, (room_key_str r Hr). step.
  rewrite canRedo_spec, (room_key_str r Hr). step.
  rewrite !room_state_insert, !insert_insert_eq.
  by rewrite <-app_assoc.
Qed.

Lemma on_CLEAR_joined id w r :
  currentRoom (session id w) = JStr r → r ≠ "" →
  on_CLEAR id w
  = (Ok tt,
     mkWorld (rooms w) (<[r := DrawingState.fresh]> (roomStates w)) (sessions w)
       (outbox w
        ++ [mkEmitted (IoTo (JStr r)) "CLEAR" [];
            mkEmitted (IoTo (JStr r)) "UNDO_REDO_STATE" [flags DrawingState.fresh]])).
Proof.
  intros Hroom Hr. unfold on_CLEAR. step. rewrite Hroom, (truthy_str r Hr).
  rewrite clear_spec, (room_key_str r Hr). step.
  by rewrite <-app_assoc.
Qed.

Lemma on_REQUEST_HISTORY_joined id w r :
  currentRoom (session id w) = JStr r → r ≠ "" →
  on_REQUEST_HISTORY id w
  = (Ok tt,
     mkWorld (rooms w)
       (<[r := DrawingState.room_state r (roomStates w)]> (roomStates w))
       (sessions w)
       (outbox w
        ++ [mkEmitted (ToSocket id) "DRAW_HISTORY"
              [JArr (DrawingState.history (DrawingState.room_state r (roomStates w)))];
            mkEmitted (ToSocket id) "UNDO_REDO_STATE"
              [flags (DrawingState.room_state r (roomStates w))]])).
Proof.
  intros Hroom Hr. unfold on_REQUEST_HISTORY. step. rewrite Hroom, (truthy_str r Hr).
  rewrite getHistory_spec, (room_key_str r Hr). step.
  rewrite canUndo_spec, (room_key_str r Hr). step.
  rewrite canRedo_spec, (room_key_str r Hr). step.
  rewrite !room_state_insert, !insert_insert_eq.
  by rewrite <-app_assoc.
Qed.

Lemma on_disconnect_joined id w r :
  currentRoom (session id w) = JStr r → r ≠ "" →
  on_disconnect id w
  = (Ok tt,
     mkWorld (RoomManager.removeUser (JStr r) (JStr id) (rooms w)).2
       (match (RoomManager.removeUser (JStr r) (JStr id) (rooms w)).2 !! r with
        | Some (_ :: _) => roomStates w
        | _ => delete r (roomStates w)
        end)
       (sessions w)
       (outbox w ++ [mkEmitted (IoTo (JStr r)) "USER_LEFT" [JStr id]])).
Proof.
  intros Hroom Hr. unfold on_disconnect. step. rewrite Hroom, (truthy_str r Hr).
  rewrite removeUser_spec, (room_key_str r Hr). step.
  unfold RoomManager.getUserCount, DrawingState.deleteRoom. step.
  destruct (_ !! r) as [[|e room]|]; reflexivity.
Qed.

Lemma on_JOIN_ROOM_joined id roomId w :
  id ≠ "" →
  on_JOIN_ROOM id roomId w
  = (Ok tt,
     mkWorld (RoomManager.addUser (JStr (sanitizeRoomId roomId)) (JStr id) (rooms w)).2
       (<[sanitizeRoomId roomId :=
            DrawingState.room_state (sanitizeRoomId roomId) (roomStates w)]> (roomStates w))
       (<[id := mkSession (JStr (sanitizeRoomId roomId))
                  (match (RoomManager.addUser (JStr (sanitizeRoomId roomId)) (JStr id)
                            (rooms w)).1 with
                   | Ok j => RoomManager.joined_color j
                   | Throw _ => JUndefined
                   end)]> (sessions w))
       (outbox w
        ++ match (RoomManager.addUser (JStr (sanitizeRoomId roomId)) (JStr id) (rooms w)).1 with
           | Ok j =>
               [mkEmitted (ToSocket id) "USER_INIT"
                  [JObj [("id", JStr id); ("color", RoomManager.joined_color j);
                         ("users", JArr (map user_object (RoomManager.users j)))]];
                mkEmitted (ToSocket id) "DRAW_HISTORY"
                  [JArr (DrawingState.history
                           (DrawingState.room_state (sanitizeRoomId roomId) (roomStates w)))];
                mkEmitted (ToSocket id) "UNDO_REDO_STATE"
                  [flags (DrawingState.room_state (sanitizeRoomId roomId) (roomStates w))];
                mkEmitted (BroadcastTo id (JStr (sanitizeRoomId roomId))) "USER_JOINED"
                  [JObj [("id", JStr id); ("color", RoomManager.joined_color j)]]]
           | Throw _ => []
           end)).
Proof.
  intros Hid.
  destruct (sanitizeRoomId_nonempty roomId) as [Hset Hne].
  unfold on_JOIN_ROOM. step.
  rewrite addUser_spec, (room_key_str id Hid), (room_key_str _ Hne). cbv zeta.
  destruct (RoomManager.has _ id); step;
    rewrite getHistory_spec, (room_key_str _ Hne); step;
    rewrite canUndo_spec, (room_key_str _ Hne); step;
    rewrite canRedo_spec, (room_key_str _ Hne); step;
    rewrite !room_state_insert, !insert_insert_eq;
    unfold session; cbn [sessions]; rewrite lookup_insert_eq;
    cbn [default from_option currentRoom];
    by rewrite <-!app_assoc.
Qed.

Lemma on_JOIN_ROOM_nameless roomId w :
  on_JOIN_ROOM "" roomId w
  = (Ok tt,
     mkWorld (rooms w) (roomStates w)
       (<["" := mkSession (JStr (sanitizeRoomId roomId)) (userColor (session "" w))]>
          (sessions w))
       (outbox w ++ [mkEmitted (ToSocket "") "ERROR"
                       [JObj [("message", JStr "Failed to join room")]]])).
Proof. reflexivity. Qed.

Lemma handler_unjoined id msg w :
  needs_room msg = true → truthy (currentRoom (session id w)) = false →
  handler id msg w = (Ok tt, w).
Proof.
  intros Hmsg Hroom.
  destruct msg; try done; cbn [handler];
    unfold on_DRAW, on_CURSOR_MOVE, on_UNDO, on_REDO, on_CLEAR, on_REQUEST_HISTORY,
      on_disconnect; step; by rewrite Hroom.
Qed.

(** *** Before the join *)

(** A connection that has not joined a room is not served: its [DRAW],
    [CURSOR_MOVE], [UNDO], [REDO], [CLEAR], [REQUEST_HISTORY] and
    [disconnect] change nothing and emit nothing; a new connection is in
    that state. *)
Theorem messages_before_join_ignored (id : string) (msg : inbound) (w : World) :
  needs_room msg = true →
  handler id msg (on_connection id w).2 = (Ok tt, (on_connection id w).2)
  ∧ (truthy (currentRoom (session id w)) = false → handler id msg w = (Ok tt, w)).
Proof.
  intros Hmsg. split; [|by apply handler_unjoined].
  apply handler_unjoined; [done|].
  unfold on_connection, modify, session. cbn [snd sessions].
  by rewrite lookup_insert_eq.
Qed.

Lemma messages_before_join_ignored_witness :
  needs_room (DRAW (stroke 5)) = true
  ∧ handler "s9" (DRAW (stroke 5)) (on_connection "s9" one_member).2
    = (Ok tt, (on_connection "s9" one_member).2).
Proof.
  split; [reflexivity|].
  by destruct (messages_before_join_ignored "s9" (DRAW (stroke 5)) one_member) as [H _].
Defined.

(** *** Undo and redo for the whole room *)

(** [UNDO] and [REDO] from a connection in room [r] store what
    [DrawingState.undo] and [DrawingState.redo] leave, and send the
    whole room the complete history as it is stored afterwards, followed
    by the undo/redo availability; the registry and the connections are
    not touched. *)
Theorem undo_redo_broadcast (id r : string) (w : World) :
  currentRoom (session id w) = JStr r → r ≠ "" →
  handler id UNDO w
  = (Ok tt,
     mkWorld (rooms w) (DrawingState.undo (JStr r) (roomStates w)).2 (sessions w)
       (outbox w
        ++ [mkEmitted (IoTo (JStr r)) "DRAW_HISTORY"
              [JArr (DrawingState.history
                       (DrawingState.room_state r
                          (DrawingState.undo (JStr r) (roomStates w)).2))];
            mkEmitted (IoTo (JStr r)) "UNDO_REDO_STATE"
              [flags (DrawingState.room_state r
                        (DrawingState.undo (JStr r) (roomStates w)).2)]]))
  ∧ handler id REDO w
    = (Ok tt,
       mkWorld (rooms w) (DrawingState.redo (JStr r) (roomStates w)).2 (sessions w)
         (outbox w
          ++ [mkEmitted (IoTo (JStr r)) "DRAW_HISTORY"
                [JArr (DrawingState.history
                         (DrawingState.room_state r
                            (DrawingState.redo (JStr r) (roomStates w)).2))];
              mkEmitted (IoTo (JStr r)) "UNDO_REDO_STATE"
                [flags (DrawingState.room_state r
                          (DrawingState.redo (JStr r) (roomStates w)).2)]])).
Proof.
  intros Hroom Hr. cbn [handler].
  rewrite (on_UNDO_joined id w r Hroom Hr), (on_REDO_joined id w r Hroom Hr).
  rewrite undo_spec, redo_spec, (room_key_str r Hr). cbn [snd].
  by rewrite !room_state_insert.
Qed.

Lemma undo_redo_broadcast_witness :
  currentRoom (session "s1" one_member) = JStr "r1" ∧ "r1" ≠ ""
  ∧ handler "s1" UNDO one_member
    = (Ok tt,
       mkWorld (rooms one_member) (DrawingState.undo (JStr "r1") (roomStates one_member)).2
         (sessions one_member)
         (outbox one_member
          ++ [mkEmitted (IoTo (JStr "r1")) "DRAW_HISTORY"
                [JArr (DrawingState.history
                         (DrawingState.room_state "r1"
                            (DrawingState.undo (JStr "r1") (roomStates one_member)).2))];
              mkEmitted (IoTo (JStr "r1")) "UNDO_REDO_STATE"
                [flags (DrawingState.room_state "r1"
                          (DrawingState.undo (JStr "r1") (roomStates one_member)).2)]])).
Proof.
  assert (currentRoom (session "s1" one_member) = JStr "r1") as H.
  { unfold session, one_member. cbn [sessions]. by rewrite lookup_singleton_eq. }
  split; [exact H|]. split; [done|].
  by destruct (undo_redo_broadcast "s1" "r1" one_member H) as [H1 _].
Defined.

Lemma last_two {A} (l : list A) a b : last (l ++ [a; b]) = Some b.
Proof. change [a; b] with ([a] ++ [b]). by rewrite app_assoc, last_snoc. Qed.

(** After a [DRAW] that passes the check, an [UNDO], a [REDO], a [CLEAR]
    or a [REQUEST_HISTORY] from a connection in room [r], the message
    emitted last is [UNDO_REDO_STATE], and its [canUndo] and [canRedo]
    say whether the history and the redo stack stored for [r] are
    non-empty; for [CLEAR], which sends the constants false and false,
    as for the others. *)
Theorem flags_match_store (id r : string) (msg : inbound) (w : World) :
  currentRoom (session id w) = JStr r → r ≠ "" →
  match msg with
  | DRAW data => isValidOperation data = Ok true
  | UNDO | REDO | CLEAR | REQUEST_HISTORY => True
  | _ => False
  end →
  last (outbox (handler id msg w).2)
  = Some (mkEmitted (match msg with REQUEST_HISTORY => ToSocket id | _ => IoTo (JStr r) end)
            "UNDO_REDO_STATE"
            [flags (DrawingState.room_state r (roomStates (handler id msg w).2))]).
Proof.
  intros Hroom Hr Hmsg. destruct msg as [|i|data|data| | | | |]; try done; cbn [handler].
  - rewrite (on_DRAW_joined id data w r Hmsg Hroom Hr). cbn [snd outbox roomStates].
    by rewrite room_state_insert, last_two.
  - rewrite (on_UNDO_joined id w r Hroom Hr). cbn [snd outbox roomStates].
    by rewrite room_state_insert, last_two.
  - rewrite (on_REDO_joined id w r Hroom Hr). cbn [snd outbox roomStates].
    by rewrite room_state_insert, last_two.
  - rewrite (on_CLEAR_joined id w r Hroom Hr). cbn [snd outbox roomStates].
    by rewrite room_state_insert, last_two.
  - rewrite (on_REQUEST_HISTORY_joined id w r Hroom Hr). cbn [snd outbox roomStates].
    by rewrite room_state_insert, last_two.
Qed.

Lemma flags_match_store_witness :
  currentRoom (session "s1" one_member) = JStr "r1" ∧ "r1" ≠ ""
  ∧ last (outbox (handler "s1" CLEAR one_member).2)
    = Some (mkEmitted (IoTo (JStr "r1")) "UNDO_REDO_STATE"
              [flags (DrawingState.room_state "r1"
                        (roomStates (handler "s1" CLEAR one_member).2))]).
Proof.
  assert (currentRoom (session "s1" one_member) = JStr "r1") as H.
  { unfold session, one_member. cbn [sessions]. by rewrite lookup_singleton_eq. }
  split; [exact H|]. split; [done|].
  by apply (flags_match_store "s1" "r1" CLEAR one_member).
Defined.

(** *** Joining *)

(** [JOIN_ROOM] from a connection with a non-empty identifier never
    fails, whatever it is sent as room identifier: the member is added
    to the sanitized room, the connection remembers that room and its
    colour, no history and no redo stack changes, and exactly four
    messages are emitted, in this order: [USER_INIT] (identity, colour,
    member list), [DRAW_HISTORY] (the complete history) and
    [UNDO_REDO_STATE] to the sender, [USER_JOINED] to the others. *)
Theorem join_room_served (id : string) (roomId : value) (w : World) (r' : string) :
  id ≠ "" →
  ∃ j,
    (RoomManager.addUser (JStr (sanitizeRoomId roomId)) (JStr id) (rooms w)).1 = Ok j
    ∧ handler id (JOIN_ROOM roomId) w
      = (Ok tt,
         mkWorld (RoomManager.addUser (JStr (sanitizeRoomId roomId)) (JStr id) (rooms w)).2
           (DrawingState.getHistory (JStr (sanitizeRoomId roomId)) (roomStates w)).2
           (<[id := mkSession (JStr (sanitizeRoomId roomId)) (RoomManager.joined_color j)]>
              (sessions w))
           (outbox w
            ++ [mkEmitted (ToSocket id) "USER_INIT"
                  [JObj [("id", JStr id); ("color", RoomManager.joined_color j);
                         ("users", JArr (map user_object (RoomManager.users j)))]];
                mkEmitted (ToSocket id) "DRAW_HISTORY"
                  [JArr (DrawingState.history
                           (DrawingState.room_state (sanitizeRoomId roomId) (roomStates w)))];
                mkEmitted (ToSocket id) "UNDO_REDO_STATE"
                  [flags (DrawingState.room_state (sanitizeRoomId roomId) (roomStates w))];
                mkEmitted (BroadcastTo id (JStr (sanitizeRoomId roomId))) "USER_JOINED"
                  [JObj [("id", JStr id); ("color", RoomManager.joined_color j)]]]))
    ∧ DrawingState.room_state r' (roomStates (handler id (JOIN_ROOM roomId) w).2)
      = DrawingState.room_state r' (roomStates w)
    ∧ RoomManager.has
        (RoomManager.room_of (sanitizeRoomId roomId)
           (rooms (handler id (JOIN_ROOM roomId) w).2)) id = true.
Proof.
  intros Hid. destruct (sanitizeRoomId_nonempty roomId) as [Hset Hne].
  cbn [handler]. rewrite (on_JOIN_ROOM_joined id roomId w Hid).
  rewrite getHistory_spec, (room_key_str _ Hne).
  rewrite addUser_spec, (room_key_str id Hid), (room_key_str _ Hne). cbv zeta.
  assert (∀ σ : gmap string DrawingState.RoomState,
            DrawingState.room_state r'
              (<[sanitizeRoomId roomId := DrawingState.room_state (sanitizeRoomId roomId) σ]> σ)
            = DrawingState.room_state r' σ) as Hsame.
  { intros σ. destruct (decide (sanitizeRoomId roomId = r')) as [<-|].
    - by rewrite room_state_insert.
    - by rewrite room_state_insert_ne. }
  destruct (RoomManager.has _ id) eqn:Hhas; eexists; cbn [fst snd rooms roomStates].
  - rewrite room_of_insert, Hhas. by rewrite Hsame.
  - rewrite room_of_insert, has_app. simpl. rewrite String.eqb_refl, orb_true_r.
    by rewrite Hsame.
Qed.

Lemma join_room_served_witness :
  "s2" ≠ ""
  ∧ ∃ j,
      (RoomManager.addUser (JStr (sanitizeRoomId (JStr "r 1"))) (JStr "s2")
         (rooms one_member)).1 = Ok j
      ∧ RoomManager.joined_color j = JStr "#33FF57"
      ∧ sessions (handler "s2" (JOIN_ROOM (JStr "r 1")) one_member).2 !! "s2"
        = Some (mkSession (JStr "r1") (JStr "#33FF57")).
Proof.
  split; [done|].
  destruct (join_room_served "s2" (JStr "r 1") one_member "r1") as (j & H1 & H2 & _);
    [done|].
  exists j. split; [exact H1|].
  assert (RoomManager.joined_color j = JStr "#33FF57") as Hc.
  { assert (Ok (A:=RoomManager.Joined) j
            = Ok (RoomManager.mkJoined (JStr "#33FF57")
                    [("s1", JStr "#FF5733"); ("s2", JStr "#33FF57")])) as [= ->];
      [|done].
    rewrite <-H1. vm_compute. reflexivity. }
  split; [exact Hc|].
  rewrite H2. cbn [snd sessions]. rewrite lookup_insert_eq, Hc.
  by vm_compute.
Defined.

(** *** Cursors *)

Lemma isValidCursorData_well_formed data :
  isValidCursorData data = Ok true → well_formed_cursor data.
Proof.
  intros H. unfold isValidCursorData in H.
  destruct data as [| |b|n|s|fields|items]; try solve [guards H].
  exists fields. split; [done|]. simpl in H.
  destruct (own_property fields "pos") as [| |b|n|s|fpos|xs] eqn:Hpos;
    try solve [guards H].
  simpl in H. guard H as Gpos. by apply point_guard.
Qed.

Lemma well_formed_cursor_isValidCursorData data :
  well_formed_cursor data → isValidCursorData data = Ok true.
Proof.
  intros (fields & -> & (fpos & x & y & Hpos & Hx & Hy)).
  unfold isValidCursorData. simpl. rewrite Hpos. simpl. by rewrite Hx, Hy.
Qed.

Lemma isValidCursorData_total data : ∃ b, isValidCursorData data = Ok b.
Proof.
  destruct (isValidCursorData data) as [b|msg] eqn:H; [by exists b|exfalso].
  unfold isValidCursorData in H.
  destruct data as [| |b|n|s|fields|items]; try solve [guards H].
  simpl in H.
  destruct (own_property fields "pos") as [| |b|n|s|fpos|xs]; solve [guards H].
Qed.

(** Cursor positions are relayed, never stored.  [isValidCursorData]
    never throws and accepts exactly an object whose [pos] has a numeric
    [x] and a numeric [y]; [CURSOR_MOVE] changes neither the registry,
    the histories nor the connections; with rejected data it emits
    nothing, and with accepted data from a connection in room [r] it
    emits one [CURSOR_MOVE] to the others in [r], carrying the sender's
    identifier, the position and the sender's assigned colour. *)
Theorem cursor_move_relayed (id r : string) (data : value) (w : World) :
  (∃ b, isValidCursorData data = Ok b)
  ∧ (isValidCursorData data = Ok true ↔ well_formed_cursor data)
  ∧ rooms (handler id (CURSOR_MOVE data) w).2 = rooms w
  ∧ roomStates (handler id (CURSOR_MOVE data) w).2 = roomStates w
  ∧ sessions (handler id (CURSOR_MOVE data) w).2 = sessions w
  ∧ (isValidCursorData data = Ok false → handler id (CURSOR_MOVE data) w = (Ok tt, w))
  ∧ (∀ fields, data = JObj fields → isValidCursorData data = Ok true →
     currentRoom (session id w) = JStr r → r ≠ "" →
     outbox (handler id (CURSOR_MOVE data) w).2
     = outbox w
       ++ [mkEmitted (BroadcastTo id (JStr r)) "CURSOR_MOVE"
             [JObj [("id", JStr id); ("pos", own_property fields "pos");
                    ("color", userColor (session id w))]]]).
Proof.
  split; [apply isValidCursorData_total|].
  split; [split; [apply isValidCursorData_well_formed
                 |apply well_formed_cursor_isValidCursorData]|].
  cbn [handler]. unfold on_CURSOR_MOVE. step.
  destruct (isValidCursorData_total data) as [b Hb]. rewrite Hb.
  destruct (truthy (currentRoom (session id w))) eqn:Htr.
  - destruct b; cbn [negb].
    + destruct (isValidCursorData_well_formed data Hb) as (fields & -> & _).
      cbn [prop]. split; [done|]. split; [done|]. split; [done|]. split; [done|].
      intros fields' Hf _ Hroom _. injection Hf as <-. by rewrite Hroom.
    + split; [done|]. split; [done|]. split; [done|]. split; [done|].
      by intros fields _ [=].
  - split; [done|]. split; [done|]. split; [done|]. split; [done|].
    intros fields _ Hv Hroom Hr. rewrite Hroom, (truthy_str r Hr) in Htr. done.
Qed.

(** *** The sanitizer again *)

Lemma strip_allowed s : all_allowed s = true → strip s = s.
Proof.
  induction s as [|c s IH]; simpl; [done|].
  intros [Hc Hs]%andb_prop. rewrite Hc. by rewrite IH.
Qed.

Lemma substring_short m s : (String.length s ≤ m)%nat → String.substring 0 m s = s.
Proof.
  revert s. induction m as [|m IH]; intros [|c s]; simpl; try done; try lia.
  intros H. rewrite IH; [done|lia].
Qed.

Lemma sanitizeRoomId_fixed s :
  in_sanitized_set s = true → s ≠ "" → sanitizeRoomId (JStr s) = s.
Proof.
  intros [Hall Hlen]%andb_prop Hne. apply Nat.leb_le in Hlen.
  unfold sanitizeRoomId. rewrite room_key_guard, (room_key_str s Hne). cbv zeta.
  rewrite (strip_allowed s Hall), (substring_short 50 s Hlen).
  by rewrite (truthy_str s Hne).
Qed.

(** [sanitizeRoomId] leaves alone every identifier it could have
    returned, a non-empty string of at most 50 letters, digits and
    hyphens, and so sanitizing twice is sanitizing once; everything that
    is not a string, and every string without a letter, digit or hyphen,
    becomes ['default-room']. *)
Theorem sanitizeRoomId_idempotent (roomId : value) (s : string) :
  sanitizeRoomId (JStr (sanitizeRoomId roomId)) = sanitizeRoomId roomId
  ∧ (in_sanitized_set s = true → s ≠ "" → sanitizeRoomId (JStr s) = s)
  ∧ (typeof roomId ≠ "string" → sanitizeRoomId roomId = "default-room")
  ∧ (strip s = "" → sanitizeRoomId (JStr s) = "default-room").
Proof.
  split; [|split; [|split]].
  - destruct (sanitizeRoomId_nonempty roomId) as [Hset Hne].
    by apply sanitizeRoomId_fixed.
  - apply sanitizeRoomId_fixed.
  - intros Hty. unfold sanitizeRoomId. rewrite room_key_guard.
    destruct roomId as [| |b|n|t|fs|xs]; try reflexivity. by destruct Hty.
  - intros Hs. unfold sanitizeRoomId. rewrite room_key_guard.
    destruct (room_key (JStr s)); [|done]. cbv zeta. by rewrite Hs.
Qed.

(** *** Leaving *)





(** *** What holds of every world *)

Lemma sessions_ok_insert id x (ss : gmap string Session) :
  sessions_ok ss → session_ok x → sessions_ok (<[id := x]> ss).
Proof.
  intros Hss Hx id' x'. rewrite lookup_insert. case_decide.
  - by intros [= <-].
  - apply Hss.
Qed.

Lemma session_ok_session id w : sessions_ok (sessions w) → session_ok (session id w).
Proof.
  intros Hss. unfold session. destruct (sessions w !! id) as [x|] eqn:E; simpl.
  - by apply (Hss id).
  - by left.
Qed.

Lemma states_ok_room_state r σ :
  states_ok σ →
  Z.of_nat (held (DrawingState.room_state r σ)) ≤ DrawingState.MAX_HISTORY_SIZE
  ∧ holds_well_formed (DrawingState.room_state r σ).
Proof.
  intros (_ & Hb & Hwf). split; [by apply bounded_room_state|].
  unfold DrawingState.room_state. destruct (σ !! r) as [s|] eqn:E; simpl.
  - by apply (Hwf r).
  - by split.
Qed.

Lemma states_ok_insert r s (σ : gmap string DrawingState.RoomState) :
  states_ok σ → sane_id r →
  Z.of_nat (held s) ≤ DrawingState.MAX_HISTORY_SIZE → holds_well_formed s →
  states_ok (<[r := s]> σ).
Proof.
  intros (Hk & Hb & Hwf) Hr Hs Hs'. split; [|split].
  - intros r'. rewrite lookup_insert. case_decide; [by subst|]. apply Hk.
  - by apply bounded_insert.
  - intros r' s'. rewrite lookup_insert. case_decide; [by intros [= <-]|]. apply Hwf.
Qed.

Lemma states_ok_delete r (σ : gmap string DrawingState.RoomState) :
  states_ok σ → states_ok (delete r σ).
Proof.
  intros (Hk & Hb & Hwf). split; [|split].
  - intros r'. rewrite lookup_delete. case_decide; [by intros []|]. apply Hk.
  - by apply bounded_delete.
  - intros r' s'. rewrite lookup_delete. case_decide; [done|]. apply Hwf.
Qed.

Lemma states_ok_refresh r (σ : gmap string DrawingState.RoomState) :
  states_ok σ → sane_id r → states_ok (<[r := DrawingState.room_state r σ]> σ).
Proof.
  intros Hσ Hr. destruct (states_ok_room_state r σ Hσ). by apply states_ok_insert.
Qed.

Lemma holds_well_formed_undo s : holds_well_formed s → holds_well_formed (undo_state s).
Proof.
  destruct s as [h st]. intros [Hh Hst]. cbn in Hh, Hst.
  destruct (Nat.eqb (length h) 0) eqn:E.
  - unfold undo_state. cbn [DrawingState.history]. by rewrite E.
  - destruct (push_inv h E) as (h' & v & ->). rewrite undo_state_push.
    unfold push in *. apply Forall_app in Hh as [Hh' Hv].
    split; cbn; [done|]. by apply Forall_app.
Qed.

Lemma holds_well_formed_redo s : holds_well_formed s → holds_well_formed (redo_state s).
Proof.
  destruct s as [h st]. intros [Hh Hst]. cbn in Hh, Hst.
  destruct (Nat.eqb (length st) 0) eqn:E.
  - unfold redo_state. cbn [DrawingState.redoStack]. by rewrite E.
  - destruct (push_inv st E) as (st' & v & ->). rewrite redo_state_push.
    unfold push in *. apply Forall_app in Hst as [Hst' Hv].
    split; cbn; [|done]. by apply Forall_app.
Qed.

Lemma holds_well_formed_add op s :
  well_formed op → holds_well_formed s → holds_well_formed (add_state op s).
Proof.
  intros Hop [Hh Hst]. unfold add_state, push, shift. split; cbn; [|done].
  assert (Forall well_formed (DrawingState.history s ++ [op])) as H.
  { apply Forall_app. split; [done|]. by apply Forall_singleton. }
  destruct (_ >? _); [|done].
  destruct (DrawingState.history s ++ [op]) as [|x l]; [done|].
  by apply Forall_cons in H as [_ H].
Qed.

Lemma rooms_ok_addUser r u (ρ : gmap string RoomManager.Room) :
  rooms_ok ρ → sane_id r → u ≠ "" →
  rooms_ok (RoomManager.addUser (JStr r) (JStr u) ρ).2.
Proof.
  intros (Hk & Hw & Hne) Hr Hu. split; [|split].
  - rewrite addUser_spec, (room_key_str u Hu), (room_key_str r (proj2 Hr)). cbv zeta.
    intros r'. destruct (RoomManager.has _ u); cbn [snd];
      (rewrite lookup_insert; case_decide; [by subst|apply Hk]).
  - apply (well_kept_after (AddUser (JStr r) (JStr u)) ρ Hw).
  - rewrite addUser_spec, (room_key_str u Hu), (room_key_str r (proj2 Hr)). cbv zeta.
    intros r'. destruct (RoomManager.has _ u) eqn:Hhas; cbn [snd];
      (rewrite lookup_insert; case_decide; [|apply Hne]).
    + intros [= Heq]. by rewrite Heq in Hhas.
    + intros [= Heq]. by destruct (RoomManager.room_of r ρ).
Qed.

Lemma rooms_ok_removeUser r userId (ρ : gmap string RoomManager.Room) :
  rooms_ok ρ → sane_id r → rooms_ok (RoomManager.removeUser (JStr r) userId ρ).2.
Proof.
  intros (Hk & Hw & Hne) Hr. split; [|split].
  - rewrite removeUser_spec, (room_key_str r (proj2 Hr)). cbv zeta. cbn [snd].
    intros r'. destruct (Nat.eqb _ 0).
    + rewrite lookup_delete. case_decide; [by intros []|]. apply Hk.
    + rewrite lookup_insert. case_decide; [by subst|]. apply Hk.
  - apply (well_kept_after (RemoveUser (JStr r) userId) ρ Hw).
  - rewrite removeUser_spec, (room_key_str r (proj2 Hr)). cbv zeta. cbn [snd].
    intros r'. destruct (Nat.eqb _ 0) eqn:E.
    + rewrite lookup_delete. case_decide; [done|]. apply Hne.
    + rewrite lookup_insert. case_decide; [|apply Hne].
      intros [= Heq]. by rewrite Heq in E.
Qed.

Lemma on_CURSOR_MOVE_frame id data w :
  rooms (on_CURSOR_MOVE id data w).2 = rooms w
  ∧ roomStates (on_CURSOR_MOVE id data w).2 = roomStates w
  ∧ sessions (on_CURSOR_MOVE id data w).2 = sessions w.
Proof.
  unfold on_CURSOR_MOVE. step.
  destruct (isValidCursorData_total data) as [b Hb]. rewrite Hb.
  destruct (truthy (currentRoom (session id w))); [|done].
  destruct b; cbn [negb]; [|done].
  by destruct (isValidCursorData_well_formed data Hb) as (fields & -> & _).
Qed.

Lemma sound_start : sound start.
Proof.
  split; [|split].
  - intros id x. unfold start. cbn. by rewrite lookup_empty.
  - split; [|split]; cbn.
    + intros r. rewrite lookup_empty. by intros [].
    + intros r room. by rewrite lookup_empty.
    + intros r. by rewrite lookup_empty.
  - split; [|split]; cbn.
    + intros r. rewrite lookup_empty. by intros [].
    + apply bounded_empty.
    + intros r s. by rewrite lookup_empty.
Qed.

Lemma sound_process w e : sound w → sound (process w e).
Proof.
  intros (Hss & Hρ & Hσ). destruct e as [id msg]. unfold process. cbn [fst snd].
  pose proof (session_ok_session id w Hss) as Hx.
  assert (needs_room msg = true → currentRoom (session id w) = JNull →
          sound (handler id msg w).2) as Hnull.
  { intros Hmsg Hnone. rewrite handler_unjoined; [done|done|by rewrite Hnone]. }
  destruct msg as [|roomId|data|data| | | | |]; cbn [handler].
  - (* connection *)
    unfold on_connection, modify. cbn [snd]. split; [|done]. cbn.
    apply sessions_ok_insert; [done|by left].
  - (* JOIN_ROOM *)
    destruct (sanitizeRoomId_nonempty roomId) as [Hset Hne].
    assert (sane_id (sanitizeRoomId roomId)) as Hsane by done.
    destruct (decide (id = "")) as [->|Hid].
    + rewrite on_JOIN_ROOM_nameless. cbn [snd]. split; [|done]. cbn.
      apply sessions_ok_insert; [done|]. right. by eexists.
    + rewrite (on_JOIN_ROOM_joined id roomId w Hid). cbn [snd].
      split; [|split]; cbn [sessions rooms roomStates].
      * apply sessions_ok_insert; [done|]. right. by eexists.
      * by apply rooms_ok_addUser.
      * by apply states_ok_refresh.
  - (* DRAW *)
    destruct Hx as [Hx|(r & Hx & Hr)]; [by apply Hnull|].
    destruct (isValidOperation_total data) as [[|] Hv].
    + rewrite (on_DRAW_joined id data w r Hv Hx (proj2 Hr)). cbn [snd].
      split; [done|]. split; [done|]. cbn [roomStates].
      destruct (states_ok_room_state r _ Hσ) as [Hh Hwf].
      apply states_ok_insert; [done|done| |].
      * apply held_add_state. unfold held in Hh. lia.
      * apply holds_well_formed_add; [|done]. by apply isValidOperation_well_formed.
    + by rewrite (on_DRAW_invalid id data w Hv).
  - (* CURSOR_MOVE *)
    destruct (on_CURSOR_MOVE_frame id data w) as (H1 & H2 & H3).
    unfold sound. by rewrite H1, H2, H3.
  - (* UNDO *)
    destruct Hx as [Hx|(r & Hx & Hr)]; [by apply Hnull|].
    rewrite (on_UNDO_joined id w r Hx (proj2 Hr)). cbn [snd].
    split; [done|]. split; [done|]. cbn [roomStates].
    destruct (states_ok_room_state r _ Hσ) as [Hh Hwf].
    apply states_ok_insert; [done|done| |].
    * by rewrite held_combined, combined_undo_state, <-held_combined.
    * by apply holds_well_formed_undo.
  - (* REDO *)
    destruct Hx as [Hx|(r & Hx & Hr)]; [by apply Hnull|].
    rewrite (on_REDO_joined id w r Hx (proj2 Hr)). cbn [snd].
    split; [done|]. split; [done|]. cbn [roomStates].
    destruct (states_ok_room_state r _ Hσ) as [Hh Hwf].
    apply states_ok_insert; [done|done| |].
    * by rewrite held_combined, combined_redo_state, <-held_combined.
    * by apply holds_well_formed_redo.
  - (* CLEAR *)
    destruct Hx as [Hx|(r & Hx & Hr)]; [by apply Hnull|].
    rewrite (on_CLEAR_joined id w r Hx (proj2 Hr)). cbn [snd].
    split; [done|]. split; [done|]. cbn [roomStates].
    apply states_ok_insert; [done|done|by vm_compute|by split].
  - (* REQUEST_HISTORY *)
    destruct Hx as [Hx|(r & Hx & Hr)]; [by apply Hnull|].
    rewrite (on_REQUEST_HISTORY_joined id w r Hx (proj2 Hr)). cbn [snd].
    split; [done|]. split; [done|]. cbn [roomStates].
    by apply states_ok_refresh.
  - (* disconnect *)
    destruct Hx as [Hx|(r & Hx & Hr)]; [by apply Hnull|].
    rewrite (on_disconnect_joined id w r Hx (proj2 Hr)). cbn [snd].
    split; [done|]. split; cbn [rooms roomStates].
    + by apply rooms_ok_removeUser.
    + destruct (_ !! r) as [[|e room]|]; [| |]; try done; by apply states_ok_delete.
Qed.

Lemma sound_process_all es w : sound w → sound (process_all es w).
Proof.
  revert w. unfold process_all. induction es as [|e es IH]; intros w Hw; [done|].
  cbn [foldl]. by apply IH, sound_process.
Qed.

(** Whatever the connections send as room identifiers, only sanitized
    ones reach the registry and the history store: in every world the
    server reaches from its start, each room of the registry, each room
    of the history store and the room each connection is in has a
    non-empty identifier of at most 50 letters, digits and hyphens. *)
Theorem reachable_ids_sanitized (es : list (string * inbound)) (id r : string) :
  (is_Some (rooms (process_all es start) !! r) → in_sanitized_set r = true ∧ r ≠ "")
  ∧ (is_Some (roomStates (process_all es start) !! r) → in_sanitized_set r = true ∧ r ≠ "")
  ∧ (currentRoom (session id (process_all es start)) = JNull
     ∨ ∃ r', currentRoom (session id (process_all es start)) = JStr r'
             ∧ in_sanitized_set r' = true ∧ r' ≠ "").
Proof.
  destruct (sound_process_all es start sound_start) as (Hss & (Hk & _) & (Hk' & _)).
  split; [apply Hk|]. split; [apply Hk'|].
  by apply session_ok_session.
Qed.

(** Only operations that pass [isValidOperation] are ever stored: in
    every world the server reaches from its start, every entry of every
    history and of every redo stack is accepted by the check. *)
Theorem reachable_ops_valid (es : list (string * inbound)) (r : string) :
  Forall (λ op, isValidOperation op = Ok true)
    (DrawingState.history (DrawingState.room_state r (roomStates (process_all es start))))
  ∧ Forall (λ op, isValidOperation op = Ok true)
      (DrawingState.redoStack (DrawingState.room_state r (roomStates (process_all es start)))).
Proof.
  destruct (sound_process_all es start sound_start) as (_ & _ & Hσ).
  destruct (states_ok_room_state r _ Hσ) as [_ [Hh Hst]].
  split; (eapply Forall_impl; [eassumption|]); intros op;
    apply well_formed_isValidOperation.
Qed.

(** The bound holds for the server as a whole: in every world it reaches
    from its start, the history and the redo stack of a room hold at most
    [MAX_HISTORY_SIZE] operations together. *)
Theorem reachable_bounded (es : list (string * inbound)) (r : string) :
  Z.of_nat
    (length (DrawingState.history
               (DrawingState.room_state r (roomStates (process_all es start))))
     + length (DrawingState.redoStack
                 (DrawingState.room_state r (roomStates (process_all es start)))))
  ≤ DrawingState.MAX_HISTORY_SIZE.
Proof.
  destruct (sound_process_all es start sound_start) as (_ & _ & Hσ).
  by destruct (states_ok_room_state r _ Hσ) as [Hh _].
Qed.

(** In every world the server reaches from its start the registry holds
    no empty room, lists a member once in a room, and every member has a
    colour of the palette; so [getUserCount] is 0 for the rooms the
    registry does not know, and for those only. *)
Theorem reachable_registry (es : list (string * inbound)) (r : string) :
  rooms (process_all es start) !! r ≠ Some []
  ∧ NoDup (ids (RoomManager.room_of r (rooms (process_all es start))))
  ∧ Forall palette_color (RoomManager.room_of r (rooms (process_all es start)))
  ∧ ((RoomManager.getUserCount (JStr r) (rooms (process_all es start))).1 = Ok 0%nat
     ↔ rooms (process_all es start) !! r = None).
Proof.
  destruct (sound_process_all es start sound_start) as (_ & (_ & Hw & Hne) & _).
  destruct (well_kept_room_of r _ Hw) as [Hnd Hpal].
  split; [apply Hne|]. split; [done|]. split; [done|].
  unfold RoomManager.getUserCount, gets. cbn [fst].
  specialize (Hne r).
  destruct (rooms (process_all es start) !! r) as [[|e room]|]; split; try done.
Qed.

End ServerLaws.

(** ** Properties of the client *)

Module ClientLaws.
Import Server Client GatewayTerms ClientTerms.
Local Open Scope list_scope.

(** *** Objects *)

Lemma own_property_set_eq fields k v : own_property (set_property fields k v) k = v.
Proof.
  induction fields as [|[k' v'] rest IH]; cbn [set_property own_property].
  - by rewrite String.eqb_refl.
  - destruct (String.eqb k' k) eqn:E; cbn [own_property]; by rewrite E.
Qed.

Lemma own_property_set_ne fields k v k' :
  k ≠ k' → own_property (set_property fields k v) k' = own_property fields k'.
Proof.
  intros Hne. induction fields as [|[k0 v0] rest IH]; cbn [set_property own_property].
  - by apply String.eqb_neq in Hne as ->.
  - destruct (String.eqb k0 k) eqn:E; cbn [own_property].
    + apply String.eqb_eq in E as ->. by apply String.eqb_neq in Hne as ->.
    + by rewrite IH.
Qed.

(** *** The throttle *)

Lemma filter_stamp (t : Z) (msgs : list inbound) :
  List.filter (λ m : Z * inbound, is_cursor_move m.2) (map (pair t) msgs)
  = map (pair t) (List.filter is_cursor_move msgs).
Proof.
  induction msgs as [|m msgs IH]; [done|]. cbn [map List.filter snd].
  destruct (is_cursor_move m); cbn [map]; by rewrite IH.
Qed.

Lemma on_keydown_client (e : KeyboardEvent) (a : App) :
  wsClient (on_keydown e a) = wsClient a
  ∨ wsClient (on_keydown e a) = sendUndo (wsClient a)
  ∨ wsClient (on_keydown e a) = sendRedo (wsClient a).
Proof.
  unfold on_keydown.
  destruct (shiftKey e), ((ctrlKey e || metaKey e) && String.eqb (key e) "z");
    cbn [andb negb];
    destruct (String.eqb (key e) "b" || String.eqb (key e) "B"),
             (String.eqb (key e) "e" || String.eqb (key e) "E");
    cbn [onView onClient wsClient]; auto.
Qed.

(** An event appends to the socket; what it appends is one cursor
    position, at least [cursorThrottleMs] after the one before, or no
    cursor position, and then the time of the last one stays. *)
Lemma handle_sends (a : App) (now : Z) (ev : event) :
  ∃ msgs, socket (wsClient (handle a now ev)) = socket (wsClient a) ++ msgs
    ∧ ((List.filter is_cursor_move msgs = []
        ∧ lastCursorSend (wsClient (handle a now ev)) = lastCursorSend (wsClient a))
       ∨ (∃ data, msgs = [CURSOR_MOVE data]
          ∧ lastCursorSend (wsClient (handle a now ev)) = now
          ∧ lastCursorSend (wsClient a) + cursorThrottleMs ≤ now)).
Proof.
  destruct a as [v [s l c n]].
  assert (∀ m, is_cursor_move m = false →
            ∃ msgs, s ++ [m] = s ++ msgs
              ∧ ((List.filter is_cursor_move msgs = [] ∧ l = l)
                 ∨ (∃ data, msgs = [CURSOR_MOVE data] ∧ l = now ∧ l + cursorThrottleMs ≤ now)))
    as Hone.
  { intros m Hm. exists [m]. split; [done|]. left. cbn. by rewrite Hm. }
  assert (∃ msgs, s = s ++ msgs
            ∧ ((List.filter is_cursor_move msgs = [] ∧ l = l)
               ∨ (∃ data, msgs = [CURSOR_MOVE data] ∧ l = now ∧ l + cursorThrottleMs ≤ now)))
    as Hnone.
  { exists []. split; [by rewrite app_nil_r|]. by left. }
  destruct ev.
  13: { cbn [handle]. destruct (on_keydown_client e (mkApp v (mkWebSocketClient s l c n))) as [->|[->| ->]];
        cbn [wsClient]; unfold sendUndo, sendRedo, emit; destruct c; cbn; auto. }
  all: cbn; unfold _onMouseMove, call, onDraw, onCursorMove, sendDraw, sendCursor, sendUndo, sendRedo, sendClear, requestHistory, resizeCanvas, call, onRequestHistory, on_connect, on_reconnect, on_reconnect_attempt, on_disconnect, emit; cbn.
  all: try destruct (isDrawing v); try destruct c; try destruct confirm; cbn; auto.
  destruct (now - l <? cursorThrottleMs) eqn:E; cbn; [done|].
  apply Z.ltb_ge in E. eexists. split; [reflexivity|]. right. eexists.
  split; [reflexivity|]. split; [done|lia].
Qed.

(** The log lists what the events appended to the socket. *)
Lemma run_log (evs : list (Z * event)) (a : App) :
  socket (wsClient (run evs a)) = socket (wsClient a) ++ map snd (log evs a).
Proof.
  revert a. induction evs as [|[t ev] evs IH]; intros a; cbn [run foldl log fst snd].
  - by rewrite app_nil_r.
  - fold (run evs (handle a t ev)). rewrite IH. unfold sent_by.
    destruct (handle_sends a t ev) as (msgs & -> & _).
    rewrite drop_app_length, map_app, <- app_assoc. f_equal. f_equal.
    rewrite map_map. cbn [snd]. by rewrite map_id.
Qed.

Lemma cursor_times_cons (t : Z) (ev : event) (evs : list (Z * event)) (a : App) :
  cursor_times ((t, ev) :: evs) a
  = map (λ _, t) (List.filter is_cursor_move (sent_by a t ev))
    ++ cursor_times evs (handle a t ev).
Proof.
  unfold cursor_times. cbn [log fst snd].
  by rewrite List.filter_app, map_app, filter_stamp, map_map.
Qed.

(** Cursor positions go out at most once in 50 ms: of the clock readings
    at which the client emitted a cursor position, each is at least
    [cursorThrottleMs] after the one before, whatever else happens in
    between and whether or not the clock runs forward.  The log these
    readings are taken from lists exactly what was emitted. *)
Theorem cursor_moves_throttled (evs : list (Z * event)) (a : App) :
  socket (wsClient (run evs a)) = socket (wsClient a) ++ map snd (log evs a)
  ∧ Forall (λ t, lastCursorSend (wsClient a) + cursorThrottleMs ≤ t) (cursor_times evs a)
  ∧ StronglySorted (λ t t', t + cursorThrottleMs ≤ t') (cursor_times evs a).
Proof.
  split; [apply run_log|].
  revert a. induction evs as [|[t ev] evs IH]; intros a.
  - split; constructor.
  - rewrite cursor_times_cons. unfold sent_by.
    destruct (IH (handle a t ev)) as [Hall Hsorted].
    destruct (handle_sends a t ev) as (msgs & -> & [[Hf Hl]|(data & -> & Hl & Hle)]);
      rewrite drop_app_length; [rewrite Hf|]; cbn [map List.filter is_cursor_move app].
    + rewrite Hl in Hall. done.
    + rewrite Hl in Hall. split.
      * constructor; [done|]. eapply Forall_impl; [exact Hall|].
        unfold cursorThrottleMs in *. intros t' Ht'. cbv beta in *. lia.
      * by constructor.
Qed.

Example cursor_times_sample : cursor_times sample_session main = [1040; 1100].
Proof. reflexivity. Qed.

(** *** The operations *)

Lemma tool_state_ok_new : tool_state_ok (state new_CanvasView).
Proof.
  split; [by left|]. split.
  - exists 5%float. by split.
  - by exists "#000000".
Qed.

Lemma tool_state_ok_tool (st : list (string * value)) (t : string) :
  t = "brush" ∨ t = "eraser" →
  tool_state_ok st → tool_state_ok (assign st [("tool", JStr t)]).
Proof.
  intros Ht (_ & Hw & Hc). unfold assign. cbn [foldl fst snd]. split; [|split].
  - rewrite own_property_set_eq. destruct Ht as [-> | ->]; auto.
  - by rewrite own_property_set_ne.
  - by rewrite own_property_set_ne.
Qed.

Lemma tool_state_ok_lineWidth (st : list (string * value)) (w : float) :
  width_in_range w →
  tool_state_ok st → tool_state_ok (assign st [("lineWidth", JNum w)]).
Proof.
  intros Hr (Ht & _ & Hc). unfold assign. cbn [foldl fst snd]. split; [|split].
  - by rewrite own_property_set_ne.
  - rewrite own_property_set_eq. by exists w.
  - by rewrite own_property_set_ne.
Qed.

Lemma tool_state_ok_color (st : list (string * value)) (c : string) :
  c ≠ "" →
  tool_state_ok st → tool_state_ok (assign st [("color", JStr c)]).
Proof.
  intros Hne (Ht & Hw & _). unfold assign. cbn [foldl fst snd]. split; [|split].
  - by rewrite own_property_set_ne.
  - by rewrite own_property_set_ne.
  - rewrite own_property_set_eq. by exists c.
Qed.

Lemma is_point_getMousePos (rect : DOMRect) (e : MouseEvent) :
  is_point (_getMousePos rect e).
Proof. by eexists _, _, _. Qed.

(** The operation that [_onMouseMove] builds. *)
Lemma operation_segment (st : list (string * value)) (p q : value) :
  JObj (if is_str (own_property st "tool") "brush"
        then set_property [("tool", own_property st "tool");
                           ("lineWidth", own_property st "lineWidth");
                           ("from", p); ("to", q)]
                          "color" (own_property st "color")
        else [("tool", own_property st "tool");
              ("lineWidth", own_property st "lineWidth");
              ("from", p); ("to", q)])
  = segment st p q.
Proof. unfold segment. by destruct (is_str (own_property st "tool") "brush"). Qed.

Lemma segment_well_formed (st : list (string * value)) (p q : value) :
  tool_state_ok st → is_point p → is_point q → well_formed (segment st p q).
Proof.
  intros (Ht & (w & Hw & Hr) & (c & Hc & Hne)) Hp Hq. unfold segment.
  eexists. split; [reflexivity|].
  destruct Ht as [Ht|Ht]; rewrite Ht; cbn [is_str String.eqb Ascii.eqb Bool.eqb app own_property];
    repeat split; try done.
  - by exists w.
  - right. split; [done|]. by exists c.
  - by exists w.
  - by left.
Qed.

Lemma handle_Mousemove_drawing (v : CanvasView) (c : WebSocketClient) (now : Z)
    (rect : DOMRect) (e : MouseEvent) :
  isDrawing v = true →
  handle (mkApp v c) now (Mousemove rect e)
  = mkApp (mkCanvasView (state v) true (_getMousePos rect e))
          (sendDraw (segment (state v) (lastPos v) (_getMousePos rect e)) c).
Proof.
  intros Hd. cbn [handle canvasView wsClient]. unfold _onMouseMove.
  rewrite Hd. cbv zeta. by rewrite operation_segment.
Qed.

Lemma handle_Mousemove_idle (v : CanvasView) (c : WebSocketClient) (now : Z)
    (rect : DOMRect) (e : MouseEvent) :
  isDrawing v = false →
  handle (mkApp v c) now (Mousemove rect e)
  = mkApp v (sendCursor now (_getMousePos rect e) c).
Proof.
  intros Hd. cbn [handle canvasView wsClient]. unfold _onMouseMove.
  by rewrite Hd.
Qed.

Lemma on_keydown_view (e : KeyboardEvent) (a : App) :
  tool_state_ok (state (canvasView a)) →
  tool_state_ok (state (canvasView (on_keydown e a)))
  ∧ lastPos (canvasView (on_keydown e a)) = lastPos (canvasView a).
Proof.
  intros Hok. unfold on_keydown.
  destruct ((ctrlKey e || metaKey e) && String.eqb (key e) "z" && negb (shiftKey e)),
           ((ctrlKey e || metaKey e) && String.eqb (key e) "z" && shiftKey e),
           (String.eqb (key e) "b" || String.eqb (key e) "B"),
           (String.eqb (key e) "e" || String.eqb (key e) "E");
    cbn [onView onClient canvasView setState state lastPos]; split; try done;
    repeat (apply tool_state_ok_tool; [auto|]); done.
Qed.

(** An event of the expected kind keeps the tool state good and the
    last position a point, and appends well-formed operations only. *)
Lemma handle_well_formed (a : App) (now : Z) (ev : event) :
  in_range ev →
  tool_state_ok (state (canvasView a)) → is_point (lastPos (canvasView a)) →
  tool_state_ok (state (canvasView (handle a now ev)))
  ∧ is_point (lastPos (canvasView (handle a now ev)))
  ∧ ∃ msgs, socket (wsClient (handle a now ev)) = socket (wsClient a) ++ msgs
      ∧ ∀ op, DRAW op ∈ msgs → well_formed op.
Proof.
  intros Hev Hok Hp. destruct a as [v c].
  assert (∀ m, (∀ op, m ≠ DRAW op) →
            ∃ msgs, socket (emit m c) = socket c ++ msgs
              ∧ ∀ op, DRAW op ∈ msgs → well_formed op) as Hone.
  { intros m Hm. exists [m]. split; [done|].
    intros op [Heq|[]%elem_of_nil]%elem_of_cons. by destruct (Hm op). }
  assert (∃ msgs, socket c = socket c ++ msgs
            ∧ ∀ op, DRAW op ∈ msgs → well_formed op) as Hnone.
  { exists []. split; [by rewrite app_nil_r|]. by intros op []%elem_of_nil. }
  destruct ev.
  2: { cbn [canvasView wsClient] in *. destruct (isDrawing v) eqn:Hd.
       - rewrite (handle_Mousemove_drawing v c now rect e Hd).
         cbn [canvasView wsClient state lastPos].
         split; [done|]. split; [apply is_point_getMousePos|].
         unfold sendDraw. destruct (isConnected c); cbn [negb]; [|done].
         eexists [_]. split; [reflexivity|].
         intros op [[= ->]|[]%elem_of_nil]%elem_of_cons.
         apply segment_well_formed; [done|done|apply is_point_getMousePos].
       - rewrite (handle_Mousemove_idle v c now rect e Hd).
         cbn [canvasView wsClient]. split; [done|]. split; [done|].
         unfold sendCursor. destruct (isConnected c); cbn [negb]; [|done].
         destruct (now - lastCursorSend c <? cursorThrottleMs); [done|].
         eexists [_]. split; [reflexivity|].
         by intros op [[=]|[]%elem_of_nil]%elem_of_cons. }
  12: { cbn [handle]. destruct (on_keydown_view e (mkApp v c) Hok) as [Hok' ->].
        split; [done|]. split; [done|].
        destruct (on_keydown_client e (mkApp v c)) as [->|[->| ->]];
          cbn [wsClient]; unfold sendUndo, sendRedo; destruct (isConnected c);
          cbn [negb]; auto. }
  all: cbn [handle onView onClient canvasView wsClient _onMouseDown _onMouseUp setState
            state lastPos in_range] in *.
  all: try (split; [first [done | by apply tool_state_ok_color
                               | by apply tool_state_ok_lineWidth
                               | apply tool_state_ok_tool; auto]|];
            split; [first [done | apply is_point_getMousePos]|]).
  all: unfold resizeCanvas, call, onRequestHistory, requestHistory, sendUndo, sendRedo,
         sendClear, on_connect, on_reconnect, on_reconnect_attempt, on_disconnect;
       try destruct (isConnected c); try destruct confirm; cbn [negb]; auto.
  all: eexists [_]; split; [reflexivity|];
       by intros op [[=]|[]%elem_of_nil]%elem_of_cons.
Qed.

Lemma run_well_formed (evs : list (Z * event)) (a : App) :
  Forall (λ ev, in_range ev.2) evs →
  tool_state_ok (state (canvasView a)) → is_point (lastPos (canvasView a)) →
  (∀ op, DRAW op ∈ socket (wsClient a) → well_formed op) →
  ∀ op, DRAW op ∈ socket (wsClient (run evs a)) → well_formed op.
Proof.
  revert a. induction evs as [|[t ev] evs IH]; intros a Hevs Hok Hp Hs; [done|].
  apply Forall_cons in Hevs as [Hev Hevs]. cbn [run foldl fst snd] in *.
  destruct (handle_well_formed a t ev Hev Hok Hp) as (Hok' & Hp' & msgs & Hmsgs & Hwf).
  apply IH; try done. rewrite Hmsgs. intros op [?|?]%elem_of_app; auto.
Qed.

(** Every drawing operation that the client emits passes the server's
    check, as long as the colours that the colour picker hands over are
    not empty and the widths from the slider are from 1 to 100. *)
Theorem client_draws_pass_check (evs : list (Z * event)) (op : value) :
  Forall (λ ev, in_range ev.2) evs →
  DRAW op ∈ socket (wsClient (run evs main)) →
  isValidOperation op = Ok true.
Proof.
  intros Hevs Hop. apply ServerFacts.well_formed_isValidOperation.
  apply (run_well_formed evs main); try done.
  - apply tool_state_ok_new.
  - by eexists _, _, _.
  - by intros op' []%elem_of_nil.
Qed.

Lemma client_draws_pass_check_witness :
  Forall (λ ev, in_range ev.2) sample_session
  ∧ isValidOperation (segment (state new_CanvasView)
                        (JObj [("x", JNum 2); ("y", JNum 12)])
                        (JObj [("x", JNum 3); ("y", JNum 14)]))
    = Ok true.
Proof.
  assert (Forall (λ ev, in_range ev.2) sample_session) as H.
  { unfold sample_session. repeat constructor. }
  split; [exact H|].
  apply (client_draws_pass_check sample_session _ H).
  vm_compute. apply list_elem_of_further, list_elem_of_here.
Defined.

(** *** Strokes *)

Lemma run_app (evs evs' : list (Z * event)) (a : App) :
  run (evs ++ evs') a = run evs' (run evs a).
Proof.
  revert a. induction evs as [|ev evs IH]; intros a; [done|]. apply IH.
Qed.

Lemma run_cons (ev : Z * event) (evs : list (Z * event)) (a : App) :
  run (ev :: evs) a = run evs (handle a ev.1 ev.2).
Proof. done. Qed.

Lemma run_moves (ms : list (Z * (DOMRect * MouseEvent)))
    (st : list (string * value)) (p : value) (c : WebSocketClient) :
  socket (wsClient (run (map (λ m, (m.1, Mousemove m.2.1 m.2.2)) ms)
                        (mkApp (mkCanvasView st true p) c)))
  = socket c
    ++ (if isConnected c
        then map DRAW (polyline st p (map (λ m, point m.2) ms))
        else []).
Proof.
  revert p c. induction ms as [|[t [rect e]] ms IH]; intros p c.
  - cbn. destruct (isConnected c); by rewrite app_nil_r.
  - cbn [map]. rewrite run_cons. cbn [fst snd].
    rewrite handle_Mousemove_drawing by done.
    cbn [state lastPos]. rewrite IH. unfold sendDraw.
    destruct (isConnected c) eqn:Hc; cbn [negb]; [|by rewrite Hc].
    cbn [emit socket isConnected polyline map point fst snd]. rewrite Hc.
    by rewrite <- app_assoc.
Qed.

(** A stroke goes out as the polyline through its points: pressing the
    button, moving through the points [ms] and releasing the button
    makes a connected client emit one operation for each move, from the
    point before to the point of the move, with the tool state of the
    view, and nothing else.  A client that is not connected emits
    nothing for the stroke. *)
Theorem stroke_sends_polyline (a : App) (m0 : Z * (DOMRect * MouseEvent))
    (ms : list (Z * (DOMRect * MouseEvent))) (up : Z) :
  socket (wsClient (run (stroke m0 ms up) a))
  = socket (wsClient a)
    ++ (if isConnected (wsClient a)
        then map DRAW (polyline (state (canvasView a)) (point m0.2)
                                (map (λ m, point m.2) ms))
        else []).
Proof.
  destruct a as [v c], m0 as [t0 [rect0 e0]]. unfold stroke.
  rewrite run_cons, run_app, run_cons.
  cbn [run foldl fst snd handle onView _onMouseDown _onMouseUp canvasView wsClient state].
  apply run_moves.
Qed.

End ClientLaws.
